(** * cfn-cost-calc: cost estimation and diff engine

    A shallow embedding of the TypeScript sources

      - [src/template-parser.ts]  (intrinsic resolver, property reader)
      - [src/pricing-data.ts]     (regional pricing table, free / usage sets)
      - [src/cost-calculator.ts]  (calculator registry, stack aggregator)
      - [src/diff-calculator.ts]  (diff engine)

    Conventions of the embedding.

    - A JavaScript [number] is a rational ([Q]): arithmetic is exact, and
      there is no rounding, no infinity and no NaN.  The coercions that
      would produce NaN are parameters of the [Runtime] class.
    - A parsed JSON document is a [value].  An object is an association
      list in enumeration order; its keys are pairwise distinct, and a
      property read is an own-property read (members inherited from
      [Object.prototype] are not part of the model).  The lookup of a
      region among the regional multipliers is the exception: its key
      is any string, and the inherited members are modelled there.
    - Code that can throw returns an [outcome]; the exception is
      represented by its message.
    - Strings are byte strings; case conversion acts on ASCII letters. *)

From Stdlib Require Import QArith Qround Qabs Qminmax String Ascii List ZArith Lia Bool.
From Stdlib Require Import Permutation DecimalString Sorted Lqa.
From stdpp Require Import base gmap strings list.
Import ListNotations.
Open Scope string_scope.
Open Scope Q_scope.

(** ** JavaScript values *)

Unset Elimination Schemes.
Inductive value : Type :=
| VUndef
| VNull
| VBool (b : bool)
| VNum (q : Q)
| VStr (s : string)
| VArr (items : list value)
| VObj (fields : list (string * value)).
Set Elimination Schemes.

(** A computation that may throw; an exception is its [message]. *)
Inductive outcome (A : Type) : Type :=
| Returns (a : A)
| Throws (message : string).
Arguments Returns {A} a.
Arguments Throws {A} message.

Definition bind {A B : Type} (m : outcome A) (k : A -> outcome B) : outcome B :=
  match m with
  | Returns a => k a
  | Throws msg => Throws msg
  end.

Declare Scope outcome_scope.
Delimit Scope outcome_scope with outcome.
Notation "'let*' x ':=' m 'in' k" := (bind m (fun x => k))
  (at level 10, x name, m at level 100, k at level 200) : outcome_scope.
Notation "'let*' ' p ':=' m 'in' k" := (bind m (fun x => match x with p => k end))
  (at level 10, p strict pattern, m at level 100, k at level 200) : outcome_scope.
Open Scope outcome_scope.

(** Parts of the JavaScript engine the sources rely on but that have no
    rational counterpart or are locale dependent. *)
Class Runtime : Type := {
  (** stands for the result of a coercion that yields NaN *)
  NaN : Q;
  (** [Number(s)] on a string *)
  StringToNumber : string -> Q;
  (** [String(n)] on a number *)
  NumberToString : Q -> string;
  (** [n.toLocaleString()] *)
  NumberToLocaleString : Q -> string
}.

Module JS.

(** [typeof v === 'object'] : objects, arrays and [null]. *)
Definition typeof_object (v : value) : bool :=
  match v with
  | VNull | VArr _ | VObj _ => true
  | _ => false
  end.

Definition is_nullish (v : value) : bool :=
  match v with
  | VUndef | VNull => true
  | _ => false
  end.

Definition is_undefined (v : value) : bool :=
  match v with
  | VUndef => true
  | _ => false
  end.

(** ToBoolean *)
Definition truthy (v : value) : bool :=
  match v with
  | VUndef | VNull => false
  | VBool b => b
  | VNum q => negb (Qeq_bool q 0)
  | VStr s => negb (String.eqb s "")
  | VArr _ | VObj _ => true
  end.

(** Own property of an object literal. *)
Fixpoint own (fields : list (string * value)) (key : string) : option value :=
  match fields with
  | [] => None
  | (k, v) :: rest => if String.eqb k key then Some v else own rest key
  end.

(** ['key' in obj] for a plain object. *)
Definition has_key (fields : list (string * value)) (key : string) : bool :=
  match own fields key with
  | Some _ => true
  | None => false
  end.

Definition is_digit (c : ascii) : bool :=
  let n := nat_of_ascii c in (48 <=? n)%nat && (n <=? 57)%nat.

Fixpoint digits_value (s : string) (acc : nat) : option nat :=
  match s with
  | EmptyString => Some acc
  | String c rest =>
      if is_digit c
      then digits_value rest (10 * acc + (nat_of_ascii c - 48))%nat
      else None
  end.

(** A canonical array index: decimal digits without a leading zero. *)
Definition array_index (key : string) : option nat :=
  match key with
  | EmptyString => None
  | String c rest =>
      if Ascii.eqb c "0"
      then (match rest with EmptyString => Some 0%nat | _ => None end)
      else digits_value key 0
  end.

Definition nat_to_Q (n : nat) : Q := inject_Z (Z.of_nat n).

(** [v[key]] on a receiver that is neither [null] nor [undefined]. *)
Definition get (v : value) (key : string) : value :=
  match v with
  | VObj fields =>
      match own fields key with
      | Some x => x
      | None => VUndef
      end
  | VArr items =>
      if String.eqb key "length" then VNum (nat_to_Q (List.length items))
      else match array_index key with
           | Some i => nth i items VUndef
           | None => VUndef
           end
  | VStr s =>
      if String.eqb key "length" then VNum (nat_to_Q (String.length s))
      else match array_index key with
           | Some i =>
               match String.get i s with
               | Some c => VStr (String c EmptyString)
               | None => VUndef
               end
           | None => VUndef
           end
  | _ => VUndef
  end.

Definition describe_nullish (v : value) : string :=
  match v with
  | VNull => "null"
  | _ => "undefined"
  end.

Definition cannot_read (v : value) (key : string) : string :=
  "Cannot read properties of " ++ describe_nullish v ++ " (reading '" ++ key ++ "')".

(** [v.key] : a [TypeError] on [null] and [undefined]. *)
Definition member (v : value) (key : string) : outcome value :=
  if is_nullish v then Throws (cannot_read v key) else Returns (get v key).

(** [v?.key] *)
Definition opt_member (v : value) (key : string) : value :=
  if is_nullish v then VUndef else get v key.

(** [a || b] on already evaluated operands. *)
Definition or (a b : value) : value := if truthy a then a else b.

(** [a || b] where evaluating an operand may throw; [b] is evaluated
    only when [a] is falsy. *)
Definition or_else (a b : outcome value) : outcome value :=
  let* x := a in if truthy x then Returns x else b.

(** Strict equality with a string literal. *)
Definition is_string (v : value) (s : string) : bool :=
  match v with
  | VStr s' => String.eqb s' s
  | _ => false
  end.

(** [v === true] *)
Definition is_true (v : value) : bool :=
  match v with
  | VBool true => true
  | _ => false
  end.

(** [typeof v === 'number'] *)
Definition typeof_number (v : value) : bool :=
  match v with
  | VNum _ => true
  | _ => false
  end.

Definition lower_ascii (c : ascii) : ascii :=
  let n := nat_of_ascii c in
  if (65 <=? n)%nat && (n <=? 90)%nat then ascii_of_nat (n + 32) else c.

Definition upper_ascii (c : ascii) : ascii :=
  let n := nat_of_ascii c in
  if (97 <=? n)%nat && (n <=? 122)%nat then ascii_of_nat (n - 32) else c.

Fixpoint map_string (f : ascii -> ascii) (s : string) : string :=
  match s with
  | EmptyString => EmptyString
  | String c rest => String (f c) (map_string f rest)
  end.

Definition toLowerCase : string -> string := map_string lower_ascii.
Definition toUpperCase : string -> string := map_string upper_ascii.

(** [s.startsWith(p)] *)
Definition startsWith (s p : string) : bool := String.prefix p s.

(** [s.includes(p)] *)
Fixpoint includes (s p : string) : bool :=
  String.prefix p s ||
  match s with
  | EmptyString => false
  | String _ rest => includes rest p
  end.

(** [s.endsWith(p)] *)
Definition endsWith (s p : string) : bool :=
  let n := String.length s in
  let m := String.length p in
  (m <=? n)%nat && String.eqb (String.substring (n - m) m s) p.

Fixpoint split_from (sep : ascii) (s : string) (cur : string) : list string :=
  match s with
  | EmptyString => [cur]
  | String c rest =>
      if Ascii.eqb c sep
      then cur :: split_from sep rest EmptyString
      else split_from sep rest (cur ++ String c EmptyString)
  end.

(** [s.split('.')] *)
Definition split_dot (s : string) : list string := split_from "."%char s EmptyString.

Fixpoint join (sep : string) (parts : list string) : string :=
  match parts with
  | [] => ""
  | [p] => p
  | p :: rest => p ++ sep ++ join sep rest
  end.

Definition not_a_function (callee : string) : string := callee ++ " is not a function".

Section Coercions.
Context {rt : Runtime}.

(** ToString *)
Fixpoint ToString (v : value) : string :=
  match v with
  | VUndef => "undefined"
  | VNull => "null"
  | VBool true => "true"
  | VBool false => "false"
  | VNum q => NumberToString q
  | VStr s => s
  | VArr items =>
      join "," (List.map (fun x => if is_nullish x then "" else ToString x) items)
  | VObj _ => "[object Object]"
  end.

(** ToNumber *)
Definition ToNumber (v : value) : Q :=
  match v with
  | VUndef => NaN
  | VNull => 0
  | VBool true => 1
  | VBool false => 0
  | VNum q => q
  | VStr s => StringToNumber s
  | VArr _ | VObj _ => StringToNumber (ToString v)
  end.

(** [a + b] : concatenation as soon as one operand is a string or an
    object, numeric addition otherwise. *)
Definition add (a b : value) : value :=
  match a, b with
  | (VStr _ | VArr _ | VObj _), _ | _, (VStr _ | VArr _ | VObj _) =>
      VStr (ToString a ++ ToString b)
  | _, _ => VNum (ToNumber a + ToNumber b)
  end.

(** [v[i]] with a numeric subscript on an array: the element when [i] is
    an integer within bounds, [undefined] otherwise. *)
Definition subscript (items : list value) (i : Q) : value :=
  let r := Qred i in
  if (Qden r =? 1)%positive && (0 <=? Qnum r)%Z
  then nth (Z.to_nat (Qnum r)) items VUndef
  else VUndef.

(** [v.toLowerCase()] *)
Definition call_toLowerCase (callee : string) (v : value) : outcome string :=
  match v with
  | VStr s => Returns (toLowerCase s)
  | VUndef | VNull => Throws (cannot_read v "toLowerCase")
  | _ => Throws (not_a_function (callee ++ ".toLowerCase"))
  end.

(** [v.includes(p)] : strings and arrays both have the method. *)
Definition call_includes (callee : string) (v : value) (p : string) : outcome bool :=
  match v with
  | VStr s => Returns (includes s p)
  | VArr items => Returns (existsb (fun x => is_string x p) items)
  | VUndef | VNull => Throws (cannot_read v "includes")
  | _ => Throws (not_a_function (callee ++ ".includes"))
  end.

(** [v?.endsWith(p)] *)
Definition opt_call_endsWith (callee : string) (v : value) (p : string) : outcome value :=
  match v with
  | VStr s => Returns (VBool (endsWith s p))
  | VUndef | VNull => Returns VUndef
  | _ => Throws (not_a_function (callee ++ ".endsWith"))
  end.

End Coercions.

End JS.

(** ** JavaScript [Map] with string keys

    Entries are kept in insertion order; [set] on a present key replaces
    the value and keeps the position. *)
Module JSMap.

Definition t (V : Type) : Type := list (string * V).

Fixpoint get {V : Type} (m : t V) (key : string) : option V :=
  match m with
  | [] => None
  | (k, v) :: rest => if String.eqb k key then Some v else get rest key
  end.

Definition has {V : Type} (m : t V) (key : string) : bool :=
  match get m key with
  | Some _ => true
  | None => false
  end.

Fixpoint set {V : Type} (m : t V) (key : string) (v : V) : t V :=
  match m with
  | [] => [(key, v)]
  | (k, x) :: rest =>
      if String.eqb k key then (k, v) :: rest else (k, x) :: set rest key v
  end.

(** [new Map(entries)] *)
Definition of_entries {V : Type} (entries : list (string * V)) : t V :=
  fold_left (fun m kv => set m (fst kv) (snd kv)) entries [].

Definition keys {V : Type} (m : t V) : list string := List.map fst m.

End JSMap.

(** ** template-parser.ts *)
Module TemplateParser.

Import JS.

(** The optional third argument of [resolveBasicIntrinsics]. *)
Record Context : Type := { parameters : option (list (string * value)) }.

(** The default [context = {}]. *)
Definition empty_context : Context := {| parameters := None |}.

Definition index_key (i : nat) : string :=
  NilEmpty.string_of_uint (Nat.to_uint i).

Fixpoint indexed (i : nat) (items : list value) : list (string * value) :=
  match items with
  | [] => []
  | x :: rest => (index_key i, x) :: indexed (S i) rest
  end.

(** [Object.entries(v)] restricted to the entries whose value can be an
    object: a string has only one-character string entries, a number or
    a boolean has none. *)
Definition object_entries (v : value) : outcome (list (string * value)) :=
  match v with
  | VUndef | VNull => Throws "Cannot convert undefined or null to object"
  | VObj fields => Returns fields
  | VArr items => Returns (indexed 0 items)
  | _ => Returns []
  end.

(** [resource && typeof resource === 'object' && 'Type' in resource] *)
Definition is_resource (v : value) : bool :=
  match v with
  | VObj fields => has_key fields "Type"
  | _ => false
  end.

Definition extractResources (template : value) : outcome (JSMap.t value) :=
  let* entries := object_entries (get template "Resources") in
  Returns (fold_left
             (fun resources entry =>
                if is_resource (snd entry)
                then JSMap.set resources (fst entry) (snd entry)
                else resources)
             entries []).

(** Nesting depth of a value; bounds the recursion of the resolver. *)
Fixpoint depth (v : value) : nat :=
  match v with
  | VArr items => S (list_max (List.map depth items))
  | VObj fields => S (list_max (List.map (fun kv => depth (snd kv)) fields))
  | _ => 0
  end.

Section Resolver.
Context {rt : Runtime}.

Definition unresolved_ref (refName : string) : value :=
  VStr ("{{Ref:" ++ refName ++ "}}").

(** The [Ref] branch, once [obj.Ref] is known to be the string
    [refName]. *)
Definition resolve_ref (template : value) (context : Context) (refName : string) : value :=
  let declared := get template "Parameters" in
  if truthy declared && truthy (get declared refName) then
    let param := get declared refName in
    let override :=
      match parameters context with
      | Some supplied =>
          match own supplied refName with
          | Some x => if is_undefined x then None else Some x
          | None => None
          end
      | None => None
      end in
    match override with
    | Some x => x
    | None =>
        if is_undefined (get param "Default")
        then unresolved_ref refName
        else get param "Default"
    end
  else unresolved_ref refName.

(** The body of [resolveBasicIntrinsics]; [self] stands for the
    recursive calls [this.resolveBasicIntrinsics(template, _, context)]. *)
Definition resolve_step (self : value -> value)
    (template : value) (context : Context) (v : value) : value :=
  match v with
  | VUndef | VNull | VBool _ | VNum _ | VStr _ => v
  | VArr items => VArr (List.map self items)
  | VObj obj =>
      (* Handle Ref *)
      let handle_ref :=
        match own obj "Ref" with
        | Some (VStr refName) => Some (resolve_ref template context refName)
        | _ => None
        end in
      (* Handle Fn::GetAtt *)
      let handle_getatt :=
        match own obj "Fn::GetAtt" with
        | Some (VArr [target; attribute]) =>
            Some (VStr ("{{GetAtt:" ++ ToString target ++ "." ++ ToString attribute ++ "}}"))
        | _ => None
        end in
      (* Handle Fn::Sub *)
      let handle_sub :=
        match own obj "Fn::Sub" with
        | Some (VStr sub) => Some (VStr sub)
        | _ => None
        end in
      (* Handle Fn::If : the "true" branch value *)
      let handle_if :=
        match own obj "Fn::If" with
        | Some (VArr (_ :: whenTrue :: _)) => Some (self whenTrue)
        | _ => None
        end in
      (* Handle Fn::Select *)
      let handle_select :=
        match own obj "Fn::Select" with
        | Some (VArr [index; source]) =>
            match index, self source with
            | VNum i, VArr list => Some (subscript list i)
            | _, _ => None
            end
        | _ => None
        end in
      match handle_ref with Some r => r | None =>
      match handle_getatt with Some r => r | None =>
      match handle_sub with Some r => r | None =>
      match handle_if with Some r => r | None =>
      match handle_select with Some r => r | None =>
        (* Recursively resolve object properties *)
        VObj (List.map (fun kv => (fst kv, self (snd kv))) obj)
      end end end end end
  end.

(** The recursion, bounded by [fuel]; [depth v] levels are enough. *)
Fixpoint resolve (fuel : nat) (template : value) (context : Context) (v : value) : value :=
  match fuel with
  | O => VUndef
  | S fuel' => resolve_step (resolve fuel' template context) template context v
  end.

Definition resolveBasicIntrinsics (template : value) (v : value) (context : Context) : value :=
  resolve (S (depth v)) template context v.

(** The loop of [getPropertyValue]: [None] when a segment is reached
    through something that is not an object. *)
Fixpoint walk (parts : list string) (v : value) : option value :=
  match parts with
  | [] => Some v
  | part :: rest =>
      if is_nullish v || negb (typeof_object v) then None
      else walk rest (get v part)
  end.

Definition getPropertyValue
    (template resource : value) (propertyPath : string) (defaultValue : value) : value :=
  let properties := JS.or (get resource "Properties") (VObj []) in
  match walk (split_dot propertyPath) properties with
  | None => defaultValue
  | Some v =>
      if is_undefined v then defaultValue
      else resolveBasicIntrinsics template v empty_context
  end.

End Resolver.

End TemplateParser.

(** ** Comparisons and helpers on numbers *)
Module Num.

(** [a > b] *)
Definition gt (a b : Q) : bool := negb (Qle_bool a b).

(** [Math.max(a, b)] *)
Definition max (a b : Q) : Q := if Qle_bool a b then b else a.

(** [Math.abs(a)] *)
Definition abs (a : Q) : Q := if Qle_bool 0 a then a else - a.

(** Sum of a list, the first element outermost. *)
Fixpoint sum (l : list Q) : Q :=
  match l with
  | [] => 0
  | x :: rest => x + sum rest
  end.

End Num.

(** ** types.ts *)

Inductive Confidence : Type := high | medium | low | unknown.

Inductive TemplateSource : Type := deployed | synthesized | local.

Inductive ChangeType : Type := added | removed | modified | unchanged.

Module CostDetail.
Record t : Type := {
  component : string;
  quantity : Q;
  unitPrice : Q;
  monthlyCost : Q;
  unit : string
}.
End CostDetail.

Module ResourceCost.
Record t : Type := {
  resourceId : string;
  resourceType : string;
  monthlyCost : Q;
  hourlyCost : Q;
  unit : string;
  details : list CostDetail.t;
  confidence : Confidence
}.
End ResourceCost.

Module UnsupportedResource.
Record t : Type := {
  resourceId : string;
  resourceType : string;
  reason : string
}.
End UnsupportedResource.

Module StackCostEstimate.
Record t : Type := {
  stackName : string;
  templateSource : TemplateSource;
  totalMonthlyCost : Q;
  totalHourlyCost : Q;
  resources : list ResourceCost.t;
  unsupportedResources : list UnsupportedResource.t;
  timestamp : string
}.
End StackCostEstimate.

Module ResourceChange.
Record t : Type := {
  resourceId : string;
  resourceType : string;
  changeType : ChangeType;
  beforeCost : Q;
  afterCost : Q;
  costDifference : Q
}.
End ResourceChange.

Module CostComparison.
Record t : Type := {
  stackName : string;
  before : StackCostEstimate.t;
  after : StackCostEstimate.t;
  costDifference : Q;
  percentageChange : Q;
  resourceChanges : list ResourceChange.t
}.
End CostComparison.

(** ** diff-calculator.ts *)
Module DiffCalculator.

(** [new Map(estimate.resources.map(r => [r.resourceId, r]))] *)
Definition index_resources (estimate : StackCostEstimate.t) : JSMap.t ResourceCost.t :=
  JSMap.of_entries
    (List.map (fun r => (ResourceCost.resourceId r, r)) (StackCostEstimate.resources estimate)).

(** The body of the first loop: one entry of [afterResources]. *)
Definition classify_after
    (beforeResources : JSMap.t ResourceCost.t)
    (resourceId : string) (afterResource : ResourceCost.t) : ResourceChange.t :=
  match JSMap.get beforeResources resourceId with
  | None =>
      {| ResourceChange.resourceId := resourceId;
         ResourceChange.resourceType := ResourceCost.resourceType afterResource;
         ResourceChange.changeType := added;
         ResourceChange.beforeCost := 0;
         ResourceChange.afterCost := ResourceCost.monthlyCost afterResource;
         ResourceChange.costDifference := ResourceCost.monthlyCost afterResource |}
  | Some beforeResource =>
      if Num.gt (Num.abs (ResourceCost.monthlyCost beforeResource
                          - ResourceCost.monthlyCost afterResource)) 0.01
      then
        {| ResourceChange.resourceId := resourceId;
           ResourceChange.resourceType := ResourceCost.resourceType afterResource;
           ResourceChange.changeType := modified;
           ResourceChange.beforeCost := ResourceCost.monthlyCost beforeResource;
           ResourceChange.afterCost := ResourceCost.monthlyCost afterResource;
           ResourceChange.costDifference :=
             ResourceCost.monthlyCost afterResource - ResourceCost.monthlyCost beforeResource |}
      else
        {| ResourceChange.resourceId := resourceId;
           ResourceChange.resourceType := ResourceCost.resourceType afterResource;
           ResourceChange.changeType := unchanged;
           ResourceChange.beforeCost := ResourceCost.monthlyCost beforeResource;
           ResourceChange.afterCost := ResourceCost.monthlyCost afterResource;
           ResourceChange.costDifference := 0 |}
  end.

(** The record pushed by the second loop. *)
Definition removed_change (resourceId : string) (beforeResource : ResourceCost.t) : ResourceChange.t :=
  {| ResourceChange.resourceId := resourceId;
     ResourceChange.resourceType := ResourceCost.resourceType beforeResource;
     ResourceChange.changeType := removed;
     ResourceChange.beforeCost := ResourceCost.monthlyCost beforeResource;
     ResourceChange.afterCost := 0;
     ResourceChange.costDifference := - ResourceCost.monthlyCost beforeResource |}.

(** [resourceChanges] after both loops, before sorting. *)
Definition collect_changes
    (beforeResources afterResources : JSMap.t ResourceCost.t) : list ResourceChange.t :=
  let afterLoop :=
    fold_left
      (fun resourceChanges entry =>
         (resourceChanges ++ [classify_after beforeResources (fst entry) (snd entry)])%list)
      afterResources [] in
  fold_left
    (fun resourceChanges entry =>
       if JSMap.has afterResources (fst entry)
       then resourceChanges
       else (resourceChanges ++ [removed_change (fst entry) (snd entry)])%list)
    beforeResources afterLoop.

(** The comparator [(a, b) => Math.abs(b.costDifference) - Math.abs(a.costDifference)]. *)
Definition compare_changes (a b : ResourceChange.t) : Q :=
  Num.abs (ResourceChange.costDifference b) - Num.abs (ResourceChange.costDifference a).

(** [Array.prototype.sort] is stable: [a] stays in front of [b] unless
    the comparator is positive. *)
Fixpoint insert_change (a : ResourceChange.t) (sorted : list ResourceChange.t)
    : list ResourceChange.t :=
  match sorted with
  | [] => [a]
  | b :: rest =>
      if Num.gt (compare_changes a b) 0
      then b :: insert_change a rest
      else a :: b :: rest
  end.

Definition sort_changes (changes : list ResourceChange.t) : list ResourceChange.t :=
  fold_right insert_change [] changes.

Definition compareEstimates (before after : StackCostEstimate.t) : CostComparison.t :=
  let beforeResources := index_resources before in
  let afterResources := index_resources after in
  let resourceChanges := sort_changes (collect_changes beforeResources afterResources) in
  let costDifference :=
    StackCostEstimate.totalMonthlyCost after - StackCostEstimate.totalMonthlyCost before in
  let percentageChange :=
    if Num.gt (StackCostEstimate.totalMonthlyCost before) 0
    then (costDifference / StackCostEstimate.totalMonthlyCost before) * 100
    else if Num.gt costDifference 0 then 100 else 0 in
  {| CostComparison.stackName := StackCostEstimate.stackName after;
     CostComparison.before := before;
     CostComparison.after := after;
     CostComparison.costDifference := costDifference;
     CostComparison.percentageChange := percentageChange;
     CostComparison.resourceChanges := resourceChanges |}.

End DiffCalculator.

(** ** pricing-data.ts : constants *)
Module PricingData.

Definition HOURS_PER_MONTH : Q := 730.

Definition DEFAULT_REGION : string := "us-east-1".

(** Resource types that are always free or have no direct cost. *)
Definition FREE_RESOURCES : gset string :=
  list_to_set [
    "AWS::CloudFormation::Stack";
    "AWS::CloudFormation::WaitCondition";
    "AWS::CloudFormation::WaitConditionHandle";
    "AWS::CloudFormation::CustomResource";
    "AWS::CloudFormation::Macro";
    "Custom::*";
    "AWS::IAM::Role";
    "AWS::IAM::Policy";
    "AWS::IAM::ManagedPolicy";
    "AWS::IAM::InstanceProfile";
    "AWS::IAM::User";
    "AWS::IAM::Group";
    "AWS::IAM::AccessKey";
    "AWS::IAM::ServiceLinkedRole";
    "AWS::EC2::SecurityGroup";
    "AWS::EC2::SecurityGroupIngress";
    "AWS::EC2::SecurityGroupEgress";
    "AWS::EC2::RouteTable";
    "AWS::EC2::Route";
    "AWS::EC2::SubnetRouteTableAssociation";
    "AWS::EC2::NetworkAclEntry";
    "AWS::EC2::VPCGatewayAttachment";
    "AWS::EC2::InternetGateway";
    "AWS::Lambda::Permission";
    "AWS::Lambda::EventSourceMapping";
    "AWS::Lambda::Alias";
    "AWS::Lambda::Version";
    "AWS::Lambda::LayerVersion";
    "AWS::Lambda::LayerVersionPermission";
    "AWS::Logs::LogGroup";
    "AWS::Logs::LogStream";
    "AWS::Logs::SubscriptionFilter";
    "AWS::SNS::Topic";
    "AWS::SNS::Subscription";
    "AWS::SQS::QueuePolicy";
    "AWS::Events::Rule";
    "AWS::Events::EventBus";
    "AWS::ApplicationAutoScaling::ScalableTarget";
    "AWS::ApplicationAutoScaling::ScalingPolicy";
    "AWS::AutoScaling::LaunchConfiguration";
    "AWS::AutoScaling::ScalingPolicy";
    "AWS::AutoScaling::LifecycleHook";
    "AWS::SSM::Parameter";
    "AWS::CDK::Metadata"
  ].

(** Resources that have costs but are difficult to estimate without
    usage data. *)
Definition USAGE_BASED_RESOURCES : gset string :=
  list_to_set [
    "AWS::Lambda::Function";
    "AWS::DynamoDB::Table";
    "AWS::S3::Bucket";
    "AWS::SNS::Topic";
    "AWS::SQS::Queue";
    "AWS::ApiGateway::RestApi";
    "AWS::ApiGatewayV2::Api";
    "AWS::StepFunctions::StateMachine";
    "AWS::Kinesis::Stream";
    "AWS::Firehose::DeliveryStream"
  ].

(** [set.has(x)] *)
Definition has (set : gset string) (x : string) : bool := bool_decide (x ∈ set).

End PricingData.

(** ** cost-calculator.ts *)
Module CostCalculator.

Import JS TemplateParser PricingData.

(** [(logicalId, resource, template, pricing) => ResourceCost | null] *)
Definition ResourceCostCalculator : Type :=
  string -> value -> value -> value -> outcome (option ResourceCost.t).

(** A [CostDetail] literal, fields in the order of the sources. *)
Definition detail (component : string) (quantity unitPrice monthlyCost : Q) (unit : string)
    : CostDetail.t :=
  {| CostDetail.component := component;
     CostDetail.quantity := quantity;
     CostDetail.unitPrice := unitPrice;
     CostDetail.monthlyCost := monthlyCost;
     CostDetail.unit := unit |}.

(** A returned [ResourceCost] literal, fields in the order of the
    sources. *)
Definition cost (resourceId resourceType : string) (monthlyCost hourlyCost : Q)
    (unit : string) (details : list CostDetail.t) (confidence : Confidence)
    : outcome (option ResourceCost.t) :=
  Returns (Some
    {| ResourceCost.resourceId := resourceId;
       ResourceCost.resourceType := resourceType;
       ResourceCost.monthlyCost := monthlyCost;
       ResourceCost.hourlyCost := hourlyCost;
       ResourceCost.unit := unit;
       ResourceCost.details := details;
       ResourceCost.confidence := confidence |}).

(** [m.key] and [m?.key] on a chain that is being evaluated.  No chain
    of the sources has a [.] after a [?.]. *)
Definition dot (m : outcome value) (key : string) : outcome value :=
  let* v := m in member v key.

Definition optdot (m : outcome value) (key : string) : outcome value :=
  let* v := m in Returns (opt_member v key).

(** A numeric literal used as the last operand of [||]. *)
Definition lit (q : Q) : outcome value := Returns (VNum q).

Declare Scope js_scope.
Delimit Scope js_scope with js.
Notation "m .! key" := (dot m key) (at level 25, left associativity) : js_scope.
Notation "m .? key" := (optdot m key) (at level 25, left associativity) : js_scope.
Notation "a <||> b" := (or_else a b) (at level 55, right associativity) : js_scope.
Open Scope js_scope.

Section Calculators.
Context {rt : Runtime}.

(** A price: the chain of [||] alternatives, used as a number. *)
Definition price (alternatives : outcome value) : outcome Q :=
  let* v := alternatives in Returns (ToNumber v).

(** [resource.Properties?.key] *)
Definition raw_property (resource : value) (key : string) : value :=
  opt_member (get resource "Properties") key.

Definition calc_EC2_Instance : ResourceCostCalculator :=
  fun logicalId resource template pricing =>
  let instanceType := getPropertyValue template resource "InstanceType" (VStr "t3.micro") in
  let* hourlyPrice :=
    price (Returns pricing .! "ec2" .! "instances" .! ToString instanceType
           <||> Returns pricing .! "ec2" .! "instances" .! "t3.micro"
           <||> lit 0.0104) in
  cost logicalId "AWS::EC2::Instance"
    (hourlyPrice * HOURS_PER_MONTH)
    hourlyPrice
    "instance"
    [detail ("EC2 " ++ ToString instanceType) 1 hourlyPrice
            (hourlyPrice * HOURS_PER_MONTH) "hour"]
    high.

Definition calc_AutoScaling_AutoScalingGroup : ResourceCostCalculator :=
  fun logicalId resource template pricing =>
  let minSize := getPropertyValue template resource "MinSize" (VNum 1) in
  let maxSize := getPropertyValue template resource "MaxSize" (VNum 1) in
  let desiredCapacity := getPropertyValue template resource "DesiredCapacity" minSize in
  let instanceType := "t3.micro" in
  let launchTemplate := raw_property resource "LaunchTemplate" in
  let launchConfig := raw_property resource "LaunchConfigurationName" in
  let instanceCount := if typeof_number desiredCapacity then desiredCapacity else minSize in
  let* hourlyPrice :=
    price (Returns pricing .! "ec2" .! "instances" .! instanceType
           <||> Returns pricing .! "ec2" .! "instances" .! "t3.micro"
           <||> lit 0.0104) in
  cost logicalId "AWS::AutoScaling::AutoScalingGroup"
    (hourlyPrice * HOURS_PER_MONTH * ToNumber instanceCount)
    (hourlyPrice * ToNumber instanceCount)
    "instances"
    [detail ("ASG (" ++ ToString instanceCount ++ " x " ++ instanceType ++ ")")
            (ToNumber instanceCount)
            (hourlyPrice * HOURS_PER_MONTH)
            (hourlyPrice * HOURS_PER_MONTH * ToNumber instanceCount)
            "instance/month"]
    (if truthy (JS.or launchTemplate launchConfig) then medium else low).

Definition calc_EC2_Volume : ResourceCostCalculator :=
  fun logicalId resource template pricing =>
  let* volumeType :=
    call_toLowerCase "TemplateParser.getPropertyValue(...)"
      (getPropertyValue template resource "VolumeType" (VStr "gp3")) in
  let size := ToNumber (getPropertyValue template resource "Size" (VNum 100)) in
  let iops := ToNumber (getPropertyValue template resource "Iops" (VNum 3000)) in
  let throughput := ToNumber (getPropertyValue template resource "Throughput" (VNum 125)) in
  let* pricePerGB :=
    price (Returns pricing .! "ebs" .! "volumes" .! volumeType
           <||> Returns pricing .! "ebs" .! "volumes" .! "gp3"
           <||> lit 0.08) in
  let monthlyCost := pricePerGB * size in
  let details :=
    [detail ("EBS " ++ toUpperCase volumeType ++ " Storage") size pricePerGB
            (pricePerGB * size) "GB/month"] in
  (* Add IOPS cost for io1/io2/gp3 *)
  let* '(monthlyCost, details) :=
    if String.eqb volumeType "io1" || String.eqb volumeType "io2" then
      let* iopsPrice := price (Returns pricing .! "ebs" .! "iops" .! volumeType <||> lit 0.065) in
      let iopsCost := iopsPrice * iops in
      Returns (monthlyCost + iopsCost,
               (details ++ [detail "Provisioned IOPS" iops iopsPrice iopsCost "IOPS/month"])%list)
    else if String.eqb volumeType "gp3" && Num.gt iops 3000 then
      let additionalIops := iops - 3000 in
      let* iopsPrice := price (Returns pricing .! "ebs" .! "iops" .! "gp3" <||> lit 0.005) in
      let iopsCost := iopsPrice * additionalIops in
      Returns (monthlyCost + iopsCost,
               (details ++ [detail "Additional IOPS (above 3000)" additionalIops iopsPrice
                                   iopsCost "IOPS/month"])%list)
    else Returns (monthlyCost, details) in
  (* Add throughput cost for gp3 *)
  let* '(monthlyCost, details) :=
    if String.eqb volumeType "gp3" && Num.gt throughput 125 then
      let additionalThroughput := throughput - 125 in
      let* throughputPrice :=
        price (Returns pricing .! "ebs" .! "throughput" .! "gp3" <||> lit 0.04) in
      let throughputCost := throughputPrice * additionalThroughput in
      Returns (monthlyCost + throughputCost,
               (details ++ [detail "Additional Throughput (above 125 MBps)"
                                   additionalThroughput throughputPrice throughputCost
                                   "MBps/month"])%list)
    else Returns (monthlyCost, details) in
  cost logicalId "AWS::EC2::Volume"
    monthlyCost
    (monthlyCost / HOURS_PER_MONTH)
    "volume"
    details
    high.

Definition calc_RDS_DBInstance : ResourceCostCalculator :=
  fun logicalId resource template pricing =>
  let instanceClass := getPropertyValue template resource "DBInstanceClass" (VStr "db.t3.micro") in
  let allocatedStorage := ToNumber (getPropertyValue template resource "AllocatedStorage" (VNum 20)) in
  let multiAZ := truthy (getPropertyValue template resource "MultiAZ" (VBool false)) in
  let* storageType :=
    call_toLowerCase "TemplateParser.getPropertyValue(...)"
      (getPropertyValue template resource "StorageType" (VStr "gp2")) in
  let* engine :=
    call_toLowerCase "TemplateParser.getPropertyValue(...)"
      (getPropertyValue template resource "Engine" (VStr "mysql")) in
  (* Find hourly price from pricing data *)
  let* enginePricing :=
    Returns pricing .! "rds" .! "instances" .! engine
    <||> Returns pricing .! "rds" .! "instances" .! "mysql" in
  let* hourlyPrice :=
    if truthy enginePricing
    then price (Returns enginePricing .! ToString instanceClass
                <||> Returns enginePricing .! "db.t3.micro"
                <||> lit 0.017)
    else Returns 0.017 in
  let instanceCost := hourlyPrice * HOURS_PER_MONTH * (if multiAZ then 2 else 1) in
  let* storagePrice :=
    price (Returns pricing .! "rds" .! "storage" .! storageType
           <||> Returns pricing .! "rds" .! "storage" .! "gp2"
           <||> lit 0.115) in
  let storageCost := storagePrice * allocatedStorage * (if multiAZ then 2 else 1) in
  let details :=
    [detail ("RDS " ++ ToString instanceClass ++ (if multiAZ then " (Multi-AZ)" else ""))
            (if multiAZ then 2 else 1)
            (hourlyPrice * HOURS_PER_MONTH)
            instanceCost
            "instance/month";
     detail ("Storage (" ++ storageType ++ ")")
            allocatedStorage
            storagePrice
            storageCost
            "GB/month"] in
  cost logicalId "AWS::RDS::DBInstance"
    (instanceCost + storageCost)
    ((instanceCost + storageCost) / HOURS_PER_MONTH)
    "instance"
    details
    high.

Definition calc_RDS_DBCluster : ResourceCostCalculator :=
  fun logicalId resource template pricing =>
  let engineMode := getPropertyValue template resource "EngineMode" (VStr "provisioned") in
  if is_string engineMode "serverless" then
    (* Aurora Serverless v1 - estimate based on min/max capacity *)
    let minCapacity :=
      getPropertyValue template resource "ScalingConfiguration.MinCapacity" (VNum 2) in
    let maxCapacity :=
      getPropertyValue template resource "ScalingConfiguration.MaxCapacity" (VNum 8) in
    let avgCapacity := ToNumber (add minCapacity maxCapacity) / 2 in
    let acuPrice := 0.06 in
    let monthlyCost := acuPrice * avgCapacity * HOURS_PER_MONTH in
    cost logicalId "AWS::RDS::DBCluster"
      monthlyCost
      (monthlyCost / HOURS_PER_MONTH)
      "cluster"
      [detail ("Aurora Serverless (avg " ++ NumberToString avgCapacity ++ " ACU)")
              avgCapacity
              (acuPrice * HOURS_PER_MONTH)
              monthlyCost
              "ACU/month"]
      medium
  else
    (* Provisioned Aurora - cost is from DB instances, cluster itself is free *)
    cost logicalId "AWS::RDS::DBCluster"
      0
      0
      "cluster"
      [detail "Aurora Cluster (cost in DB instances)" 1 0 0 "cluster"]
      high.

Definition calc_ElastiCache_CacheCluster : ResourceCostCalculator :=
  fun logicalId resource template pricing =>
  let nodeType := getPropertyValue template resource "CacheNodeType" (VStr "cache.t3.micro") in
  let numNodes := ToNumber (getPropertyValue template resource "NumCacheNodes" (VNum 1)) in
  let* hourlyPrice :=
    price (Returns pricing .! "elasticache" .! "nodes" .! ToString nodeType
           <||> Returns pricing .! "elasticache" .! "nodes" .! "cache.t3.micro"
           <||> lit 0.017) in
  let monthlyCost := hourlyPrice * HOURS_PER_MONTH * numNodes in
  cost logicalId "AWS::ElastiCache::CacheCluster"
    monthlyCost
    (hourlyPrice * numNodes)
    "cluster"
    [detail ("ElastiCache " ++ ToString nodeType)
            numNodes
            (hourlyPrice * HOURS_PER_MONTH)
            monthlyCost
            "node/month"]
    high.

Definition calc_ElastiCache_ReplicationGroup : ResourceCostCalculator :=
  fun logicalId resource template pricing =>
  let nodeType := getPropertyValue template resource "CacheNodeType" (VStr "cache.t3.micro") in
  let numNodeGroups := getPropertyValue template resource "NumNodeGroups" (VNum 1) in
  let replicasPerNodeGroup := getPropertyValue template resource "ReplicasPerNodeGroup" (VNum 1) in
  let totalNodes := ToNumber numNodeGroups * ToNumber (add (VNum 1) replicasPerNodeGroup) in
  let* hourlyPrice :=
    price (Returns pricing .! "elasticache" .! "nodes" .! ToString nodeType
           <||> Returns pricing .! "elasticache" .! "nodes" .! "cache.t3.micro"
           <||> lit 0.017) in
  let monthlyCost := hourlyPrice * HOURS_PER_MONTH * totalNodes in
  cost logicalId "AWS::ElastiCache::ReplicationGroup"
    monthlyCost
    (hourlyPrice * totalNodes)
    "replication group"
    [detail ("ElastiCache " ++ ToString nodeType ++ " (" ++ NumberToString totalNodes ++ " nodes)")
            totalNodes
            (hourlyPrice * HOURS_PER_MONTH)
            monthlyCost
            "node/month"]
    high.

Definition calc_EC2_NatGateway : ResourceCostCalculator :=
  fun logicalId resource template pricing =>
  let* hourlyPrice := price (Returns pricing .! "natGateway" .! "hourly" <||> lit 0.045) in
  let monthlyCost := hourlyPrice * HOURS_PER_MONTH in
  (* Add estimated data processing cost (assume 100GB/month) *)
  let estimatedDataGB := 100 in
  let* dataPrice := price (Returns pricing .! "natGateway" .! "perGB" <||> lit 0.045) in
  let dataProcessingCost := dataPrice * estimatedDataGB in
  cost logicalId "AWS::EC2::NatGateway"
    (monthlyCost + dataProcessingCost)
    hourlyPrice
    "gateway"
    [detail "NAT Gateway Hourly" HOURS_PER_MONTH hourlyPrice monthlyCost "hours";
     detail "Data Processing (est. 100GB)" estimatedDataGB dataPrice dataProcessingCost "GB"]
    medium.

Definition calc_ElasticLoadBalancingV2_LoadBalancer : ResourceCostCalculator :=
  fun logicalId resource template pricing =>
  let type := getPropertyValue template resource "Type" (VStr "application") in
  let* typeLower := call_toLowerCase "type" type in
  let isNLB := String.eqb typeLower "network" in
  let* lbPricing :=
    if isNLB
    then Returns pricing .! "loadBalancer" .! "nlb"
    else Returns pricing .! "loadBalancer" .! "alb" in
  let* hourlyPrice := price (Returns lbPricing .! "hourly" <||> lit 0.0225) in
  let* lcuHourlyPrice := price (Returns lbPricing .! "lcuHourly" <||> lit 0.008) in
  let baseMonthlyCost := hourlyPrice * HOURS_PER_MONTH in
  (* Estimate LCU cost (assume 10 LCU average) *)
  let estimatedLCU := 10 in
  let lcuCost := lcuHourlyPrice * HOURS_PER_MONTH * estimatedLCU in
  cost logicalId "AWS::ElasticLoadBalancingV2::LoadBalancer"
    (baseMonthlyCost + lcuCost)
    (hourlyPrice + (lcuHourlyPrice * estimatedLCU))
    "load balancer"
    [detail ((if isNLB then "NLB" else "ALB") ++ " Hourly")
            HOURS_PER_MONTH hourlyPrice baseMonthlyCost "hours";
     detail "LCU (est. 10 avg)"
            (estimatedLCU * HOURS_PER_MONTH) lcuHourlyPrice lcuCost "LCU-hours"]
    medium.

Definition calc_ElasticLoadBalancing_LoadBalancer : ResourceCostCalculator :=
  fun logicalId resource template pricing =>
  let* elbHourlyPrice :=
    price (Returns pricing .! "loadBalancer" .! "clb" .! "hourly" <||> lit 0.025) in
  let monthlyCost := elbHourlyPrice * HOURS_PER_MONTH in
  cost logicalId "AWS::ElasticLoadBalancing::LoadBalancer"
    monthlyCost
    elbHourlyPrice
    "load balancer"
    [detail "Classic ELB" HOURS_PER_MONTH elbHourlyPrice monthlyCost "hours"]
    high.

Definition calc_ECS_Service : ResourceCostCalculator :=
  fun logicalId resource template pricing =>
  let desiredCount := ToNumber (getPropertyValue template resource "DesiredCount" (VNum 1)) in
  let launchType := getPropertyValue template resource "LaunchType" (VStr "FARGATE") in
  if negb (is_string launchType "FARGATE") then
    (* EC2 launch type - cost is in EC2 instances *)
    cost logicalId "AWS::ECS::Service"
      0
      0
      "service"
      [detail "ECS Service (EC2 - cost in instances)" desiredCount 0 0 "tasks"]
      medium
  else
    (* Estimate Fargate cost (assume 0.5 vCPU, 1GB memory) *)
    let* vcpuHourly := price (Returns pricing .! "fargate" .! "vcpuHourly" <||> lit 0.04048) in
    let* memoryHourly :=
      price (Returns pricing .! "fargate" .! "memoryGBHourly" <||> lit 0.004445) in
    let vcpuCost := vcpuHourly * 0.5 * HOURS_PER_MONTH in
    let memoryCost := memoryHourly * 1 * HOURS_PER_MONTH in
    let perTaskCost := vcpuCost + memoryCost in
    cost logicalId "AWS::ECS::Service"
      (perTaskCost * desiredCount)
      ((perTaskCost / HOURS_PER_MONTH) * desiredCount)
      "service"
      [detail "Fargate vCPU (0.5 vCPU est.)"
              desiredCount vcpuCost (vcpuCost * desiredCount) "task/month";
       detail "Fargate Memory (1GB est.)"
              desiredCount memoryCost (memoryCost * desiredCount) "task/month"]
      low.

Definition calc_EKS_Cluster : ResourceCostCalculator :=
  fun logicalId resource template pricing =>
  let* hourlyPrice := price (Returns pricing .! "eks" .! "clusterHourly" <||> lit 0.10) in
  let monthlyCost := hourlyPrice * HOURS_PER_MONTH in
  cost logicalId "AWS::EKS::Cluster"
    monthlyCost
    hourlyPrice
    "cluster"
    [detail "EKS Cluster" HOURS_PER_MONTH hourlyPrice monthlyCost "hours"]
    high.

Definition calc_SecretsManager_Secret : ResourceCostCalculator :=
  fun logicalId resource template pricing =>
  let* secretPrice :=
    price (Returns pricing .! "other" .? "secretsManager" .? "secret" <||> lit 0.40) in
  let monthlyCost := secretPrice in
  cost logicalId "AWS::SecretsManager::Secret"
    monthlyCost
    (monthlyCost / HOURS_PER_MONTH)
    "secret"
    [detail "Secrets Manager Secret" 1 secretPrice monthlyCost "secret/month"]
    high.

Definition calc_KMS_Key : ResourceCostCalculator :=
  fun logicalId resource template pricing =>
  let* keyPrice := price (Returns pricing .! "other" .? "kms" .? "key" <||> lit 1.00) in
  let monthlyCost := keyPrice in
  cost logicalId "AWS::KMS::Key"
    monthlyCost
    (monthlyCost / HOURS_PER_MONTH)
    "key"
    [detail "KMS Customer Managed Key" 1 keyPrice monthlyCost "key/month"]
    high.

Definition calc_Route53_HostedZone : ResourceCostCalculator :=
  fun logicalId resource template pricing =>
  let* zonePrice :=
    price (Returns pricing .! "other" .? "route53" .? "hostedZone" <||> lit 0.50) in
  let monthlyCost := zonePrice in
  cost logicalId "AWS::Route53::HostedZone"
    monthlyCost
    (monthlyCost / HOURS_PER_MONTH)
    "hosted zone"
    [detail "Route53 Hosted Zone" 1 zonePrice monthlyCost "zone/month"]
    high.

Definition calc_CloudWatch_Alarm : ResourceCostCalculator :=
  fun logicalId resource template pricing =>
  let* alarmPrice :=
    price (Returns pricing .! "other" .? "cloudwatch" .? "alarmStandard" <||> lit 0.10) in
  let monthlyCost := alarmPrice in
  cost logicalId "AWS::CloudWatch::Alarm"
    monthlyCost
    (monthlyCost / HOURS_PER_MONTH)
    "alarm"
    [detail "CloudWatch Alarm" 1 alarmPrice monthlyCost "alarm/month"]
    high.

Definition calc_CloudWatch_Dashboard : ResourceCostCalculator :=
  fun logicalId resource template pricing =>
  let* dashboardPrice :=
    price (Returns pricing .! "other" .? "cloudwatch" .? "dashboards" <||> lit 3.00) in
  let monthlyCost := dashboardPrice in
  cost logicalId "AWS::CloudWatch::Dashboard"
    monthlyCost
    (monthlyCost / HOURS_PER_MONTH)
    "dashboard"
    [detail "CloudWatch Dashboard" 1 dashboardPrice monthlyCost "dashboard/month"]
    high.

Definition calc_EC2_EIP : ResourceCostCalculator :=
  fun logicalId resource template pricing =>
  (* EIPs are free when attached to a running instance *)
  cost logicalId "AWS::EC2::EIP"
    0
    0
    "elastic IP"
    [detail "Elastic IP (free when attached)" 1 0 0 "IP/month"]
    medium.

Definition calc_EC2_VPCEndpoint : ResourceCostCalculator :=
  fun logicalId resource template pricing =>
  let endpointType := getPropertyValue template resource "VpcEndpointType" (VStr "Interface") in
  if is_string endpointType "Gateway" then
    (* Gateway endpoints (S3, DynamoDB) are free *)
    cost logicalId "AWS::EC2::VPCEndpoint"
      0
      0
      "endpoint"
      [detail "VPC Gateway Endpoint (free)" 1 0 0 "endpoint"]
      high
  else
    (* Interface endpoint - $0.01/hour per AZ + data processing *)
    let* hourlyPrice :=
      price (Returns pricing .! "vpcEndpoint" .? "interfaceHourly" <||> lit 0.01) in
    let subnetIds := getPropertyValue template resource "SubnetIds" (VArr []) in
    let* subnetCount := member subnetIds "length" in
    let azCount := Num.max (ToNumber subnetCount) 1 in
    let monthlyCost := hourlyPrice * HOURS_PER_MONTH * azCount in
    cost logicalId "AWS::EC2::VPCEndpoint"
      monthlyCost
      (hourlyPrice * azCount)
      "endpoint"
      [detail ("VPC Interface Endpoint (" ++ NumberToString azCount ++ " AZ)")
              (azCount * HOURS_PER_MONTH) hourlyPrice monthlyCost "endpoint-hours"]
      medium.

Definition calc_EC2_Snapshot : ResourceCostCalculator :=
  fun logicalId resource template pricing =>
  (* Estimate 100GB snapshot *)
  let estimatedSizeGB := 100 in
  let* snapshotPrice := price (Returns pricing .! "ebs" .? "snapshots" <||> lit 0.05) in
  let monthlyCost := snapshotPrice * estimatedSizeGB in
  cost logicalId "AWS::EC2::Snapshot"
    monthlyCost
    (monthlyCost / HOURS_PER_MONTH)
    "snapshot"
    [detail "EBS Snapshot Storage (est. 100GB)" estimatedSizeGB snapshotPrice monthlyCost
            "GB/month"]
    low.

Definition calc_Neptune_DBCluster : ResourceCostCalculator :=
  fun logicalId resource template pricing =>
  let estimatedStorageGB := 100 in
  let* storagePrice := price (Returns pricing .! "neptune" .? "storage" <||> lit 0.10) in
  let storageCost := storagePrice * estimatedStorageGB in
  cost logicalId "AWS::Neptune::DBCluster"
    storageCost
    (storageCost / HOURS_PER_MONTH)
    "cluster"
    [detail "Neptune Storage (est. 100GB)" estimatedStorageGB storagePrice storageCost
            "GB/month"]
    low.

Definition calc_Neptune_DBInstance : ResourceCostCalculator :=
  fun logicalId resource template pricing =>
  let instanceClass := getPropertyValue template resource "DBInstanceClass" (VStr "db.r5.large") in
  let* hourlyPrice :=
    price (Returns pricing .! "neptune" .? "instances" .? ToString instanceClass
           <||> Returns pricing .! "neptune" .? "instances" .? "db.r5.large"
           <||> lit 0.348) in
  let monthlyCost := hourlyPrice * HOURS_PER_MONTH in
  cost logicalId "AWS::Neptune::DBInstance"
    monthlyCost
    hourlyPrice
    "instance"
    [detail ("Neptune " ++ ToString instanceClass) HOURS_PER_MONTH hourlyPrice monthlyCost
            "hours"]
    high.

Definition calc_DocDB_DBCluster : ResourceCostCalculator :=
  fun logicalId resource template pricing =>
  let estimatedStorageGB := 100 in
  let* storagePrice := price (Returns pricing .! "documentdb" .? "storage" <||> lit 0.10) in
  let storageCost := storagePrice * estimatedStorageGB in
  cost logicalId "AWS::DocDB::DBCluster"
    storageCost
    (storageCost / HOURS_PER_MONTH)
    "cluster"
    [detail "DocumentDB Storage (est. 100GB)" estimatedStorageGB storagePrice storageCost
            "GB/month"]
    low.

Definition calc_DocDB_DBInstance : ResourceCostCalculator :=
  fun logicalId resource template pricing =>
  let instanceClass := getPropertyValue template resource "DBInstanceClass" (VStr "db.r5.large") in
  let* hourlyPrice :=
    price (Returns pricing .! "documentdb" .? "instances" .? ToString instanceClass
           <||> Returns pricing .! "documentdb" .? "instances" .? "db.r5.large"
           <||> lit 0.277) in
  let monthlyCost := hourlyPrice * HOURS_PER_MONTH in
  cost logicalId "AWS::DocDB::DBInstance"
    monthlyCost
    hourlyPrice
    "instance"
    [detail ("DocumentDB " ++ ToString instanceClass) HOURS_PER_MONTH hourlyPrice monthlyCost
            "hours"]
    high.

Definition calc_Redshift_Cluster : ResourceCostCalculator :=
  fun logicalId resource template pricing =>
  let nodeType := getPropertyValue template resource "NodeType" (VStr "dc2.large") in
  let numberOfNodes := getPropertyValue template resource "NumberOfNodes" (VNum 1) in
  let* hourlyPrice :=
    price (Returns pricing .! "redshift" .? "instances" .? ToString nodeType
           <||> Returns pricing .! "redshift" .? "instances" .? "dc2.large"
           <||> lit 0.25) in
  let monthlyCost := hourlyPrice * HOURS_PER_MONTH * ToNumber numberOfNodes in
  cost logicalId "AWS::Redshift::Cluster"
    monthlyCost
    (hourlyPrice * ToNumber numberOfNodes)
    "cluster"
    [detail ("Redshift " ++ ToString nodeType ++ " (" ++ ToString numberOfNodes ++ " nodes)")
            (ToNumber numberOfNodes * HOURS_PER_MONTH) hourlyPrice monthlyCost "node-hours"]
    high.

Definition calc_EC2_VPNConnection : ResourceCostCalculator :=
  fun logicalId resource template pricing =>
  let* hourlyPrice := price (Returns pricing .! "vpnConnection" .? "hourly" <||> lit 0.05) in
  let monthlyCost := hourlyPrice * HOURS_PER_MONTH in
  cost logicalId "AWS::EC2::VPNConnection"
    monthlyCost
    hourlyPrice
    "connection"
    [detail "Site-to-Site VPN Connection" HOURS_PER_MONTH hourlyPrice monthlyCost "hours"]
    high.

Definition calc_EC2_TransitGateway : ResourceCostCalculator :=
  fun logicalId resource template pricing =>
  let* hourlyPrice := price (Returns pricing .! "transitGateway" .? "hourly" <||> lit 0.05) in
  let monthlyCost := hourlyPrice * HOURS_PER_MONTH in
  cost logicalId "AWS::EC2::TransitGateway"
    monthlyCost
    hourlyPrice
    "transit gateway"
    [detail "Transit Gateway" HOURS_PER_MONTH hourlyPrice monthlyCost "hours"]
    high.

Definition calc_EC2_TransitGatewayAttachment : ResourceCostCalculator :=
  fun logicalId resource template pricing =>
  let* hourlyPrice := price (Returns pricing .! "transitGateway" .? "hourly" <||> lit 0.05) in
  let monthlyCost := hourlyPrice * HOURS_PER_MONTH in
  (* Add estimated data processing *)
  let estimatedDataGB := 100 in
  let* dataPrice :=
    price (Returns pricing .! "transitGateway" .? "dataProcessed" <||> lit 0.02) in
  let dataCost := estimatedDataGB * dataPrice in
  cost logicalId "AWS::EC2::TransitGatewayAttachment"
    (monthlyCost + dataCost)
    hourlyPrice
    "attachment"
    [detail "Transit Gateway Attachment" HOURS_PER_MONTH hourlyPrice monthlyCost "hours";
     detail "Data Processing (est. 100GB)" estimatedDataGB dataPrice dataCost "GB"]
    medium.

Definition calc_DirectConnect_Connection : ResourceCostCalculator :=
  fun logicalId resource template pricing =>
  let bandwidth := getPropertyValue template resource "Bandwidth" (VStr "1Gbps") in
  let* portPrice :=
    price (Returns pricing .! "directConnect" .? "portHours" .? ToString bandwidth
           <||> Returns pricing .! "directConnect" .? "portHours" .? "1Gbps"
           <||> lit 0.30) in
  let monthlyCost := portPrice * HOURS_PER_MONTH in
  cost logicalId "AWS::DirectConnect::Connection"
    monthlyCost
    portPrice
    "connection"
    [detail ("Direct Connect " ++ ToString bandwidth) HOURS_PER_MONTH portPrice monthlyCost
            "port-hours"]
    high.

Definition calc_GlobalAccelerator_Accelerator : ResourceCostCalculator :=
  fun logicalId resource template pricing =>
  let* hourlyPrice :=
    price (Returns pricing .! "globalAccelerator" .? "hourly" <||> lit 0.025) in
  let monthlyCost := hourlyPrice * HOURS_PER_MONTH in
  cost logicalId "AWS::GlobalAccelerator::Accelerator"
    monthlyCost
    hourlyPrice
    "accelerator"
    [detail "Global Accelerator" HOURS_PER_MONTH hourlyPrice monthlyCost "hours"]
    medium.

Definition calc_AmazonMQ_Broker : ResourceCostCalculator :=
  fun logicalId resource template pricing =>
  let instanceType := getPropertyValue template resource "HostInstanceType" (VStr "mq.t3.micro") in
  let* hourlyPrice :=
    price (Returns pricing .! "mq" .? "instanceHourly" .? ToString instanceType
           <||> Returns pricing .! "mq" .? "instanceHourly" .? "mq.t3.micro"
           <||> lit 0.027) in
  let monthlyCost := hourlyPrice * HOURS_PER_MONTH in
  cost logicalId "AWS::AmazonMQ::Broker"
    monthlyCost
    hourlyPrice
    "broker"
    [detail ("Amazon MQ " ++ ToString instanceType) HOURS_PER_MONTH hourlyPrice monthlyCost
            "hours"]
    high.

Definition calc_MSK_Cluster : ResourceCostCalculator :=
  fun logicalId resource template pricing =>
  let instanceType :=
    getPropertyValue template resource "BrokerNodeGroupInfo.InstanceType" (VStr "kafka.t3.small") in
  let numberOfBrokerNodes := getPropertyValue template resource "NumberOfBrokerNodes" (VNum 3) in
  let* hourlyPrice :=
    price (Returns pricing .! "msk" .? "instanceHourly" .? ToString instanceType
           <||> Returns pricing .! "msk" .? "instanceHourly" .? "kafka.t3.small"
           <||> lit 0.072) in
  let monthlyCost := hourlyPrice * HOURS_PER_MONTH * ToNumber numberOfBrokerNodes in
  cost logicalId "AWS::MSK::Cluster"
    monthlyCost
    (hourlyPrice * ToNumber numberOfBrokerNodes)
    "cluster"
    [detail ("MSK " ++ ToString instanceType ++ " (" ++ ToString numberOfBrokerNodes
             ++ " brokers)")
            (ToNumber numberOfBrokerNodes * HOURS_PER_MONTH) hourlyPrice monthlyCost
            "broker-hours"]
    high.

Definition calc_Kinesis_Stream : ResourceCostCalculator :=
  fun logicalId resource template pricing =>
  let shardCount := getPropertyValue template resource "ShardCount" (VNum 1) in
  let* shardHourly := price (Returns pricing .! "kinesis" .? "shardHourly" <||> lit 0.015) in
  let monthlyCost := shardHourly * HOURS_PER_MONTH * ToNumber shardCount in
  cost logicalId "AWS::Kinesis::Stream"
    monthlyCost
    (shardHourly * ToNumber shardCount)
    "stream"
    [detail ("Kinesis Stream (" ++ ToString shardCount ++ " shards)")
            (ToNumber shardCount * HOURS_PER_MONTH) shardHourly monthlyCost "shard-hours"]
    high.

Definition calc_KinesisFirehose_DeliveryStream : ResourceCostCalculator :=
  fun logicalId resource template pricing =>
  (* Estimate 100GB/month ingested *)
  let estimatedDataGB := 100 in
  let* dataPrice :=
    price (Returns pricing .! "kinesisFirehose" .? "dataIngested" <||> lit 0.029) in
  let monthlyCost := estimatedDataGB * dataPrice in
  cost logicalId "AWS::KinesisFirehose::DeliveryStream"
    monthlyCost
    (monthlyCost / HOURS_PER_MONTH)
    "delivery stream"
    [detail "Kinesis Firehose Data Ingested (est. 100GB)" estimatedDataGB dataPrice
            monthlyCost "GB"]
    low.

Definition calc_EFS_FileSystem : ResourceCostCalculator :=
  fun logicalId resource template pricing =>
  let throughputMode := getPropertyValue template resource "ThroughputMode" (VStr "bursting") in
  let estimatedStorageGB := 100 in
  let* standardPrice := price (Returns pricing .! "efs" .? "standard" <||> lit 0.30) in
  let storageCost := estimatedStorageGB * standardPrice in
  let details :=
    [detail "EFS Standard Storage (est. 100GB)" estimatedStorageGB standardPrice storageCost
            "GB/month"] in
  let* '(storageCost, details) :=
    if is_string throughputMode "provisioned" then
      let provisionedThroughput :=
        getPropertyValue template resource "ProvisionedThroughputInMibps" (VNum 0) in
      if Num.gt (ToNumber provisionedThroughput) 0 then
        let* throughputPrice :=
          price (Returns pricing .! "efs" .? "provisionedThroughput" <||> lit 6.00) in
        let throughputCost := ToNumber provisionedThroughput * throughputPrice in
        Returns (storageCost + throughputCost,
                 (details ++ [detail ("Provisioned Throughput ("
                                      ++ ToString provisionedThroughput ++ " MiBps)")
                                     (ToNumber provisionedThroughput) throughputPrice
                                     throughputCost "MiBps/month"])%list)
      else Returns (storageCost, details)
    else Returns (storageCost, details) in
  cost logicalId "AWS::EFS::FileSystem"
    storageCost
    (storageCost / HOURS_PER_MONTH)
    "file system"
    details
    low.

Definition calc_FSx_FileSystem : ResourceCostCalculator :=
  fun logicalId resource template pricing =>
  let fileSystemType := getPropertyValue template resource "FileSystemType" (VStr "WINDOWS") in
  let storageCapacity := getPropertyValue template resource "StorageCapacity" (VNum 32) in
  let* pricePerGB :=
    if is_string fileSystemType "LUSTRE" then
      price (Returns pricing .! "fsx" .? "lustre" <||> lit 0.14)
    else if is_string fileSystemType "ONTAP" then
      price (Returns pricing .! "fsx" .? "ontap" <||> lit 0.25)
    else if is_string fileSystemType "OPENZFS" then
      price (Returns pricing .! "fsx" .? "openzfs" <||> lit 0.09)
    else
      price (Returns pricing .! "fsx" .? "windows" <||> lit 0.23) in
  let monthlyCost := ToNumber storageCapacity * pricePerGB in
  cost logicalId "AWS::FSx::FileSystem"
    monthlyCost
    (monthlyCost / HOURS_PER_MONTH)
    "file system"
    [detail ("FSx " ++ ToString fileSystemType ++ " Storage (" ++ ToString storageCapacity
             ++ "GB)")
            (ToNumber storageCapacity) pricePerGB monthlyCost "GB/month"]
    high.

Definition calc_Backup_BackupVault : ResourceCostCalculator :=
  fun logicalId resource template pricing =>
  (* Estimate 100GB storage *)
  let estimatedStorageGB := 100 in
  let* storagePrice := price (Returns pricing .! "backup" .? "storage" <||> lit 0.05) in
  let monthlyCost := estimatedStorageGB * storagePrice in
  cost logicalId "AWS::Backup::BackupVault"
    monthlyCost
    (monthlyCost / HOURS_PER_MONTH)
    "vault"
    [detail "AWS Backup Storage (est. 100GB)" estimatedStorageGB storagePrice monthlyCost
            "GB/month"]
    low.

Definition calc_CloudFront_Distribution : ResourceCostCalculator :=
  fun logicalId resource template pricing =>
  (* Estimate 100GB data transfer, 1M requests *)
  let estimatedDataGB := 100 in
  let estimatedRequests := 1000000 in
  let* dataPrice :=
    price (Returns pricing .! "cloudfront" .? "dataTransfer" .? "us" <||> lit 0.085) in
  let* requestPrice :=
    price (Returns pricing .! "cloudfront" .? "requests" .? "https" <||> lit 0.01) in
  let dataCost := estimatedDataGB * dataPrice in
  let requestCost := (estimatedRequests / 10000) * requestPrice in
  let monthlyCost := dataCost + requestCost in
  cost logicalId "AWS::CloudFront::Distribution"
    monthlyCost
    (monthlyCost / HOURS_PER_MONTH)
    "distribution"
    [detail "CloudFront Data Transfer (est. 100GB)" estimatedDataGB dataPrice dataCost "GB";
     detail "HTTPS Requests (est. 1M)" (estimatedRequests / 10000) requestPrice requestCost
            "10k requests"]
    low.

Definition calc_ACMPCA_CertificateAuthority : ResourceCostCalculator :=
  fun logicalId resource template pricing =>
  let monthlyPrice := 400 in (* $400/month for private CA *)
  cost logicalId "AWS::ACMPCA::CertificateAuthority"
    monthlyPrice
    (monthlyPrice / HOURS_PER_MONTH)
    "certificate authority"
    [detail "ACM Private Certificate Authority" 1 monthlyPrice monthlyPrice "CA/month"]
    high.

Definition calc_Config_ConfigRule : ResourceCostCalculator :=
  fun logicalId resource template pricing =>
  let* rulePrice := price (Returns pricing .! "config" .? "rules" <||> lit 1.00) in
  cost logicalId "AWS::Config::ConfigRule"
    rulePrice
    (rulePrice / HOURS_PER_MONTH)
    "rule"
    [detail "AWS Config Rule" 1 rulePrice rulePrice "rule/month"]
    medium.

Definition calc_CloudTrail_Trail : ResourceCostCalculator :=
  fun logicalId resource template pricing =>
  let isMultiRegion :=
    truthy (getPropertyValue template resource "IsMultiRegionTrail" (VBool false)) in
  (* First trail is free for management events, estimate data events *)
  let estimatedDataEvents := 100000 in
  let* dataEventPrice := price (Returns pricing .! "cloudtrail" .? "dataEvents" <||> lit 0.10) in
  let monthlyCost := (estimatedDataEvents / 100000) * dataEventPrice in
  cost logicalId "AWS::CloudTrail::Trail"
    monthlyCost
    (monthlyCost / HOURS_PER_MONTH)
    "trail"
    [detail ("CloudTrail" ++ (if isMultiRegion then " (Multi-Region)" else "")
             ++ " Data Events (est. 100k)")
            estimatedDataEvents (dataEventPrice / 100000) monthlyCost "events"]
    low.

Definition calc_CodeBuild_Project : ResourceCostCalculator :=
  fun logicalId resource template pricing =>
  let computeType :=
    getPropertyValue template resource "Environment.ComputeType" (VStr "BUILD_GENERAL1_SMALL") in
  let environmentType :=
    getPropertyValue template resource "Environment.Type" (VStr "LINUX_CONTAINER") in
  (* Estimate 100 build minutes/month *)
  let estimatedMinutes := 100 in
  let* pricePerMinute :=
    if is_string environmentType "ARM_CONTAINER" then
      price (Returns pricing .! "codebuild" .? "armLarge" <||> lit 0.015)
    else if is_string environmentType "LINUX_GPU_CONTAINER" then
      price (Returns pricing .! "codebuild" .? "gpuLarge" <||> lit 0.18)
    else
      let* isWindows := call_includes "environmentType" environmentType "WINDOWS" in
      if isWindows then
        let* isLarge := call_includes "computeType" computeType "LARGE" in
        if isLarge
        then price (Returns pricing .! "codebuild" .? "windowsLarge" <||> lit 0.04)
        else price (Returns pricing .! "codebuild" .? "windowsMedium" <||> lit 0.02)
      else if is_string computeType "BUILD_GENERAL1_MEDIUM" then
        price (Returns pricing .! "codebuild" .? "linuxMedium" <||> lit 0.01)
      else if is_string computeType "BUILD_GENERAL1_LARGE" then
        price (Returns pricing .! "codebuild" .? "linuxLarge" <||> lit 0.02)
      else if is_string computeType "BUILD_GENERAL1_2XLARGE" then
        price (Returns pricing .! "codebuild" .? "linux2xlarge" <||> lit 0.04)
      else
        price (Returns pricing .! "codebuild" .? "linuxSmall" <||> lit 0.005) in
  let monthlyCost := estimatedMinutes * pricePerMinute in
  cost logicalId "AWS::CodeBuild::Project"
    monthlyCost
    (monthlyCost / HOURS_PER_MONTH)
    "project"
    [detail ("CodeBuild " ++ ToString computeType ++ " (est. 100 min)")
            estimatedMinutes pricePerMinute monthlyCost "minutes"]
    low.

Definition calc_Glue_Job : ResourceCostCalculator :=
  fun logicalId resource template pricing =>
  (* Estimate 10 DPU-hours/month *)
  let estimatedDpuHours := 10 in
  let* dpuPrice := price (Returns pricing .! "glue" .? "dpuHour" <||> lit 0.44) in
  let monthlyCost := estimatedDpuHours * dpuPrice in
  cost logicalId "AWS::Glue::Job"
    monthlyCost
    (monthlyCost / HOURS_PER_MONTH)
    "job"
    [detail "Glue Job (est. 10 DPU-hours)" estimatedDpuHours dpuPrice monthlyCost "DPU-hours"]
    low.

Definition calc_Glue_Crawler : ResourceCostCalculator :=
  fun logicalId resource template pricing =>
  (* Estimate 5 DPU-hours/month *)
  let estimatedDpuHours := 5 in
  let* dpuPrice := price (Returns pricing .! "glue" .? "crawlerDpuHour" <||> lit 0.44) in
  let monthlyCost := estimatedDpuHours * dpuPrice in
  cost logicalId "AWS::Glue::Crawler"
    monthlyCost
    (monthlyCost / HOURS_PER_MONTH)
    "crawler"
    [detail "Glue Crawler (est. 5 DPU-hours)" estimatedDpuHours dpuPrice monthlyCost
            "DPU-hours"]
    low.

Definition calc_WAFv2_WebACL : ResourceCostCalculator :=
  fun logicalId resource template pricing =>
  let rules := JS.or (raw_property resource "Rules") (VArr []) in
  let ruleCount := get rules "length" in
  let* webAclPrice := price (Returns pricing .! "waf" .? "webACL" <||> lit 5.00) in
  let* rulePrice := price (Returns pricing .! "waf" .? "rule" <||> lit 1.00) in
  let monthlyCost := webAclPrice + (ToNumber ruleCount * rulePrice) in
  let details := [detail "Web ACL" 1 webAclPrice webAclPrice "ACL/month"] in
  let details :=
    if Num.gt (ToNumber ruleCount) 0
    then (details ++ [detail ("Rules (" ++ ToString ruleCount ++ ")")
                             (ToNumber ruleCount) rulePrice (ToNumber ruleCount * rulePrice)
                             "rules/month"])%list
    else details in
  cost logicalId "AWS::WAFv2::WebACL"
    monthlyCost
    (monthlyCost / HOURS_PER_MONTH)
    "web ACL"
    details
    medium.

Definition calc_WAF_WebACL : ResourceCostCalculator :=
  fun logicalId resource template pricing =>
  let* webAclPrice := price (Returns pricing .! "waf" .? "webACL" <||> lit 5.00) in
  cost logicalId "AWS::WAF::WebACL"
    webAclPrice
    (webAclPrice / HOURS_PER_MONTH)
    "web ACL"
    [detail "WAF Web ACL" 1 webAclPrice webAclPrice "ACL/month"]
    medium.

Definition calc_OpenSearchService_Domain : ResourceCostCalculator :=
  fun logicalId resource template pricing =>
  let instanceType :=
    getPropertyValue template resource "ClusterConfig.InstanceType" (VStr "t3.small.search") in
  let instanceCount :=
    getPropertyValue template resource "ClusterConfig.InstanceCount" (VNum 1) in
  let* hourlyPrice :=
    price (Returns pricing .! "opensearch" .? "instances" .? ToString instanceType
           <||> Returns pricing .! "opensearch" .? "instances" .? "t3.small.search"
           <||> lit 0.036) in
  let monthlyCost := hourlyPrice * HOURS_PER_MONTH * ToNumber instanceCount in
  cost logicalId "AWS::OpenSearchService::Domain"
    monthlyCost
    (hourlyPrice * ToNumber instanceCount)
    "domain"
    [detail ("OpenSearch " ++ ToString instanceType ++ " (" ++ ToString instanceCount
             ++ " instances)")
            (ToNumber instanceCount * HOURS_PER_MONTH) hourlyPrice monthlyCost
            "instance-hours"]
    high.

Definition calc_Elasticsearch_Domain : ResourceCostCalculator :=
  fun logicalId resource template pricing =>
  let instanceType :=
    getPropertyValue template resource "ElasticsearchClusterConfig.InstanceType"
      (VStr "t3.small.elasticsearch") in
  let instanceCount :=
    getPropertyValue template resource "ElasticsearchClusterConfig.InstanceCount" (VNum 1) in
  let* hourlyPrice :=
    price (Returns pricing .! "elasticsearch" .? "instances" .? ToString instanceType
           <||> Returns pricing .! "opensearch" .? "instances" .? "t3.small.search"
           <||> lit 0.036) in
  let monthlyCost := hourlyPrice * HOURS_PER_MONTH * ToNumber instanceCount in
  cost logicalId "AWS::Elasticsearch::Domain"
    monthlyCost
    (hourlyPrice * ToNumber instanceCount)
    "domain"
    [detail ("Elasticsearch " ++ ToString instanceType ++ " (" ++ ToString instanceCount
             ++ " instances)")
            (ToNumber instanceCount * HOURS_PER_MONTH) hourlyPrice monthlyCost
            "instance-hours"]
    high.

Definition calc_Lightsail_Instance : ResourceCostCalculator :=
  fun logicalId resource template pricing =>
  let bundleId := getPropertyValue template resource "BundleId" (VStr "nano_2_0") in
  let* isMicro := call_includes "bundleId" bundleId "micro" in
  let* monthlyPrice :=
    if isMicro then
      price (Returns pricing .! "lightsail" .? "instances" .? "micro" <||> lit 5.00)
    else
      let* isSmall := call_includes "bundleId" bundleId "small" in
      if isSmall then
        price (Returns pricing .! "lightsail" .? "instances" .? "small" <||> lit 10.00)
      else
        let* isMedium := call_includes "bundleId" bundleId "medium" in
        if isMedium then
          price (Returns pricing .! "lightsail" .? "instances" .? "medium" <||> lit 20.00)
        else
          let* isLarge := call_includes "bundleId" bundleId "large" in
          if isLarge then Returns 40.00
          else
            let* isXlarge := call_includes "bundleId" bundleId "xlarge" in
            if isXlarge then Returns 80.00
            else price (Returns pricing .! "lightsail" .? "instances" .? "nano" <||> lit 3.50) in
  cost logicalId "AWS::Lightsail::Instance"
    monthlyPrice
    (monthlyPrice / HOURS_PER_MONTH)
    "instance"
    [detail ("Lightsail " ++ ToString bundleId) 1 monthlyPrice monthlyPrice "instance/month"]
    high.

Definition calc_DMS_ReplicationInstance : ResourceCostCalculator :=
  fun logicalId resource template pricing =>
  let instanceClass :=
    getPropertyValue template resource "ReplicationInstanceClass" (VStr "dms.t3.micro") in
  let* hourlyPrice :=
    price (Returns pricing .! "dms" .? "instances" .? ToString instanceClass
           <||> Returns pricing .! "dms" .? "instances" .? "dms.t3.micro"
           <||> lit 0.018) in
  let monthlyCost := hourlyPrice * HOURS_PER_MONTH in
  cost logicalId "AWS::DMS::ReplicationInstance"
    monthlyCost
    hourlyPrice
    "instance"
    [detail ("DMS " ++ ToString instanceClass) HOURS_PER_MONTH hourlyPrice monthlyCost "hours"]
    high.

Definition calc_Transfer_Server : ResourceCostCalculator :=
  fun logicalId resource template pricing =>
  let* hourlyPrice := price (Returns pricing .! "transferFamily" .? "protocols" <||> lit 0.30) in
  let monthlyCost := hourlyPrice * HOURS_PER_MONTH in
  cost logicalId "AWS::Transfer::Server"
    monthlyCost
    hourlyPrice
    "server"
    [detail "AWS Transfer Family Server" HOURS_PER_MONTH hourlyPrice monthlyCost "hours"]
    medium.

Definition calc_CodePipeline_Pipeline : ResourceCostCalculator :=
  fun logicalId resource template pricing =>
  let* pipelinePrice :=
    price (Returns pricing .! "codepipeline" .? "activePipeline" <||> lit 1.00) in
  cost logicalId "AWS::CodePipeline::Pipeline"
    pipelinePrice
    (pipelinePrice / HOURS_PER_MONTH)
    "pipeline"
    [detail "CodePipeline Active Pipeline" 1 pipelinePrice pipelinePrice "pipeline/month"]
    high.

Definition calc_NetworkFirewall_Firewall : ResourceCostCalculator :=
  fun logicalId resource template pricing =>
  (* $0.395/hour per endpoint + data processing *)
  let endpointHourly := 0.395 in
  let subnetMappings := JS.or (raw_property resource "SubnetMappings") (VArr [VObj []]) in
  let endpointCount := get subnetMappings "length" in
  let baseCost := endpointHourly * HOURS_PER_MONTH * ToNumber endpointCount in
  (* Estimate 100GB data processed *)
  let estimatedDataGB := 100 in
  let dataPrice := 0.065 in
  let dataCost := estimatedDataGB * dataPrice in
  cost logicalId "AWS::NetworkFirewall::Firewall"
    (baseCost + dataCost)
    (endpointHourly * ToNumber endpointCount)
    "firewall"
    [detail ("Network Firewall Endpoints (" ++ ToString endpointCount ++ ")")
            (ToNumber endpointCount * HOURS_PER_MONTH) endpointHourly baseCost
            "endpoint-hours";
     detail "Data Processing (est. 100GB)" estimatedDataGB dataPrice dataCost "GB"]
    medium.

Definition calc_Grafana_Workspace : ResourceCostCalculator :=
  fun logicalId resource template pricing =>
  (* $9/editor/month + $5/viewer/month, estimate 2 editors *)
  let editorPrice := 9.00 in
  let estimatedEditors := 2 in
  let monthlyCost := editorPrice * estimatedEditors in
  cost logicalId "AWS::Grafana::Workspace"
    monthlyCost
    (monthlyCost / HOURS_PER_MONTH)
    "workspace"
    [detail "Managed Grafana Editors (est. 2)" estimatedEditors editorPrice monthlyCost
            "editors/month"]
    low.

Definition calc_SageMaker_NotebookInstance : ResourceCostCalculator :=
  fun logicalId resource template pricing =>
  let instanceType := getPropertyValue template resource "InstanceType" (VStr "ml.t3.medium") in
  let* hourlyPrice :=
    price (Returns pricing .! "sagemaker" .? "notebookInstances" .? ToString instanceType
           <||> lit 0.05) in
  let monthlyCost := hourlyPrice * HOURS_PER_MONTH in
  cost logicalId "AWS::SageMaker::NotebookInstance"
    monthlyCost
    hourlyPrice
    "notebook instance"
    [detail ("SageMaker Notebook " ++ ToString instanceType) HOURS_PER_MONTH hourlyPrice
            monthlyCost "hours"]
    medium.

Definition calc_DirectoryService_SimpleAD : ResourceCostCalculator :=
  fun logicalId resource template pricing =>
  let size := getPropertyValue template resource "Size" (VStr "Small") in
  let* sizeLower := call_toLowerCase "size" size in
  let* simpleADPricing := Returns pricing .! "directoryService" .? "simpleAD" in
  let* hourlyPrice :=
    price (Returns simpleADPricing .? sizeLower
           <||> lit (if String.eqb sizeLower "large" then 0.15 else 0.05)) in
  let monthlyCost := hourlyPrice * HOURS_PER_MONTH in
  cost logicalId "AWS::DirectoryService::SimpleAD"
    monthlyCost
    hourlyPrice
    "directory"
    [detail ("Simple AD (" ++ ToString size ++ ")") HOURS_PER_MONTH hourlyPrice monthlyCost
            "hours"]
    high.

Definition calc_DirectoryService_MicrosoftAD : ResourceCostCalculator :=
  fun logicalId resource template pricing =>
  let edition := getPropertyValue template resource "Edition" (VStr "Standard") in
  let* editionLower := call_toLowerCase "edition" edition in
  let* msADPricing := Returns pricing .! "directoryService" .? "microsoftAD" in
  let* hourlyPrice :=
    price (Returns msADPricing .? editionLower
           <||> lit (if String.eqb editionLower "enterprise" then 0.40 else 0.12)) in
  let monthlyCost := hourlyPrice * HOURS_PER_MONTH in
  cost logicalId "AWS::DirectoryService::MicrosoftAD"
    monthlyCost
    hourlyPrice
    "directory"
    [detail ("Microsoft AD (" ++ ToString edition ++ ")") HOURS_PER_MONTH hourlyPrice
            monthlyCost "hours"]
    high.

Definition calc_MWAA_Environment : ResourceCostCalculator :=
  fun logicalId resource template pricing =>
  let environmentClass :=
    getPropertyValue template resource "EnvironmentClass" (VStr "mw1.small") in
  let* hourlyPrice :=
    price (Returns pricing .! "mwaa" .? "environment" .? ToString environmentClass
           <||> lit 0.49) in
  let monthlyCost := hourlyPrice * HOURS_PER_MONTH in
  cost logicalId "AWS::MWAA::Environment"
    monthlyCost
    hourlyPrice
    "environment"
    [detail ("MWAA Environment (" ++ ToString environmentClass ++ ")") HOURS_PER_MONTH
            hourlyPrice monthlyCost "hours"]
    high.

Definition calc_KinesisAnalyticsV2_Application : ResourceCostCalculator :=
  fun logicalId resource template pricing =>
  (* Assuming 1 KPU baseline for running application *)
  let* kpuHourly := price (Returns pricing .! "kinesisAnalytics" .? "kpuHourly" <||> lit 0.11) in
  let runningKpus := 1 in
  let monthlyCost := kpuHourly * runningKpus * HOURS_PER_MONTH in
  cost logicalId "AWS::KinesisAnalyticsV2::Application"
    monthlyCost
    (kpuHourly * runningKpus)
    "application"
    [detail "Kinesis Analytics Application (1 KPU est.)" HOURS_PER_MONTH kpuHourly
            monthlyCost "KPU-hours"]
    low.

Definition calc_CloudFront_Function : ResourceCostCalculator :=
  fun logicalId resource template pricing =>
  (* Estimate 2M invocations/month *)
  let estimatedInvocations := 2000000 in
  let* pricePerMillion := price (Returns pricing .! "cloudfront" .? "functions" <||> lit 0.10) in
  let monthlyCost := (estimatedInvocations / 1000000) * pricePerMillion in
  cost logicalId "AWS::CloudFront::Function"
    monthlyCost
    (monthlyCost / HOURS_PER_MONTH)
    "function"
    [detail "CloudFront Function Invocations (est. 2M/mo)" estimatedInvocations
            (pricePerMillion / 1000000) monthlyCost "invocations"]
    low.

Definition calc_Route53Resolver_ResolverEndpoint : ResourceCostCalculator :=
  fun logicalId resource template pricing =>
  let ipAddresses := getPropertyValue template resource "IpAddresses" (VArr []) in
  let* ipCount := member ipAddresses "length" in
  let eniCount := Num.max (ToNumber ipCount) 2 in
  let* hourlyPrice := price (Returns pricing .! "route53" .? "resolverEndpoint" <||> lit 0.125) in
  let monthlyCost := hourlyPrice * eniCount * HOURS_PER_MONTH in
  cost logicalId "AWS::Route53Resolver::ResolverEndpoint"
    monthlyCost
    (hourlyPrice * eniCount)
    "endpoint"
    [detail ("Resolver Endpoint ENIs (" ++ NumberToString eniCount ++ ")")
            (eniCount * HOURS_PER_MONTH) hourlyPrice monthlyCost "ENI-hours"]
    medium.

Definition calc_Route53_HealthCheck : ResourceCostCalculator :=
  fun logicalId resource template pricing =>
  (* Assume basic health check *)
  let* monthlyPrice :=
    price (Returns pricing .! "route53" .? "healthChecks" .? "basic" <||> lit 0.50) in
  cost logicalId "AWS::Route53::HealthCheck"
    monthlyPrice
    (monthlyPrice / HOURS_PER_MONTH)
    "health check"
    [detail "Route 53 Health Check (Basic)" 1 monthlyPrice monthlyPrice "check/month"]
    medium.

Definition calc_EC2_ClientVpnEndpoint : ResourceCostCalculator :=
  fun logicalId resource template pricing =>
  let* hourlyPrice :=
    price (Returns pricing .! "vpnConnection" .? "clientVpn" .? "endpointHourly"
           <||> lit 0.05) in
  let* connectionHourly :=
    price (Returns pricing .! "vpnConnection" .? "clientVpn" .? "connectionHourly"
           <||> lit 0.05) in
  (* Estimate 1 active connection *)
  let estimatedConnections := 1 in
  let endpointCost := hourlyPrice * HOURS_PER_MONTH in
  let connectionCost := connectionHourly * estimatedConnections * HOURS_PER_MONTH in
  let monthlyCost := endpointCost + connectionCost in
  cost logicalId "AWS::EC2::ClientVpnEndpoint"
    monthlyCost
    (hourlyPrice + (connectionHourly * estimatedConnections))
    "endpoint"
    [detail "Client VPN Endpoint" HOURS_PER_MONTH hourlyPrice endpointCost "hours";
     detail "VPN Connection (est. 1)" (estimatedConnections * HOURS_PER_MONTH)
            connectionHourly connectionCost "connection-hours"]
    medium.

Definition calc_EC2_TrafficMirrorSession : ResourceCostCalculator :=
  fun logicalId resource template pricing =>
  let* hourlyPrice :=
    price (Returns pricing .! "trafficMirror" .? "sessionHourly" <||> lit 0.15) in
  let monthlyCost := hourlyPrice * HOURS_PER_MONTH in
  cost logicalId "AWS::EC2::TrafficMirrorSession"
    monthlyCost
    hourlyPrice
    "session"
    [detail "Traffic Mirror Session" HOURS_PER_MONTH hourlyPrice monthlyCost "hours"]
    high.

Definition calc_EC2_TransitGatewayPeeringAttachment : ResourceCostCalculator :=
  fun logicalId resource template pricing =>
  let* hourlyPrice := price (Returns pricing .! "transitGateway" .? "peering" <||> lit 0.05) in
  let monthlyCost := hourlyPrice * HOURS_PER_MONTH in
  cost logicalId "AWS::EC2::TransitGatewayPeeringAttachment"
    monthlyCost
    hourlyPrice
    "attachment"
    [detail "Transit Gateway Peering Attachment" HOURS_PER_MONTH hourlyPrice monthlyCost
            "hours"]
    high.

Definition calc_EC2_Host : ResourceCostCalculator :=
  fun logicalId resource template pricing =>
  let instanceType := getPropertyValue template resource "InstanceType" (VStr "m5.large") in
  (* Use dedicated host pricing or fallback to instance price + 10% *)
  let* hostPrice :=
    price (Returns pricing .! "ec2" .? "hosts" .? ToString instanceType
           <||> (let* instancePrice :=
                   price (Returns pricing .! "ec2" .? "instances" .? ToString instanceType
                          <||> lit 0.096) in
                 lit (instancePrice * 1.1))) in
  let monthlyCost := hostPrice * HOURS_PER_MONTH in
  cost logicalId "AWS::EC2::Host"
    monthlyCost
    hostPrice
    "host"
    [detail ("Dedicated Host (" ++ ToString instanceType ++ ")") HOURS_PER_MONTH hostPrice
            monthlyCost "hours"]
    medium.

Definition calc_EKS_Nodegroup : ResourceCostCalculator :=
  fun logicalId resource template pricing =>
  let scalingConfig := raw_property resource "ScalingConfig" in
  let desiredSize :=
    JS.or (opt_member scalingConfig "DesiredSize")
          (JS.or (opt_member scalingConfig "MinSize") (VNum 1)) in
  let instanceTypes := JS.or (raw_property resource "InstanceTypes") (VArr [VStr "t3.medium"]) in
  let instanceType := get instanceTypes "0" in
  let* hourlyPrice :=
    price (Returns pricing .! "ec2" .! "instances" .! ToString instanceType
           <||> Returns pricing .! "ec2" .! "instances" .! "t3.medium"
           <||> lit 0.0416) in
  let monthlyCost := hourlyPrice * HOURS_PER_MONTH * ToNumber desiredSize in
  cost logicalId "AWS::EKS::Nodegroup"
    monthlyCost
    (hourlyPrice * ToNumber desiredSize)
    "nodegroup"
    [detail ("EKS Node Group (" ++ ToString desiredSize ++ " x " ++ ToString instanceType
             ++ ")")
            (ToNumber desiredSize * HOURS_PER_MONTH) hourlyPrice monthlyCost "instance-hours"]
    medium.

Definition calc_EKS_FargateProfile : ResourceCostCalculator :=
  fun logicalId resource template pricing =>
  (* Estimate 1 pod running continuously: vCPU 0.25, memory 0.5 GB *)
  let* vcpuHourly :=
    price (Returns pricing .! "eks" .? "fargateVcpuHourly"
           <||> Returns pricing .! "fargate" .? "vcpuHourly"
           <||> lit 0.04048) in
  let* memoryHourly :=
    price (Returns pricing .! "eks" .? "fargateMemoryGBHourly"
           <||> Returns pricing .! "fargate" .? "memoryGBHourly"
           <||> lit 0.004445) in
  let estimatedVcpu := 0.25 in
  let estimatedMemory := 0.5 in
  let hourlyCost := (vcpuHourly * estimatedVcpu) + (memoryHourly * estimatedMemory) in
  let monthlyCost := hourlyCost * HOURS_PER_MONTH in
  cost logicalId "AWS::EKS::FargateProfile"
    monthlyCost
    hourlyCost
    "profile"
    [detail "Fargate Pods (est. 1 small pod)" HOURS_PER_MONTH hourlyCost monthlyCost
            "pod-hours"]
    low.

Definition calc_Glue_Database : ResourceCostCalculator :=
  fun logicalId resource template pricing =>
  (* Let's assume negligible unless we have usage data. *)
  cost logicalId "AWS::Glue::Database"
    0
    0
    "database"
    [detail "Glue Database (free tier/negligible)" 1 0 0 "database"]
    high.

Definition calc_Config_ConfigurationRecorder : ResourceCostCalculator :=
  fun logicalId resource template pricing =>
  (* $0.003 per configuration item recorded; estimate 1000 items per month *)
  let* itemPrice := price (Returns pricing .! "config" .? "configItems" <||> lit 0.003) in
  let estimatedItems := 1000 in
  let monthlyCost := estimatedItems * itemPrice in
  cost logicalId "AWS::Config::ConfigurationRecorder"
    monthlyCost
    (monthlyCost / HOURS_PER_MONTH)
    "recorder"
    [detail "Config Items Recorded (est. 1000/mo)" estimatedItems itemPrice monthlyCost
            "items"]
    low.

Definition calc_SSM_Activation : ResourceCostCalculator :=
  fun logicalId resource template pricing =>
  cost logicalId "AWS::SSM::Activation"
    0
    0
    "activation"
    [detail "SSM Activation (Standard)" 1 0 0 "activation"]
    medium.

(** The [calculators.set(type, calculator)] calls of
    [initializeCalculators], in source order. *)
Definition registrations : list (string * ResourceCostCalculator) :=
  [
    ("AWS::EC2::Instance", calc_EC2_Instance);
    ("AWS::AutoScaling::AutoScalingGroup", calc_AutoScaling_AutoScalingGroup);
    ("AWS::EC2::Volume", calc_EC2_Volume);
    ("AWS::RDS::DBInstance", calc_RDS_DBInstance);
    ("AWS::RDS::DBCluster", calc_RDS_DBCluster);
    ("AWS::ElastiCache::CacheCluster", calc_ElastiCache_CacheCluster);
    ("AWS::ElastiCache::ReplicationGroup", calc_ElastiCache_ReplicationGroup);
    ("AWS::EC2::NatGateway", calc_EC2_NatGateway);
    ("AWS::ElasticLoadBalancingV2::LoadBalancer", calc_ElasticLoadBalancingV2_LoadBalancer);
    ("AWS::ElasticLoadBalancing::LoadBalancer", calc_ElasticLoadBalancing_LoadBalancer);
    ("AWS::ECS::Service", calc_ECS_Service);
    ("AWS::EKS::Cluster", calc_EKS_Cluster);
    ("AWS::SecretsManager::Secret", calc_SecretsManager_Secret);
    ("AWS::KMS::Key", calc_KMS_Key);
    ("AWS::Route53::HostedZone", calc_Route53_HostedZone);
    ("AWS::CloudWatch::Alarm", calc_CloudWatch_Alarm);
    ("AWS::CloudWatch::Dashboard", calc_CloudWatch_Dashboard);
    ("AWS::EC2::EIP", calc_EC2_EIP);
    ("AWS::EC2::VPCEndpoint", calc_EC2_VPCEndpoint);
    ("AWS::EC2::Snapshot", calc_EC2_Snapshot);
    ("AWS::Neptune::DBCluster", calc_Neptune_DBCluster);
    ("AWS::Neptune::DBInstance", calc_Neptune_DBInstance);
    ("AWS::DocDB::DBCluster", calc_DocDB_DBCluster);
    ("AWS::DocDB::DBInstance", calc_DocDB_DBInstance);
    ("AWS::Redshift::Cluster", calc_Redshift_Cluster);
    ("AWS::EC2::VPNConnection", calc_EC2_VPNConnection);
    ("AWS::EC2::TransitGateway", calc_EC2_TransitGateway);
    ("AWS::EC2::TransitGatewayAttachment", calc_EC2_TransitGatewayAttachment);
    ("AWS::DirectConnect::Connection", calc_DirectConnect_Connection);
    ("AWS::GlobalAccelerator::Accelerator", calc_GlobalAccelerator_Accelerator);
    ("AWS::AmazonMQ::Broker", calc_AmazonMQ_Broker);
    ("AWS::MSK::Cluster", calc_MSK_Cluster);
    ("AWS::Kinesis::Stream", calc_Kinesis_Stream);
    ("AWS::KinesisFirehose::DeliveryStream", calc_KinesisFirehose_DeliveryStream);
    ("AWS::EFS::FileSystem", calc_EFS_FileSystem);
    ("AWS::FSx::FileSystem", calc_FSx_FileSystem);
    ("AWS::Backup::BackupVault", calc_Backup_BackupVault);
    ("AWS::CloudFront::Distribution", calc_CloudFront_Distribution);
    ("AWS::ACMPCA::CertificateAuthority", calc_ACMPCA_CertificateAuthority);
    ("AWS::Config::ConfigRule", calc_Config_ConfigRule);
    ("AWS::CloudTrail::Trail", calc_CloudTrail_Trail);
    ("AWS::CodeBuild::Project", calc_CodeBuild_Project);
    ("AWS::Glue::Job", calc_Glue_Job);
    ("AWS::Glue::Crawler", calc_Glue_Crawler);
    ("AWS::WAFv2::WebACL", calc_WAFv2_WebACL);
    ("AWS::WAF::WebACL", calc_WAF_WebACL);
    ("AWS::OpenSearchService::Domain", calc_OpenSearchService_Domain);
    ("AWS::Elasticsearch::Domain", calc_Elasticsearch_Domain);
    ("AWS::Lightsail::Instance", calc_Lightsail_Instance);
    ("AWS::DMS::ReplicationInstance", calc_DMS_ReplicationInstance);
    ("AWS::Transfer::Server", calc_Transfer_Server);
    ("AWS::CodePipeline::Pipeline", calc_CodePipeline_Pipeline);
    ("AWS::NetworkFirewall::Firewall", calc_NetworkFirewall_Firewall);
    ("AWS::Grafana::Workspace", calc_Grafana_Workspace);
    ("AWS::SageMaker::NotebookInstance", calc_SageMaker_NotebookInstance);
    ("AWS::DirectoryService::SimpleAD", calc_DirectoryService_SimpleAD);
    ("AWS::DirectoryService::MicrosoftAD", calc_DirectoryService_MicrosoftAD);
    ("AWS::MWAA::Environment", calc_MWAA_Environment);
    ("AWS::KinesisAnalyticsV2::Application", calc_KinesisAnalyticsV2_Application);
    ("AWS::CloudFront::Function", calc_CloudFront_Function);
    ("AWS::Route53Resolver::ResolverEndpoint", calc_Route53Resolver_ResolverEndpoint);
    ("AWS::Route53::HealthCheck", calc_Route53_HealthCheck);
    ("AWS::EC2::ClientVpnEndpoint", calc_EC2_ClientVpnEndpoint);
    ("AWS::EC2::TrafficMirrorSession", calc_EC2_TrafficMirrorSession);
    ("AWS::EC2::TransitGatewayPeeringAttachment", calc_EC2_TransitGatewayPeeringAttachment);
    ("AWS::EC2::Host", calc_EC2_Host);
    ("AWS::EKS::Nodegroup", calc_EKS_Nodegroup);
    ("AWS::EKS::FargateProfile", calc_EKS_FargateProfile);
    ("AWS::Glue::Database", calc_Glue_Database);
    ("AWS::Config::ConfigurationRecorder", calc_Config_ConfigurationRecorder);
    ("AWS::SSM::Activation", calc_SSM_Activation)
  ].

(** [initializeCalculators()] *)
Definition initializeCalculators : JSMap.t ResourceCostCalculator :=
  JSMap.of_entries registrations.

(** An instance of the class: the fields set by the constructor.  The
    registry is the same for every instance. *)
Record instance : Type := {
  pricing : value;
  region : string
}.

Definition calculators (this : instance) : JSMap.t ResourceCostCalculator :=
  initializeCalculators.

(** [this.pricing.other?.key || fallback] *)
Definition other_pricing (this : instance) (key : string) (fallback : list (string * value))
    : outcome value :=
  Returns (pricing this) .! "other" .? key <||> Returns (VObj fallback).

(** Calculate Lambda function cost (usage-based with estimates) *)
Definition calculateLambdaCost (this : instance) (logicalId : string) (resource template : value)
    : outcome (option ResourceCost.t) :=
  let memorySize := getPropertyValue template resource "MemorySize" (VNum 128) in
  let timeout := getPropertyValue template resource "Timeout" (VNum 3) in
  (* Estimate 100,000 invocations/month with average duration of timeout/2 *)
  let estimatedInvocations := 100000 in
  let avgDurationMs := ToNumber timeout * 500 in
  let* requestPrice := price (Returns (pricing this) .! "lambda" .! "requests" <||> lit 0.20) in
  let* durationPrice :=
    price (Returns (pricing this) .! "lambda" .! "duration" <||> lit 0.0000166667) in
  let freeDuration := 400000 in
  let gbSeconds := (ToNumber memorySize / 1024) * (avgDurationMs / 1000) * estimatedInvocations in
  let requestCost := (estimatedInvocations / 1000000) * requestPrice in
  let computeCost := Num.max 0 (gbSeconds - freeDuration) * durationPrice in
  cost logicalId "AWS::Lambda::Function"
    (requestCost + computeCost)
    ((requestCost + computeCost) / HOURS_PER_MONTH)
    "function"
    [detail ("Lambda Requests (est. " ++ NumberToLocaleString estimatedInvocations ++ "/mo)")
            estimatedInvocations (requestPrice / 1000000) requestCost "requests";
     detail ("Lambda Compute (" ++ ToString memorySize ++ "MB, "
             ++ NumberToString avgDurationMs ++ "ms avg)")
            gbSeconds durationPrice computeCost "GB-seconds"]
    low.

(** Calculate DynamoDB table cost *)
Definition calculateDynamoDBCost (this : instance) (logicalId : string)
    (resource template : value) : outcome (option ResourceCost.t) :=
  let billingMode := getPropertyValue template resource "BillingMode" (VStr "PROVISIONED") in
  let* dynamo :=
    other_pricing this "dynamodb"
      [("readCapacity", VNum 0.00013);
       ("writeCapacity", VNum 0.00065);
       ("onDemandRead", VNum 0.25);
       ("onDemandWrite", VNum 1.25);
       ("storage", VNum 0.25)] in
  if is_string billingMode "PAY_PER_REQUEST" then
    (* On-demand - estimate based on usage *)
    let estimatedWrites := 1000000 in
    let estimatedReads := 5000000 in
    let writeCost := (estimatedWrites / 1000000) * ToNumber (get dynamo "onDemandWrite") in
    let readCost := (estimatedReads / 1000000) * ToNumber (get dynamo "onDemandRead") in
    cost logicalId "AWS::DynamoDB::Table"
      (writeCost + readCost)
      ((writeCost + readCost) / HOURS_PER_MONTH)
      "table"
      [detail "DynamoDB On-Demand Writes (est. 1M/mo)" estimatedWrites
              (ToNumber (get dynamo "onDemandWrite") / 1000000) writeCost "writes";
       detail "DynamoDB On-Demand Reads (est. 5M/mo)" estimatedReads
              (ToNumber (get dynamo "onDemandRead") / 1000000) readCost "reads"]
      low
  else
    (* Provisioned capacity *)
    let throughput := raw_property resource "ProvisionedThroughput" in
    let readCapacity := JS.or (opt_member throughput "ReadCapacityUnits") (VNum 5) in
    let writeCapacity := JS.or (opt_member throughput "WriteCapacityUnits") (VNum 5) in
    (* Provisioned pricing is per hour, multiply by hours per month *)
    let readCost :=
      ToNumber readCapacity * ToNumber (get dynamo "readCapacity") * HOURS_PER_MONTH in
    let writeCost :=
      ToNumber writeCapacity * ToNumber (get dynamo "writeCapacity") * HOURS_PER_MONTH in
    cost logicalId "AWS::DynamoDB::Table"
      (readCost + writeCost)
      ((readCost + writeCost) / HOURS_PER_MONTH)
      "table"
      [detail ("DynamoDB Read Capacity (" ++ ToString readCapacity ++ " RCU)")
              (ToNumber readCapacity)
              (ToNumber (get dynamo "readCapacity") * HOURS_PER_MONTH) readCost "RCU/month";
       detail ("DynamoDB Write Capacity (" ++ ToString writeCapacity ++ " WCU)")
              (ToNumber writeCapacity)
              (ToNumber (get dynamo "writeCapacity") * HOURS_PER_MONTH) writeCost "WCU/month"]
      medium.

(** Calculate S3 bucket cost (storage estimate) *)
Definition calculateS3Cost (this : instance) (logicalId : string) (resource template : value)
    : outcome (option ResourceCost.t) :=
  let* s3Pricing := other_pricing this "s3" [("standardStorage", VNum 0.023)] in
  (* Estimate 100GB storage *)
  let estimatedStorageGB := 100 in
  let storageCost := estimatedStorageGB * ToNumber (get s3Pricing "standardStorage") in
  cost logicalId "AWS::S3::Bucket"
    storageCost
    (storageCost / HOURS_PER_MONTH)
    "bucket"
    [detail "S3 Storage (est. 100GB)" estimatedStorageGB
            (ToNumber (get s3Pricing "standardStorage")) storageCost "GB/month"]
    low.

(** Calculate SQS queue cost *)
Definition calculateSQSCost (this : instance) (logicalId : string) (resource template : value)
    : outcome (option ResourceCost.t) :=
  let* sqsPricing := other_pricing this "sqs" [("standard", VNum 0.40); ("fifo", VNum 0.50)] in
  let* nameIsFifo :=
    opt_call_endsWith "(intermediate value)" (raw_property resource "QueueName") ".fifo" in
  let isFifo := truthy nameIsFifo || is_true (raw_property resource "FifoQueue") in
  (* Estimate 1M requests/month *)
  let estimatedRequests := 1000000 in
  let pricePerMillion :=
    ToNumber (if isFifo then get sqsPricing "fifo" else get sqsPricing "standard") in
  let requestCost := (estimatedRequests / 1000000) * pricePerMillion in
  cost logicalId "AWS::SQS::Queue"
    requestCost
    (requestCost / HOURS_PER_MONTH)
    "queue"
    [detail ("SQS " ++ (if isFifo then "FIFO" else "Standard") ++ " Requests (est. 1M/mo)")
            estimatedRequests (pricePerMillion / 1000000) requestCost "requests"]
    low.

(** Calculate API Gateway cost *)
Definition calculateApiGatewayCost (this : instance) (logicalId : string)
    (resource template : value) : outcome (option ResourceCost.t) :=
  let* apiPricing :=
    other_pricing this "apiGateway"
      [("rest", VNum 3.50); ("http", VNum 1.00); ("websocket", VNum 1.00)] in
  let isHttpApi := is_string (get resource "Type") "AWS::ApiGatewayV2::Api" in
  let estimatedRequests := 1000000 in (* 1M requests/month *)
  let pricePerMillion :=
    ToNumber (if isHttpApi then get apiPricing "http" else get apiPricing "rest") in
  let requestCost := (estimatedRequests / 1000000) * pricePerMillion in
  cost logicalId (ToString (get resource "Type"))
    requestCost
    (requestCost / HOURS_PER_MONTH)
    "API"
    [detail ((if isHttpApi then "HTTP" else "REST") ++ " API Requests (est. 1M/mo)")
            estimatedRequests (pricePerMillion / 1000000) requestCost "requests"]
    low.

(** Calculate Step Functions cost *)
Definition calculateStepFunctionsCost (this : instance) (logicalId : string)
    (resource template : value) : outcome (option ResourceCost.t) :=
  let* sfPricing :=
    other_pricing this "stepFunctions" [("standard", VNum 25.00); ("express", VNum 1.00)] in
  let type := getPropertyValue template resource "StateMachineType" (VStr "STANDARD") in
  (* Estimate 10,000 executions/month with 5 transitions each *)
  let estimatedExecutions := 10000 in
  let transitionsPerExecution := 5 in
  let totalTransitions := estimatedExecutions * transitionsPerExecution in
  let pricePerMillion :=
    ToNumber (if is_string type "EXPRESS"
              then get sfPricing "express" else get sfPricing "standard") in
  let cost_ := (totalTransitions / 1000000) * pricePerMillion in
  cost logicalId "AWS::StepFunctions::StateMachine"
    cost_
    (cost_ / HOURS_PER_MONTH)
    "state machine"
    [detail ("Step Functions " ++ ToString type ++ " (est. "
             ++ NumberToLocaleString totalTransitions ++ " transitions/mo)")
            totalTransitions (pricePerMillion / 1000000) cost_ "transitions"]
    low.

(** Calculate SNS Topic cost *)
Definition calculateSNSCost (this : instance) (logicalId : string) (resource template : value)
    : outcome (option ResourceCost.t) :=
  let* snsPricing := other_pricing this "sns" [("publish", VNum 0.50)] in
  (* Estimate 1M publishes/month *)
  let estimatedPublishes := 1000000 in
  let publishCost := (estimatedPublishes / 1000000) * ToNumber (get snsPricing "publish") in
  cost logicalId "AWS::SNS::Topic"
    publishCost
    (publishCost / HOURS_PER_MONTH)
    "topic"
    [detail "SNS Publishes (est. 1M/mo)" estimatedPublishes
            (ToNumber (get snsPricing "publish") / 1000000) publishCost "publishes"]
    low.

(** Calculate CloudWatch Logs cost *)
Definition calculateCloudWatchLogsCost (this : instance) (logicalId : string)
    (resource template : value) : outcome (option ResourceCost.t) :=
  let* cwPricing :=
    other_pricing this "cloudwatch"
      [("logsIngestion", VNum 0.50); ("logsStorage", VNum 0.03)] in
  (* Estimate 10GB/month ingestion, 50GB storage *)
  let estimatedIngestionGB := 10 in
  let estimatedStorageGB := 50 in
  let ingestionCost := estimatedIngestionGB * ToNumber (get cwPricing "logsIngestion") in
  let storageCost := estimatedStorageGB * ToNumber (get cwPricing "logsStorage") in
  let totalCost := ingestionCost + storageCost in
  cost logicalId "AWS::Logs::LogGroup"
    totalCost
    (totalCost / HOURS_PER_MONTH)
    "log group"
    [detail "Log Data Ingestion (est. 10GB/mo)" estimatedIngestionGB
            (ToNumber (get cwPricing "logsIngestion")) ingestionCost "GB";
     detail "Log Storage (est. 50GB)" estimatedStorageGB
            (ToNumber (get cwPricing "logsStorage")) storageCost "GB"]
    low.

(** Calculate SSM Parameter cost *)
Definition calculateSSMParameterCost (this : instance) (logicalId : string)
    (resource template : value) : outcome (option ResourceCost.t) :=
  let tier := getPropertyValue template resource "Tier" (VStr "Standard") in
  let isAdvanced := is_string tier "Advanced" in
  (* Estimate 10,000 API calls/month *)
  let estimatedApiCalls := 10000 in
  let apiCallCost := (estimatedApiCalls / 10000) * 0.05 in
  (* Parameter storage cost *)
  let parameterCost := if isAdvanced then 0.05 else 0 in
  let totalCost := apiCallCost + parameterCost in
  let details := [] in
  let details :=
    if Num.gt parameterCost 0
    then (details ++ [detail "Advanced Parameter Storage" 1 parameterCost parameterCost
                             "parameter/month"])%list
    else details in
  let details :=
    (details ++ [detail "API Calls (est. 10k/mo)" estimatedApiCalls (0.05 / 10000)
                        apiCallCost "calls"])%list in
  cost logicalId "AWS::SSM::Parameter"
    totalCost
    (totalCost / HOURS_PER_MONTH)
    "parameter"
    details
    low.

(** Calculate ECR Repository cost *)
Definition calculateECRCost (this : instance) (logicalId : string) (resource template : value)
    : outcome (option ResourceCost.t) :=
  let* ecrPricing := other_pricing this "ecr" [("storage", VNum 0.10)] in
  (* Estimate 10GB storage *)
  let estimatedStorageGB := 10 in
  let storageCost := estimatedStorageGB * ToNumber (get ecrPricing "storage") in
  cost logicalId "AWS::ECR::Repository"
    storageCost
    (storageCost / HOURS_PER_MONTH)
    "repository"
    [detail "ECR Storage (est. 10GB)" estimatedStorageGB
            (ToNumber (get ecrPricing "storage")) storageCost "GB/month"]
    low.

(** Calculate Route 53 Record Set cost *)
Definition calculateRoute53RecordSetCost (this : instance) (logicalId : string)
    (resource template : value) : outcome (option ResourceCost.t) :=
  let* queriesPrice :=
    price (Returns (pricing this) .! "route53" .? "queries" <||> lit 0.40) in
  (* Estimate 1M queries/month *)
  let estimatedQueries := 1000000 in
  let monthlyCost := (estimatedQueries / 1000000) * queriesPrice in
  cost logicalId "AWS::Route53::RecordSet"
    monthlyCost
    (monthlyCost / HOURS_PER_MONTH)
    "record set"
    [detail "DNS Queries (est. 1M/mo)" estimatedQueries (queriesPrice / 1000000)
            monthlyCost "queries"]
    low.

(** The [switch] of [calculateUsageBasedResource], one entry per [case]. *)
Definition usage_estimators
    : list (string * (instance -> string -> value -> value -> outcome (option ResourceCost.t))) :=
  [ ("AWS::Lambda::Function", calculateLambdaCost);
    ("AWS::DynamoDB::Table", calculateDynamoDBCost);
    ("AWS::S3::Bucket", calculateS3Cost);
    ("AWS::SQS::Queue", calculateSQSCost);
    ("AWS::ApiGateway::RestApi", calculateApiGatewayCost);
    ("AWS::ApiGatewayV2::Api", calculateApiGatewayCost);
    ("AWS::StepFunctions::StateMachine", calculateStepFunctionsCost);
    ("AWS::SNS::Topic", calculateSNSCost);
    ("AWS::Logs::LogGroup", calculateCloudWatchLogsCost);
    ("AWS::SSM::Parameter", calculateSSMParameterCost);
    ("AWS::ECR::Repository", calculateECRCost);
    ("AWS::Route53::RecordSet", calculateRoute53RecordSetCost) ].

(** Calculate cost for usage-based resources with default assumptions *)
Definition calculateUsageBasedResource (this : instance) (logicalId : string)
    (resource template : value) : outcome (option ResourceCost.t) :=
  match get resource "Type" with
  | VStr resourceType =>
      match JSMap.get usage_estimators resourceType with
      | Some estimator => estimator this logicalId resource template
      | None => Returns None
      end
  | _ => Returns None
  end.

(** Check if a resource type is free *)
Definition isFreeResource (resourceType : string) : bool :=
  if has FREE_RESOURCES resourceType then true
  else if startsWith resourceType "Custom::" then true
  else false.

(** The state of the loop of [calculateStackCost]: the two arrays being
    filled, and (ghost) the logical ids for which a registry
    calculator has been invoked, one entry per invocation. *)
Record progress : Type := {
  resources : list ResourceCost.t;
  unsupportedResources : list UnsupportedResource.t;
  invocations : list string
}.

Definition push_cost (st : progress) (c : ResourceCost.t) : progress :=
  {| resources := (resources st ++ [c])%list;
     unsupportedResources := unsupportedResources st;
     invocations := invocations st |}.

Definition push_unsupported (st : progress) (u : UnsupportedResource.t) : progress :=
  {| resources := resources st;
     unsupportedResources := (unsupportedResources st ++ [u])%list;
     invocations := invocations st |}.

Definition invoked (st : progress) (logicalId : string) : progress :=
  {| resources := resources st;
     unsupportedResources := unsupportedResources st;
     invocations := (invocations st ++ [logicalId])%list |}.

Definition push_result (st : progress) (c : option ResourceCost.t) : progress :=
  match c with
  | Some c => push_cost st c
  | None => st
  end.

(** One iteration of the loop over [templateResources]. *)
Definition visit (this : instance) (template : value)
    (st : progress) (logicalId : string) (resource : value) : outcome progress :=
  match get resource "Type" with
  | VStr resourceType =>
      (* Skip free resources *)
      if isFreeResource resourceType then Returns st
      else
        (* Try to calculate cost *)
        match JSMap.get (calculators this) resourceType with
        | Some calculator =>
            let st := invoked st logicalId in
            match calculator logicalId resource template (pricing this) with
            | Returns c => Returns (push_result st c)
            | Throws message =>
                Returns (push_unsupported st
                  {| UnsupportedResource.resourceId := logicalId;
                     UnsupportedResource.resourceType := resourceType;
                     UnsupportedResource.reason := "Calculation error: " ++ message |})
            end
        | None =>
            if has USAGE_BASED_RESOURCES resourceType then
              (* Usage-based resources - provide estimate with assumptions *)
              let* c := calculateUsageBasedResource this logicalId resource template in
              Returns (push_result st c)
            else
              Returns (push_unsupported st
                {| UnsupportedResource.resourceId := logicalId;
                   UnsupportedResource.resourceType := resourceType;
                   UnsupportedResource.reason :=
                     "No pricing calculator available for this resource type" |})
        end
  | VUndef | VNull =>
      (* [isFreeResource]: [resourceType.startsWith] on a missing type *)
      Throws (cannot_read (get resource "Type") "startsWith")
  | _ => Throws (not_a_function "resourceType.startsWith")
  end.

Fixpoint visit_all (this : instance) (template : value)
    (st : progress) (entries : list (string * value)) : outcome progress :=
  match entries with
  | [] => Returns st
  | (logicalId, resource) :: rest =>
      let* st' := visit this template st logicalId resource in
      visit_all this template st' rest
  end.

(** Calculate costs for an entire stack.  [now] is the value of
    [new Date().toISOString()]. *)
Definition calculateStackCost (this : instance) (now : string)
    (stackName : string) (template : value) (source : TemplateSource)
    : outcome StackCostEstimate.t :=
  let* templateResources := extractResources template in
  let* st :=
    visit_all this template
      {| resources := []; unsupportedResources := []; invocations := [] |}
      templateResources in
  (* Calculate totals *)
  let totalMonthlyCost :=
    fold_left (fun sum r => sum + ResourceCost.monthlyCost r) (resources st) 0 in
  let totalHourlyCost :=
    fold_left (fun sum r => sum + ResourceCost.hourlyCost r) (resources st) 0 in
  Returns
    {| StackCostEstimate.stackName := stackName;
       StackCostEstimate.templateSource := source;
       StackCostEstimate.totalMonthlyCost := totalMonthlyCost;
       StackCostEstimate.totalHourlyCost := totalHourlyCost;
       StackCostEstimate.resources := resources st;
       StackCostEstimate.unsupportedResources := unsupportedResources st;
       StackCostEstimate.timestamp := now |}.

End Calculators.

End CostCalculator.

(** ** Reference inputs

    A concrete runtime for the closed examples: the coercions it fixes are
    never exercised by them. *)
Definition reference_runtime : Runtime :=
  {| NaN := 0;
     StringToNumber := fun _ => 0;
     NumberToString := fun _ => "<number>";
     NumberToLocaleString := fun _ => "<number>" |}.

(** An estimate with the given total and resources, and a priced
    resource with the given monthly cost. *)
Definition estimate_of (total : Q) (resources : list ResourceCost.t) : StackCostEstimate.t :=
  {| StackCostEstimate.stackName := "stack";
     StackCostEstimate.templateSource := local;
     StackCostEstimate.totalMonthlyCost := total;
     StackCostEstimate.totalHourlyCost := total / 730;
     StackCostEstimate.resources := resources;
     StackCostEstimate.unsupportedResources := [];
     StackCostEstimate.timestamp := "2024-01-01T00:00:00.000Z" |}.


(** ** Vocabulary of the specification *)
Module Spec.
Import JS TemplateParser.






(** The classification seen from the other direction. *)
Definition mirrored (t : ChangeType) : ChangeType :=
  match t with
  | added => removed
  | removed => added
  | modified => modified
  | unchanged => unchanged
  end.

Definition resource_ids (e : StackCostEstimate.t) : list string :=
  List.map ResourceCost.resourceId (StackCostEstimate.resources e).

End Spec.

(** ** Regional pricing ([src/pricing-data.ts])

    [getRegionalPricing] clones a table and updates the clone in place,
    so the tables live in a heap of objects.  A location is an index
    into the heap; an object is the list of its properties in insertion
    order; a property holds a primitive or a reference.  The numbers of
    this module have a NaN, which is what a product with a non-number
    yields. *)
Module RegionalPricing.

(** A JSON document: what [JSON.stringify] writes and [JSON.parse]
    reads.  The tables hold no array. *)
Unset Elimination Schemes.
Inductive json : Type :=
| JNull
| JBool (b : bool)
| JNum (q : Q)
| JStr (s : string)
| JObj (members : list (string * json)).
Set Elimination Schemes.

Inductive number : Type :=
| Finite (q : Q)
| NotANumber.

Abbreviation loc := nat (only parsing).

Inductive slot : Type :=
| SNull
| SBool (b : bool)
| SNum (n : number)
| SStr (s : string)
| SRef (l : loc).

Abbreviation object := (list (string * slot)) (only parsing).
Abbreviation heap := (list (list (string * slot))) (only parsing).

(** A new object. *)
Definition alloc (o : object) (h : heap) : loc * heap :=
  (List.length h, (h ++ [o])%list).

(** [JSON.parse(text)]: one new object for every object of the text. *)
Definition parse_members (parse : json -> heap -> slot * heap) :=
  fix go (members : list (string * json)) (h : heap) : object * heap :=
    match members with
    | [] => ([], h)
    | (key, j) :: rest =>
        let '(s, h) := parse j h in
        let '(o, h) := go rest h in
        ((key, s) :: o, h)
    end.

Fixpoint parse (j : json) (h : heap) : slot * heap :=
  match j with
  | JNull => (SNull, h)
  | JBool b => (SBool b, h)
  | JNum q => (SNum (Finite q), h)
  | JStr s => (SStr s, h)
  | JObj members =>
      let '(o, h) := parse_members parse members h in
      let '(l, h) := alloc o h in
      (SRef l, h)
  end.

(** [JSON.stringify(value)].  NaN is written as [null].  [None] is the
    [TypeError] of a cyclic structure: the walk is cut at a depth no
    acyclic structure of the heap reaches. *)
Definition stringify_members (stringify : slot -> option json) :=
  fix go (o : object) : option (list (string * json)) :=
    match o with
    | [] => Some []
    | (key, s) :: rest =>
        match stringify s, go rest with
        | Some j, Some members => Some ((key, j) :: members)
        | _, _ => None
        end
    end.

Fixpoint stringify (fuel : nat) (h : heap) (s : slot) : option json :=
  match s with
  | SNull => Some JNull
  | SBool b => Some (JBool b)
  | SNum (Finite q) => Some (JNum q)
  | SNum NotANumber => Some JNull
  | SStr s => Some (JStr s)
  | SRef l =>
      match fuel with
      | O => None
      | S fuel =>
          match h !! l with
          | Some o =>
              match stringify_members (stringify fuel h) o with
              | Some members => Some (JObj members)
              | None => None
              end
          | None => None
          end
      end
  end.

Definition JSON_stringify (h : heap) (s : slot) : option json :=
  stringify (S (List.length h)) h s.

Definition JSON_parse (text : json) (h : heap) : slot * heap := parse text h.

(** What [REGIONAL_MULTIPLIERS[region] || 1.1] evaluates to: a number,
    or a member that the table inherits from [Object.prototype]. *)
Inductive multiplier : Type :=
| Factor (q : Q)
| Inherited (name : string).

(** [value * multiplier] *)
Definition times (value : number) (m : multiplier) : number :=
  match value, m with
  | Finite v, Factor q => Finite (v * q)
  | _, _ => NotANumber
  end.

(** Regional pricing multipliers (relative to us-east-1) *)
Definition REGIONAL_MULTIPLIERS : list (string * Q) :=
  [ ("us-east-1", 1.0);
    ("us-east-2", 1.0);
    ("us-west-1", 1.1);
    ("us-west-2", 1.0);
    ("eu-west-1", 1.05);
    ("eu-west-2", 1.08);
    ("eu-west-3", 1.1);
    ("eu-central-1", 1.08);
    ("eu-north-1", 1.05);
    ("ap-southeast-1", 1.1);
    ("ap-southeast-2", 1.15);
    ("ap-northeast-1", 1.15);
    ("ap-northeast-2", 1.12);
    ("ap-south-1", 1.05);
    ("ca-central-1", 1.05);
    ("sa-east-1", 1.5) ].

(** The property names of [Object.prototype], which every object
    literal inherits. *)
Definition Object_prototype : list string :=
  [ "constructor"; "__defineGetter__"; "__defineSetter__"; "hasOwnProperty";
    "__lookupGetter__"; "__lookupSetter__"; "isPrototypeOf"; "propertyIsEnumerable";
    "toString"; "valueOf"; "__proto__"; "toLocaleString" ].

Definition inherits (name : string) : bool :=
  existsb (String.eqb name) Object_prototype.

(** [REGIONAL_MULTIPLIERS[region] || 1.1] *)
Definition multiplier_for (region : string) : multiplier :=
  match JSMap.get REGIONAL_MULTIPLIERS region with
  | Some q => if Qeq_bool q 0 then Factor 1.1 else Factor q
  | None => if inherits region then Inherited region else Factor 1.1
  end.

(** [applyToObject]: for every key of [Object.keys(obj)], a number is
    replaced by its product with the multiplier, a non-null object is
    visited, anything else is left.  [apply_key] is the body of the
    loop. *)
Definition apply_key (applyToObject : loc -> heap -> option heap)
    (multiplier : multiplier) (obj : loc) (state : option heap) (key : string)
    : option heap :=
  match state with
  | Some h =>
      match h !! obj with
      | Some o =>
          match JSMap.get o key with
          | Some (SNum value) =>
              Some (<[obj := JSMap.set o key (SNum (times value multiplier))]> h)
          | Some (SRef l) => applyToObject l h
          | _ => Some h
          end
      | None => None
      end
  | None => None
  end.

Fixpoint applyToObject (fuel : nat) (multiplier : multiplier) (obj : loc) (h : heap)
    : option heap :=
  match fuel with
  | O => None
  | S fuel =>
      match h !! obj with
      | Some o =>
          fold_left (apply_key (applyToObject fuel multiplier) multiplier obj)
            (JSMap.keys o) (Some h)
      | None => None
      end
  end.

(** [applyMultiplier(pricing, multiplier)]: the clone of [pricing], with
    the multiplier applied.  [None] where the walk would not end. *)
Definition applyMultiplier (pricing : loc) (multiplier : multiplier) (h : heap)
    : option (loc * heap) :=
  match JSON_stringify h (SRef pricing) with
  | Some text =>
      match JSON_parse text h with
      | (SRef result, h) =>
          match applyToObject (S (List.length h)) multiplier result h with
          | Some h => Some (result, h)
          | None => None
          end
      | _ => None
      end
  | None => None
  end.

(** [getRegionalPricing(region)], in a module whose constant
    [US_EAST_1_PRICING] refers to the object at [base]. *)
Definition getRegionalPricing (base : loc) (region : string) (h : heap)
    : option (loc * heap) :=
  let multiplier := multiplier_for region in
  if String.eqb region "us-east-1" then Some (base, h)
  else applyMultiplier base multiplier h.

(** The object literal [US_EAST_1_PRICING]. *)
Definition US_EAST_1_PRICING : json :=
  JObj [
    ("ec2", JObj [
      ("t3.nano", JNum 0.0052);
      ("t3.micro", JNum 0.0104);
      ("t3.small", JNum 0.0208);
      ("t3.medium", JNum 0.0416);
      ("t3.large", JNum 0.0832);
      ("t3.xlarge", JNum 0.1664);
      ("t3.2xlarge", JNum 0.3328);
      ("t3a.nano", JNum 0.0047);
      ("t3a.micro", JNum 0.0094);
      ("t3a.small", JNum 0.0188);
      ("t3a.medium", JNum 0.0376);
      ("t3a.large", JNum 0.0752);
      ("t3a.xlarge", JNum 0.1504);
      ("t3a.2xlarge", JNum 0.3008);
      ("m5.large", JNum 0.096);
      ("m5.xlarge", JNum 0.192);
      ("m5.2xlarge", JNum 0.384);
      ("m5.4xlarge", JNum 0.768);
      ("m5.8xlarge", JNum 1.536);
      ("m5.12xlarge", JNum 2.304);
      ("m5.16xlarge", JNum 3.072);
      ("m5.24xlarge", JNum 4.608);
      ("m6i.large", JNum 0.096);
      ("m6i.xlarge", JNum 0.192);
      ("m6i.2xlarge", JNum 0.384);
      ("m6i.4xlarge", JNum 0.768);
      ("m6i.8xlarge", JNum 1.536);
      ("m7i.large", JNum 0.1008);
      ("m7i.xlarge", JNum 0.2016);
      ("m7i.2xlarge", JNum 0.4032);
      ("c5.large", JNum 0.085);
      ("c5.xlarge", JNum 0.17);
      ("c5.2xlarge", JNum 0.34);
      ("c5.4xlarge", JNum 0.68);
      ("c5.9xlarge", JNum 1.53);
      ("c6i.large", JNum 0.085);
      ("c6i.xlarge", JNum 0.17);
      ("c6i.2xlarge", JNum 0.34);
      ("c7i.large", JNum 0.0893);
      ("c7i.xlarge", JNum 0.1785);
      ("r5.large", JNum 0.126);
      ("r5.xlarge", JNum 0.252);
      ("r5.2xlarge", JNum 0.504);
      ("r5.4xlarge", JNum 1.008);
      ("r6i.large", JNum 0.126);
      ("r6i.xlarge", JNum 0.252);
      ("r7i.large", JNum 0.1323);
      ("i3.large", JNum 0.156);
      ("i3.xlarge", JNum 0.312);
      ("i3.2xlarge", JNum 0.624);
      ("t4g.nano", JNum 0.0042);
      ("t4g.micro", JNum 0.0084);
      ("t4g.small", JNum 0.0168);
      ("t4g.medium", JNum 0.0336);
      ("t4g.large", JNum 0.0672);
      ("t4g.xlarge", JNum 0.1344);
      ("m6g.large", JNum 0.077);
      ("m6g.xlarge", JNum 0.154);
      ("m6g.2xlarge", JNum 0.308);
      ("m7g.large", JNum 0.0816);
      ("m7g.xlarge", JNum 0.1632);
      ("c6g.large", JNum 0.068);
      ("c6g.xlarge", JNum 0.136);
      ("c7g.large", JNum 0.0725);
      ("r6g.large", JNum 0.1008);
      ("r6g.xlarge", JNum 0.2016);
      ("r7g.large", JNum 0.107) ]);
    ("ebs", JObj [
      ("gp2", JNum 0.10);
      ("gp3", JNum 0.08);
      ("io1", JNum 0.125);
      ("io2", JNum 0.125);
      ("st1", JNum 0.045);
      ("sc1", JNum 0.015);
      ("standard", JNum 0.05) ]);
    ("rds", JObj [
      ("db.t3.micro", JNum 0.017);
      ("db.t3.small", JNum 0.034);
      ("db.t3.medium", JNum 0.068);
      ("db.t3.large", JNum 0.136);
      ("db.t3.xlarge", JNum 0.272);
      ("db.t3.2xlarge", JNum 0.544);
      ("db.t4g.micro", JNum 0.016);
      ("db.t4g.small", JNum 0.032);
      ("db.t4g.medium", JNum 0.065);
      ("db.t4g.large", JNum 0.129);
      ("db.m5.large", JNum 0.171);
      ("db.m5.xlarge", JNum 0.342);
      ("db.m5.2xlarge", JNum 0.684);
      ("db.m5.4xlarge", JNum 1.368);
      ("db.m6i.large", JNum 0.171);
      ("db.m6i.xlarge", JNum 0.342);
      ("db.m6g.large", JNum 0.154);
      ("db.m6g.xlarge", JNum 0.308);
      ("db.r5.large", JNum 0.24);
      ("db.r5.xlarge", JNum 0.48);
      ("db.r5.2xlarge", JNum 0.96);
      ("db.r6i.large", JNum 0.24);
      ("db.r6g.large", JNum 0.216);
      ("db.r6g.xlarge", JNum 0.432);
      ("db.serverless", JNum 0.06) ]);
    ("lambda", JObj [
      ("requestPrice", JNum 0.20);
      ("durationPrice", JNum 0.0000166667);
      ("freeRequests", JNum 1000000);
      ("freeDuration", JNum 400000) ]);
    ("s3", JObj [
      ("storage", JNum 0.023);
      ("requests", JNum 0.0004) ]);
    ("dynamodb", JObj [
      ("writeCapacityUnit", JNum (0.00065 * 730));
      ("readCapacityUnit", JNum (0.00013 * 730));
      ("storagePerGB", JNum 0.25);
      ("onDemandWrite", JNum 1.25);
      ("onDemandRead", JNum 0.25) ]);
    ("elasticache", JObj [
      ("cache.t3.micro", JNum 0.017);
      ("cache.t3.small", JNum 0.034);
      ("cache.t3.medium", JNum 0.068);
      ("cache.t4g.micro", JNum 0.016);
      ("cache.t4g.small", JNum 0.032);
      ("cache.t4g.medium", JNum 0.065);
      ("cache.m5.large", JNum 0.155);
      ("cache.m5.xlarge", JNum 0.31);
      ("cache.m6g.large", JNum 0.14);
      ("cache.r5.large", JNum 0.218);
      ("cache.r6g.large", JNum 0.196) ]);
    ("sns", JObj [
      ("requestsPerMillion", JNum 0.50);
      ("smsPerMessage", JNum 0.00645) ]);
    ("sqs", JObj [
      ("requestsPerMillion", JNum 0.40) ]);
    ("apiGateway", JObj [
      ("restApiPerMillion", JNum 3.50);
      ("httpApiPerMillion", JNum 1.00);
      ("websocketPerMillion", JNum 1.00) ]);
    ("cloudwatch", JObj [
      ("metricsPerMonth", JNum 0.30);
      ("logsIngestionPerGB", JNum 0.50);
      ("logsStoragePerGB", JNum 0.03);
      ("dashboardsPerMonth", JNum 3.00);
      ("alarmsPerMonth", JNum 0.10) ]);
    ("ecs", JObj [
      ("fargateVCPUPerHour", JNum 0.04048);
      ("fargateMemoryPerGBHour", JNum 0.004445) ]);
    ("eks", JObj [
      ("clusterPerHour", JNum 0.10) ]);
    ("nat", JObj [
      ("gatewayPerHour", JNum 0.045);
      ("dataProcessedPerGB", JNum 0.045) ]);
    ("alb", JObj [
      ("perHour", JNum 0.0225);
      ("lcuPerHour", JNum 0.008) ]);
    ("nlb", JObj [
      ("perHour", JNum 0.0225);
      ("lcuPerHour", JNum 0.006) ]);
    ("elasticIP", JObj [
      ("perHour", JNum 0.005);
      ("dataTransferPerGB", JNum 0.00) ]);
    ("secretsManager", JObj [
      ("perSecretPerMonth", JNum 0.40);
      ("perAPICallPer10k", JNum 0.05) ]);
    ("kms", JObj [
      ("perKeyPerMonth", JNum 1.00);
      ("perRequestPer10k", JNum 0.03) ]);
    ("stepFunctions", JObj [
      ("standardTransitionsPerMillion", JNum 25.00);
      ("expressPerMillion", JNum 1.00) ]);
    ("eventBridge", JObj [
      ("customEventsPerMillion", JNum 1.00);
      ("archivePerGB", JNum 0.023) ]);
    ("cognito", JObj [
      ("mauFreeLimit", JNum 50000);
      ("perMAUAboveFree", JNum 0.0055) ]);
    ("route53", JObj [
      ("hostedZonePerMonth", JNum 0.50);
      ("queriesPerMillion", JNum 0.40) ])
  ].

(** The module once loaded: the heap that holds the objects of the
    literal, and the object the constant refers to. *)
Definition loaded : loc * heap :=
  match parse US_EAST_1_PRICING [] with
  | (SRef base, h) => (base, h)
  | (_, h) => (O, h)
  end.

(** *** Vocabulary of the claim *)

(** The table with every numeric leaf multiplied. *)
Fixpoint scale (m : Q) (j : json) : json :=
  match j with
  | JNum q => JNum (q * m)
  | JObj members => JObj (List.map (fun member => (fst member, scale m (snd member))) members)
  | _ => j
  end.

Fixpoint depth (j : json) : nat :=
  match j with
  | JObj members => S (fold_right (fun member d => Nat.max (depth (snd member)) d) O members)
  | _ => O
  end.

Fixpoint distinct (keys : list string) : bool :=
  match keys with
  | [] => true
  | key :: rest => negb (existsb (String.eqb key) rest) && distinct rest
  end.

(** The keys of every object of the document are pairwise distinct. *)
Fixpoint well_formed (j : json) : bool :=
  match j with
  | JObj members =>
      distinct (List.map fst members) && forallb (fun member => well_formed (snd member)) members
  | _ => true
  end.

(** The locations a value leads to. *)
Inductive reach (h : heap) : slot -> loc -> Prop :=
| reach_here (l : loc) : reach h (SRef l) l
| reach_member (l : loc) (o : object) (key : string) (s : slot) (l' : loc) :
    h !! l = Some o -> In (key, s) o -> reach h s l' -> reach h (SRef l) l'.

(** [s] is the root of a tree of objects that reads as [j] and occupies
    exactly the locations from [lo] up to [hi], each object after its
    members. *)
Definition members_at (tree_at : json -> slot -> nat -> nat -> Prop) :=
  fix go (members : list (string * json)) (o : object) (lo hi : nat) : Prop :=
    match members, o with
    | [], [] => lo = hi
    | (key, j) :: members, (key', s) :: o =>
        key = key' /\ exists mid, tree_at j s lo mid /\ go members o mid hi
    | _, _ => False
    end.

Fixpoint tree_at (h : heap) (j : json) (s : slot) (lo hi : nat) : Prop :=
  match j with
  | JNull => s = SNull /\ lo = hi
  | JBool b => s = SBool b /\ lo = hi
  | JNum q => s = SNum (Finite q) /\ lo = hi
  | JStr x => s = SStr x /\ lo = hi
  | JObj members =>
      exists l o, s = SRef l /\ hi = S l /\ h !! l = Some o
                  /\ members_at (tree_at h) members o lo l
  end.

(** The property at the end of a path of keys. *)
Fixpoint read (h : heap) (s : slot) (path : list string) : option slot :=
  match path with
  | [] => Some s
  | key :: rest =>
      match s with
      | SRef l =>
          match h !! l with
          | Some o =>
              match JSMap.get o key with
              | Some s' => read h s' rest
              | None => None
              end
          | None => None
          end
      | _ => None
      end
  end.

End RegionalPricing.

(** ** Vocabulary of the stack aggregation *)
Module StackSpec.
Import JS TemplateParser PricingData CostCalculator.

(** [sum(d.monthlyCost for d in details)] *)
Definition details_total (details : list CostDetail.t) : Q :=
  Num.sum (List.map CostDetail.monthlyCost details).

(** [r.monthlyCost == sum(d.monthlyCost for d in r.details)] *)
Definition details_add_up (rc : ResourceCost.t) : Prop :=
  ResourceCost.monthlyCost rc == details_total (ResourceCost.details rc).

(** [hourlyCost == monthlyCost / HOURS_PER_MONTH] *)
Definition hourly_is_monthly_share (rc : ResourceCost.t) : Prop :=
  ResourceCost.hourlyCost rc == ResourceCost.monthlyCost rc / HOURS_PER_MONTH.






Definition calculator_identity (entry : string * ResourceCostCalculator) : Prop :=
  forall id r t p rc,
    snd entry id r t p = Returns (Some rc) ->
    ResourceCost.resourceId rc = id /\ ResourceCost.resourceType rc = fst entry.

Definition estimator_sound
    (entry : string * (instance -> string -> value -> value -> outcome (option ResourceCost.t)))
    : Prop :=
  forall this id r t rc,
    snd entry this id r t = Returns (Some rc) ->
    details_add_up rc /\ hourly_is_monthly_share rc /\ ResourceCost.resourceId rc = id.

(** The state of the loop before its first iteration, and a state
    followed by what later iterations pushed. *)
Definition start : progress :=
  {| resources := []; unsupportedResources := []; invocations := [] |}.

Definition extend (st d : progress) : progress :=
  {| resources := (resources st ++ resources d)%list;
     unsupportedResources := (unsupportedResources st ++ unsupportedResources d)%list;
     invocations := (invocations st ++ invocations d)%list |}.

(** [total == sum(r.cost for r in resources)], for both totals. *)
Definition totals_are_sums (est : StackCostEstimate.t) : Prop :=
  StackCostEstimate.totalMonthlyCost est
    == Num.sum (List.map ResourceCost.monthlyCost (StackCostEstimate.resources est))
  /\ StackCostEstimate.totalHourlyCost est
    == Num.sum (List.map ResourceCost.hourlyCost (StackCostEstimate.resources est)).

(** The part of the totals that is charged to a logical id. *)
Definition charged_to (id : string) (rc : ResourceCost.t) : bool :=
  String.eqb (ResourceCost.resourceId rc) id.

Definition monthly_contribution (est : StackCostEstimate.t) (id : string) : Q :=
  Num.sum (List.map ResourceCost.monthlyCost
             (List.filter (charged_to id) (StackCostEstimate.resources est))).

Definition hourly_contribution (est : StackCostEstimate.t) (id : string) : Q :=
  Num.sum (List.map ResourceCost.hourlyCost
             (List.filter (charged_to id) (StackCostEstimate.resources est))).

Definition contributes_nothing (est : StackCostEstimate.t) (id : string) : Prop :=
  (forall rc, In rc (StackCostEstimate.resources est) -> ResourceCost.resourceId rc <> id)
  /\ monthly_contribution est id == 0
  /\ hourly_contribution est id == 0.


(** The guards under which an iteration of [calculateStackCost] calls
    [calculateUsageBasedResource]. *)
Definition reaches_usage_dispatch {rt : Runtime} (this : instance) (ty : string) : Prop :=
  isFreeResource ty = false
  /\ JSMap.get (calculators this) ty = None
  /\ has USAGE_BASED_RESOURCES ty = true.

(** The types that are both free and usage-based. *)
Definition free_usage_types : list string :=
  [ "AWS::SNS::Topic"; "AWS::Logs::LogGroup"; "AWS::SSM::Parameter" ].

(** The record an iteration pushes when the calculator throws. *)
Definition calculation_error (id ty message : string) : UnsupportedResource.t :=
  {| UnsupportedResource.resourceId := id;
     UnsupportedResource.resourceType := ty;
     UnsupportedResource.reason := "Calculation error: " ++ message |}.

End StackSpec.

(** ** Sample stacks *)
Module Samples.
Import CostCalculator.

Definition resource_of (type : string) (properties : list (string * value)) : value :=
  VObj [("Type", VStr type); ("Properties", VObj properties)].

Definition template_of (resources : list (string * value)) : value :=
  VObj [("Resources", VObj resources)].

(** The prices the calculators below read, as the pricing fetcher lays
    them out. *)
Definition sample_pricing : value :=
  VObj [("natGateway", VObj [("hourly", VNum 0.045); ("perGB", VNum 0.045)]);
        ("waf", VObj [("webACL", VNum 5); ("rule", VNum 1)])].

Definition sample_calculator : instance :=
  {| pricing := sample_pricing; region := "us-east-1" |}.

(** A NAT gateway and a transit-gateway attachment. *)
Definition gateway_stack : value :=
  template_of
    [("Nat", resource_of "AWS::EC2::NatGateway" []);
     ("Attachment", resource_of "AWS::EC2::TransitGatewayAttachment" [])].


(** A free role, a topic, a web ACL with two rules, a volume whose
    calculator throws (there are no [ebs] prices), a NAT gateway and a
    type without calculator. *)
Definition role : string * value := ("Role", resource_of "AWS::IAM::Role" []).
Definition topic : string * value := ("Topic", resource_of "AWS::SNS::Topic" []).
Definition web_acl : string * value :=
  ("Acl", resource_of "AWS::WAFv2::WebACL" [("Rules", VArr [VObj []; VObj []])]).
Definition disk : string * value := ("Disk", resource_of "AWS::EC2::Volume" []).
Definition nat_gateway : string * value := ("Nat", resource_of "AWS::EC2::NatGateway" []).
Definition thing : string * value := ("Thing", resource_of "AWS::Unknown::Thing" []).

Definition mixed_stack : value :=
  template_of [role; topic; web_acl; disk; nat_gateway; thing].

Definition timestamp : string := "2024-01-01T00:00:00.000Z".

End Samples.

(** ** diff-calculator.ts : statistics and filters *)
Module DiffSummary.

(** The counters are numbers that start at 0 and go up by one: naturals. *)
Record SummaryStats : Type := {
  totalAdded : nat;
  totalRemoved : nat;
  totalModified : nat;
  totalUnchanged : nat;
  addedCost : Q;
  removedCost : Q;
  modifiedCostChange : Q
}.

(** The body of the loop of [getSummaryStats]. *)
Definition count_change (stats : SummaryStats) (change : ResourceChange.t) : SummaryStats :=
  match ResourceChange.changeType change with
  | added =>
      {| totalAdded := S (totalAdded stats);
         totalRemoved := totalRemoved stats;
         totalModified := totalModified stats;
         totalUnchanged := totalUnchanged stats;
         addedCost := addedCost stats + ResourceChange.costDifference change;
         removedCost := removedCost stats;
         modifiedCostChange := modifiedCostChange stats |}
  | removed =>
      {| totalAdded := totalAdded stats;
         totalRemoved := S (totalRemoved stats);
         totalModified := totalModified stats;
         totalUnchanged := totalUnchanged stats;
         addedCost := addedCost stats;
         removedCost := removedCost stats + Num.abs (ResourceChange.costDifference change);
         modifiedCostChange := modifiedCostChange stats |}
  | modified =>
      {| totalAdded := totalAdded stats;
         totalRemoved := totalRemoved stats;
         totalModified := S (totalModified stats);
         totalUnchanged := totalUnchanged stats;
         addedCost := addedCost stats;
         removedCost := removedCost stats;
         modifiedCostChange := modifiedCostChange stats + ResourceChange.costDifference change |}
  | unchanged =>
      {| totalAdded := totalAdded stats;
         totalRemoved := totalRemoved stats;
         totalModified := totalModified stats;
         totalUnchanged := S (totalUnchanged stats);
         addedCost := addedCost stats;
         removedCost := removedCost stats;
         modifiedCostChange := modifiedCostChange stats |}
  end.

(** Get summary statistics for a comparison *)
Definition getSummaryStats (comparison : CostComparison.t) : SummaryStats :=
  fold_left count_change (CostComparison.resourceChanges comparison)
    {| totalAdded := O; totalRemoved := O; totalModified := O; totalUnchanged := O;
       addedCost := 0; removedCost := 0; modifiedCostChange := 0 |}.

Definition same_type (a b : ChangeType) : bool :=
  match a, b with
  | added, added | removed, removed | modified, modified | unchanged, unchanged => true
  | _, _ => false
  end.

(** [changeTypes.includes(changeType)] *)
Definition includes_type (changeTypes : list ChangeType) (t : ChangeType) : bool :=
  existsb (same_type t) changeTypes.

(** Filter resource changes by change type *)
Definition filterChanges (comparison : CostComparison.t) (changeTypes : list ChangeType)
    : list ResourceChange.t :=
  List.filter (fun change => includes_type changeTypes (ResourceChange.changeType change))
    (CostComparison.resourceChanges comparison).


(** *** Vocabulary *)

(** The changes of one type. *)
Definition of_type (t : ChangeType) (l : list ResourceChange.t) : list ResourceChange.t :=
  List.filter (fun change => includes_type [t] (ResourceChange.changeType change)) l.

(** [a] may stand in front of [b]: its difference is at least as large. *)
Definition outweighs (a b : ResourceChange.t) : Prop :=
  Num.abs (ResourceChange.costDifference b) <= Num.abs (ResourceChange.costDifference a).


End DiffSummary.

(** ** diff-calculator.ts : comparison of two templates *)
Module StackDiff.
Import JS CostCalculator DiffCalculator.

Section WithRuntime.
Context {rt : Runtime}.



End WithRuntime.
End StackDiff.

(** ** Vocabulary of the dispatch *)
Module DispatchSpec.
Import JS TemplateParser PricingData CostCalculator.

(** The usage-based types for which an iteration of
    [calculateStackCost] calls an estimator. *)
Definition estimated_types : list string :=
  [ "AWS::Lambda::Function";
    "AWS::DynamoDB::Table";
    "AWS::S3::Bucket";
    "AWS::SQS::Queue";
    "AWS::ApiGateway::RestApi";
    "AWS::ApiGatewayV2::Api";
    "AWS::StepFunctions::StateMachine" ].

(** The record an iteration pushes for a type it knows nothing about. *)
Definition no_calculator (id ty : string) : UnsupportedResource.t :=
  {| UnsupportedResource.resourceId := id;
     UnsupportedResource.resourceType := ty;
     UnsupportedResource.reason :=
       "No pricing calculator available for this resource type" |}.

Definition unsupported_ids (e : StackCostEstimate.t) : list string :=
  List.map UnsupportedResource.resourceId (StackCostEstimate.unsupportedResources e).

(** The type an estimator writes into its result is the type of the
    resource. *)
Definition estimator_type
    (entry : string * (instance -> string -> value -> value -> outcome (option ResourceCost.t)))
    : Prop :=
  forall this id r t rc,
    get r "Type" = VStr (fst entry) ->
    snd entry this id r t = Returns (Some rc) ->
    ResourceCost.resourceType rc = fst entry.

(** What one iteration leaves behind for the resource [r] with id [id]:
    nothing, one cost, or one unsupported record, with the id and the
    type of the resource. *)
Definition leaves (d : progress) (id : string) (r : value) : Prop :=
  (resources d = [] /\ unsupportedResources d = [])
  \/ (exists rc, resources d = [rc] /\ unsupportedResources d = []
                 /\ ResourceCost.resourceId rc = id
                 /\ get r "Type" = VStr (ResourceCost.resourceType rc))
  \/ (exists u, resources d = [] /\ unsupportedResources d = [u]
                /\ UnsupportedResource.resourceId u = id
                /\ get r "Type" = VStr (UnsupportedResource.resourceType u)).

(** The calculator returns a cost whenever it returns. *)
Definition calculator_returns_cost (entry : string * ResourceCostCalculator) : Prop :=
  forall id r t p, snd entry id r t p <> Returns None.

Definition is_string_value (v : value) : bool :=
  match v with
  | VStr _ => true
  | _ => false
  end.

End DispatchSpec.

(** ** More sample stacks *)
Module MoreSamples.
Import CostCalculator Samples.

(** A queue named by an intrinsic function. *)
Definition queue : string * value :=
  ("Queue", resource_of "AWS::SQS::Queue"
              [("QueueName", VObj [("Fn::Sub", VStr "${AWS::StackName}-jobs")])]).
Definition stream : string * value :=
  ("Stream", resource_of "AWS::Firehose::DeliveryStream" []).
Definition repository : string * value :=
  ("Repo", resource_of "AWS::ECR::Repository" []).
Definition untyped : string * value := ("Odd", VObj [("Type", VNull)]).

Definition queue_stack : value := template_of [role; queue; nat_gateway].

Definition dispatch_stack : value := template_of [stream; repository; web_acl].

Definition untyped_stack : value := template_of [role; untyped; nat_gateway].

End MoreSamples.

(** ** template-parser.ts : resources by type *)
Module TemplateQueries.
Import JS TemplateParser.

(** Get resources by type *)
Definition getResourcesByType (template : value) (resourceType : string)
    : outcome (JSMap.t value) :=
  let* allResources := extractResources template in
  Returns (fold_left
             (fun resources entry =>
                if is_string (get (snd entry) "Type") resourceType
                then JSMap.set resources (fst entry) (snd entry)
                else resources)
             allResources []).

(** *** Vocabulary *)



Definition of_resource_type (resourceType : string) (entry : string * value) : bool :=
  is_string (get (snd entry) "Type") resourceType.

End TemplateQueries.

(** ** Vocabulary of the locality of an estimate *)
Module LocalitySpec.
Import JS TemplateParser CostCalculator.


End LocalitySpec.

(** ** Vocabulary of the order of the resources *)
Module OrderSpec.
Import JS TemplateParser CostCalculator StackSpec.

Section WithRuntime.
Context {rt : Runtime}.

(** What the iteration of one entry pushes, taken alone. *)
Definition pushed_costs (this : instance) (template : value) (entry : string * value)
    : list ResourceCost.t :=
  match visit this template start (fst entry) (snd entry) with
  | Returns d => resources d
  | Throws _ => []
  end.

Definition pushed_records (this : instance) (template : value) (entry : string * value)
    : list UnsupportedResource.t :=
  match visit this template start (fst entry) (snd entry) with
  | Returns d => unsupportedResources d
  | Throws _ => []
  end.

Definition visit_returns (this : instance) (template : value) (entry : string * value)
    : Prop :=
  exists d, visit this template start (fst entry) (snd entry) = Returns d.

End WithRuntime.

(** The type of the resource is a string, and no estimator is called
    for it. *)
Definition needs_no_estimator (entry : string * value) : Prop :=
  exists ty, get (snd entry) "Type" = VStr ty /\ ~ In ty DispatchSpec.estimated_types.

End OrderSpec.

(** * Properties *)

Module ResolverFacts.
Import JS TemplateParser.

Lemma depth_member (items : list value) (x : value) :
  In x items -> (depth x <= list_max (List.map depth items))%nat.
Proof.
  induction items as [|y items IH]; simpl; [tauto|].
  intros [->|Hin]; [lia|]. specialize (IH Hin). lia.
Qed.

Lemma depth_field (fields : list (string * value)) (kv : string * value) :
  In kv fields -> (depth (snd kv) <= list_max (List.map (fun kv => depth (snd kv)) fields))%nat.
Proof.
  induction fields as [|y fields IH]; simpl; [tauto|].
  intros [->|Hin]; [lia|]. specialize (IH Hin). lia.
Qed.

Lemma own_In (fields : list (string * value)) (key : string) (x : value) :
  own fields key = Some x -> exists k, In (k, x) fields.
Proof.
  induction fields as [|[k v] fields IH]; simpl; [discriminate|].
  destruct (String.eqb k key).
  - intros [= ->]. exists k. now left.
  - intros H. destruct (IH H) as [k' Hk']. exists k'. now right.
Qed.

Lemma depth_own (fields : list (string * value)) (key : string) (x : value) :
  own fields key = Some x -> (depth x < depth (VObj fields))%nat.
Proof.
  intros H. destruct (own_In _ _ _ H) as [k Hin].
  apply depth_field in Hin. simpl in *. lia.
Qed.

Section WithRuntime.
Context {rt : Runtime}.

(** The body only consults [self] on values strictly below [v]. *)
Lemma resolve_step_ext (f g : value -> value) template context (v : value) :
  (forall x, (depth x < depth v)%nat -> f x = g x) ->
  resolve_step f template context v = resolve_step g template context v.
Proof.
  intros Hfg. destruct v as [| | | | |items|obj]; try reflexivity.
  - simpl. f_equal. apply map_ext_in. intros x Hx. apply Hfg.
    apply depth_member in Hx. simpl. lia.
  - unfold resolve_step.
    assert (Hif : match own obj "Fn::If" with
                  | Some (VArr (_ :: whenTrue :: _)) => Some (f whenTrue)
                  | _ => None end =
                  match own obj "Fn::If" with
                  | Some (VArr (_ :: whenTrue :: _)) => Some (g whenTrue)
                  | _ => None end).
    { destruct (own obj "Fn::If") as [[| | | | |[|a [|w l]]|]|] eqn:E; try reflexivity.
      f_equal. apply Hfg. apply depth_own in E.
      assert (depth w <= list_max (List.map depth (a :: w :: l)))%nat
        by (apply depth_member; simpl; auto).
      simpl in *. lia. }
    assert (Hsel : match own obj "Fn::Select" with
                   | Some (VArr [index; source]) =>
                       match index, f source with
                       | VNum i, VArr list => Some (subscript list i)
                       | _, _ => None end
                   | _ => None end =
                   match own obj "Fn::Select" with
                   | Some (VArr [index; source]) =>
                       match index, g source with
                       | VNum i, VArr list => Some (subscript list i)
                       | _, _ => None end
                   | _ => None end).
    { destruct (own obj "Fn::Select") as [[| | | | |[|a [|w [|? ?]]]|]|] eqn:E; try reflexivity.
      rewrite (Hfg w); [reflexivity|]. apply depth_own in E.
      assert (depth w <= list_max (List.map depth [a; w]))%nat
        by (apply depth_member; simpl; auto).
      simpl in *. lia. }
    rewrite Hif, Hsel.
    assert (Hmap : List.map (fun kv => (fst kv, f (snd kv))) obj =
                   List.map (fun kv => (fst kv, g (snd kv))) obj).
    { apply map_ext_in. intros kv Hkv. f_equal. apply Hfg.
      apply depth_field in Hkv. simpl. lia. }
    rewrite Hmap. reflexivity.
Qed.

(** Any fuel above the depth of the value gives the same result. *)
Lemma resolve_fuel_enough template context :
  forall (n m : nat) (v : value),
    (depth v < n)%nat -> (depth v < m)%nat ->
    resolve n template context v = resolve m template context v.
Proof.
  induction n as [|n IH]; intros m v Hn Hm; [lia|].
  destruct m as [|m]; [lia|]. simpl.
  apply resolve_step_ext. intros x Hx. apply IH; lia.
Qed.

(** The unfolding equation of [resolveBasicIntrinsics]. *)
Lemma resolveBasicIntrinsics_unfold template context (v : value) :
  resolveBasicIntrinsics template v context =
  resolve_step (fun x => resolveBasicIntrinsics template x context) template context v.
Proof.
  unfold resolveBasicIntrinsics at 1. simpl.
  apply resolve_step_ext. intros x Hx. unfold resolveBasicIntrinsics.
  apply resolve_fuel_enough; lia.
Qed.
End WithRuntime.
End ResolverFacts.

Module SubscriptFacts.
Import JS.

Lemma Qred_inject_Z (z : Z) : Qred (inject_Z z) = inject_Z z.
Proof.
  unfold Qred, inject_Z. simpl.
  pose proof (Z.ggcd_gcd z 1) as Hg.
  pose proof (Z.ggcd_correct_divisors z 1) as Hd.
  destruct (Z.ggcd z 1) as [g [a b]]. simpl in *.
  rewrite Z.gcd_1_r in Hg. subst g. destruct Hd as [Ha Hb].
  rewrite Z.mul_1_l in Ha, Hb. subst. reflexivity.
Qed.

Lemma subscript_nat (items : list value) (i : Q) (n : nat) :
  i == nat_to_Q n -> subscript items i = nth n items VUndef.
Proof.
  intros Hi. unfold subscript.
  rewrite (Qred_complete _ _ Hi). unfold nat_to_Q. rewrite Qred_inject_Z. simpl.
  replace (0 <=? Z.of_nat n)%Z with true by (symmetry; apply Z.leb_le; lia).
  simpl. now rewrite Nat2Z.id.
Qed.

Lemma subscript_not_index (items : list value) (i : Q) :
  (forall n : nat, ~ i == nat_to_Q n) -> subscript items i = VUndef.
Proof.
  intros Hi. unfold subscript.
  destruct ((Qden (Qred i) =? 1)%positive && (0 <=? Qnum (Qred i))%Z) eqn:E; [|reflexivity].
  exfalso. apply andb_true_iff in E. destruct E as [Ed En].
  apply Pos.eqb_eq in Ed. apply Z.leb_le in En.
  apply (Hi (Z.to_nat (Qnum (Qred i)))).
  rewrite <- (Qred_correct i) at 1. unfold nat_to_Q. rewrite Z2Nat.id by exact En.
  destruct (Qred i) as [num den]. simpl in *. subst den. reflexivity.
Qed.

Lemma subscript_out_of_range (items : list value) (i : Q) :
  (forall n : nat, i == nat_to_Q n -> (List.length items <= n)%nat) ->
  subscript items i = VUndef.
Proof.
  intros Hi. unfold subscript.
  destruct ((Qden (Qred i) =? 1)%positive && (0 <=? Qnum (Qred i))%Z) eqn:E; [|reflexivity].
  apply andb_true_iff in E. destruct E as [Ed En].
  apply Pos.eqb_eq in Ed. apply Z.leb_le in En.
  apply nth_overflow. apply Hi.
  rewrite <- (Qred_correct i) at 1. unfold nat_to_Q. rewrite Z2Nat.id by exact En.
  destruct (Qred i) as [num den]. simpl in *. subst den. reflexivity.
Qed.
End SubscriptFacts.

Module ResolverClaims.
Import JS TemplateParser ResolverFacts SubscriptFacts Spec.

Section WithRuntime.
Context {rt : Runtime}.


(** C6 (amended).  When the property reached by the path is a
    [Fn::Select] with a numeric index and a source that resolves to a
    list, [getPropertyValue] returns the element of the resolved list at
    that index; when the index is not a position of the list it returns
    [undefined], and the caller's default is not used. *)
Theorem C6_select_through_getPropertyValue
    (template resource : value) (propertyPath : string) (defaultValue : value)
    (i : Q) (source : value) (list : list value) :
  walk (split_dot propertyPath) (JS.or (get resource "Properties") (VObj []))
    = Some (VObj [("Fn::Select", VArr [VNum i; source])]) ->
  resolveBasicIntrinsics template source empty_context = VArr list ->
  (forall (n : nat) (x : value),
      i == nat_to_Q n -> nth_error list n = Some x ->
      getPropertyValue template resource propertyPath defaultValue = x)
  /\ ((forall n : nat, i == nat_to_Q n -> (List.length list <= n)%nat) ->
      getPropertyValue template resource propertyPath defaultValue = VUndef).
Proof.
  intros Hwalk Hsrc.
  assert (Hget : getPropertyValue template resource propertyPath defaultValue
                 = subscript list i).
  { unfold getPropertyValue. rewrite Hwalk. simpl is_undefined. cbv iota.
    rewrite resolveBasicIntrinsics_unfold. unfold resolve_step. simpl own. cbv beta iota.
    rewrite Hsrc. reflexivity. }
  rewrite Hget. split.
  - intros n x Hi Hx. rewrite (subscript_nat _ _ _ Hi).
    now apply nth_error_nth.
  - apply subscript_out_of_range.
Qed.
End WithRuntime.



(** C6, at an index within range. *)
Lemma C6_witness :
  (forall (n : nat) (x : value),
      1 == nat_to_Q n -> nth_error [VStr "a"; VStr "b"] n = Some x ->
      getPropertyValue (rt := reference_runtime) (VObj [])
        (VObj [("Properties",
                VObj [("Zone", VObj [("Fn::Select",
                                      VArr [VNum 1; VArr [VStr "a"; VStr "b"]])])])])
        "Zone" (VStr "fallback") = x)
  /\ ((forall n : nat, 1 == nat_to_Q n -> (List.length [VStr "a"; VStr "b"] <= n)%nat) ->
      getPropertyValue (rt := reference_runtime) (VObj [])
        (VObj [("Properties",
                VObj [("Zone", VObj [("Fn::Select",
                                      VArr [VNum 1; VArr [VStr "a"; VStr "b"]])])])])
        "Zone" (VStr "fallback") = VUndef).
Proof.
  exact (C6_select_through_getPropertyValue (rt := reference_runtime) (VObj [])
           (VObj [("Properties",
                   VObj [("Zone", VObj [("Fn::Select",
                                         VArr [VNum 1; VArr [VStr "a"; VStr "b"]])])])])
           "Zone" (VStr "fallback") 1 (VArr [VStr "a"; VStr "b"]) [VStr "a"; VStr "b"]
           eq_refl eq_refl).
Defined.

(** C6 as stated fails: index 5 of a two-element list yields [undefined],
    not the default ["fallback"]. *)
Lemma C6_counterexample :
  getPropertyValue (rt := reference_runtime) (VObj [])
    (VObj [("Properties",
            VObj [("Zone", VObj [("Fn::Select",
                                  VArr [VNum 5; VArr [VStr "a"; VStr "b"]])])])])
    "Zone" (VStr "fallback") = VUndef
  /\ VUndef <> VStr "fallback".
Proof. split; [reflexivity | discriminate]. Qed.
End ResolverClaims.

Module NumFacts.

Lemma gt_true (a b : Q) : Num.gt a b = true <-> b < a.
Proof.
  unfold Num.gt. rewrite negb_true_iff. split.
  - intros H. apply Qnot_le_lt. intros Hle. apply Qle_bool_iff in Hle. congruence.
  - intros H. destruct (Qle_bool a b) eqn:E; [|reflexivity].
    apply Qle_bool_iff in E. exfalso. exact (Qlt_not_le _ _ H E).
Qed.

Lemma gt_false (a b : Q) : Num.gt a b = false <-> a <= b.
Proof.
  unfold Num.gt. rewrite negb_false_iff. apply Qle_bool_iff.
Qed.

Lemma gt_compat (a a' b b' : Q) : a == a' -> b == b' -> Num.gt a b = Num.gt a' b'.
Proof.
  intros Ha Hb. destruct (Num.gt a' b') eqn:E.
  - apply gt_true. apply gt_true in E. now rewrite Ha, Hb.
  - apply gt_false. apply gt_false in E. now rewrite Ha, Hb.
Qed.

Lemma abs_Qabs (a : Q) : Num.abs a == Qabs a.
Proof.
  unfold Num.abs. destruct (Qle_bool 0 a) eqn:E.
  - apply Qle_bool_iff in E. now rewrite Qabs_pos.
  - assert (a <= 0).
    { apply Qlt_le_weak. apply Qnot_le_lt. intros H. apply Qle_bool_iff in H. congruence. }
    now rewrite Qabs_neg.
Qed.

Lemma abs_minus_sym (a b : Q) : Num.abs (a - b) == Num.abs (b - a).
Proof. rewrite !abs_Qabs. rewrite Qabs_Qminus. reflexivity. Qed.


End NumFacts.

Module JSMapFacts.

Section Facts.
Context {V : Type}.
Implicit Types (m : JSMap.t V) (k : string) (v : V).

Lemma get_set_same m k v : JSMap.get (JSMap.set m k v) k = Some v.
Proof.
  induction m as [|[k' x] m IH]; simpl.
  - now rewrite String.eqb_refl.
  - destruct (String.eqb k' k) eqn:E; simpl; rewrite E; [reflexivity | exact IH].
Qed.

Lemma get_set_other m k k' v : k' <> k -> JSMap.get (JSMap.set m k v) k' = JSMap.get m k'.
Proof.
  intros Hne. induction m as [|[k0 x] m IH]; simpl.
  - destruct (String.eqb k k') eqn:E; [|reflexivity].
    apply String.eqb_eq in E. congruence.
  - destruct (String.eqb k0 k) eqn:E; simpl.
    + apply String.eqb_eq in E. subst k0.
      destruct (String.eqb k k') eqn:E'; [|reflexivity].
      apply String.eqb_eq in E'. congruence.
    + now rewrite IH.
Qed.

Lemma keys_set m k v :
  JSMap.keys (JSMap.set m k v) =
  if JSMap.has m k then JSMap.keys m else (JSMap.keys m ++ [k])%list.
Proof.
  unfold JSMap.has, JSMap.keys. induction m as [|[k' x] m IH]; simpl; [reflexivity|].
  destruct (String.eqb k' k) eqn:E; simpl.
  - reflexivity.
  - rewrite IH. now destruct (JSMap.get m k).
Qed.

Lemma get_None_keys m k : JSMap.get m k = None <-> ~ In k (JSMap.keys m).
Proof.
  unfold JSMap.keys. induction m as [|[k' x] m IH]; simpl; [tauto|].
  destruct (String.eqb k' k) eqn:E.
  - apply String.eqb_eq in E. split; [discriminate | tauto].
  - apply String.eqb_neq in E. rewrite IH. tauto.
Qed.

Lemma has_keys m k : JSMap.has m k = true <-> In k (JSMap.keys m).
Proof.
  unfold JSMap.has. pose proof (get_None_keys m k) as H.
  destruct (JSMap.get m k).
  - split; [|reflexivity]. intros _.
    destruct (in_dec string_dec k (JSMap.keys m)) as [Hin|Hout]; [exact Hin|].
    apply H in Hout. discriminate.
  - split; [discriminate|]. intros Hin. exfalso. now apply (proj1 H).
Qed.

Lemma get_In m k v : JSMap.get m k = Some v -> In (k, v) m.
Proof.
  induction m as [|[k' x] m IH]; simpl; [discriminate|].
  destruct (String.eqb k' k) eqn:E.
  - apply String.eqb_eq in E. intros [= ->]. subst. now left.
  - intros H. right. now apply IH.
Qed.

Lemma In_get m k v : List.NoDup (JSMap.keys m) -> In (k, v) m -> JSMap.get m k = Some v.
Proof.
  unfold JSMap.keys. induction m as [|[k' x] m IH]; simpl; [tauto|].
  intros Hnd [Heq|Hin].
  - injection Heq as -> ->. now rewrite String.eqb_refl.
  - inversion Hnd as [|? ? Hnotin Hnd']; subst.
    destruct (String.eqb k' k) eqn:E.
    + apply String.eqb_eq in E. subst k'. exfalso. apply Hnotin.
      change k with (fst (k, v)). now apply in_map.
    + now apply IH.
Qed.

Lemma NoDup_snoc (l : list string) (x : string) :
  List.NoDup l -> ~ In x l -> List.NoDup (l ++ [x]).
Proof.
  induction l as [|y l IH]; simpl; intros Hnd Hx.
  - constructor; [simpl; tauto | constructor].
  - inversion Hnd as [|? ? Hy Hnd']; subst. constructor.
    + rewrite in_app_iff. simpl. intros [H|[H|[]]]; [tauto|]. subst. tauto.
    + apply IH; [exact Hnd' | tauto].
Qed.

Lemma NoDup_keys_set m k v :
  List.NoDup (JSMap.keys m) -> List.NoDup (JSMap.keys (JSMap.set m k v)).
Proof.
  intros Hnd. rewrite keys_set. destruct (JSMap.has m k) eqn:E; [exact Hnd|].
  apply NoDup_snoc; [exact Hnd|]. intros Hin. apply has_keys in Hin. congruence.
Qed.

Lemma of_entries_acc (entries : list (string * V)) (acc : JSMap.t V) :
  let m := fold_left (fun m kv => JSMap.set m (fst kv) (snd kv)) entries acc in
  (List.NoDup (JSMap.keys acc) -> List.NoDup (JSMap.keys m))
  /\ (forall k, In k (JSMap.keys m) <-> In k (JSMap.keys acc) \/ In k (List.map fst entries))
  /\ (forall k v, JSMap.get m k = Some v ->
                  JSMap.get acc k = Some v \/ In (k, v) entries).
Proof.
  revert acc. induction entries as [|[k0 v0] entries IH]; intros acc; simpl.
  - split; [tauto | split; [intros k; simpl; tauto | intros k v H; now left]].
  - destruct (IH (JSMap.set acc k0 v0)) as (Hnd & Hkeys & Hget).
    split; [|split].
    + intros H. apply Hnd. now apply NoDup_keys_set.
    + intros k. rewrite (Hkeys k). rewrite keys_set.
      destruct (JSMap.has acc k0) eqn:E.
      * apply has_keys in E. split; [tauto|].
        intros [Hk|[<-|Hk]]; tauto.
      * rewrite in_app_iff. simpl. tauto.
    + intros k v Hk. apply Hget in Hk. destruct Hk as [Hk|Hk]; [|tauto].
      destruct (string_dec k k0) as [->|Hne].
      * rewrite get_set_same in Hk. injection Hk as <-. right. now left.
      * rewrite get_set_other in Hk by exact Hne. now left.
Qed.

Lemma NoDup_keys_of_entries (entries : list (string * V)) :
  List.NoDup (JSMap.keys (JSMap.of_entries entries)).
Proof. apply (of_entries_acc entries []). constructor. Qed.

Lemma keys_of_entries (entries : list (string * V)) (k : string) :
  In k (JSMap.keys (JSMap.of_entries entries)) <-> In k (List.map fst entries).
Proof.
  destruct (of_entries_acc entries []) as (_ & H & _). rewrite (H k). simpl. tauto.
Qed.

Lemma get_of_entries_In (entries : list (string * V)) (k : string) (v : V) :
  JSMap.get (JSMap.of_entries entries) k = Some v -> In (k, v) entries.
Proof.
  intros H. destruct (of_entries_acc entries []) as (_ & _ & Hget).
  destruct (Hget k v H) as [Habs|Hin]; [discriminate | exact Hin].
Qed.

(** [new Map(entries)] is [entries] itself when the keys are pairwise
    distinct. *)
Lemma of_entries_NoDup_acc (entries : list (string * V)) (acc : JSMap.t V) :
  List.NoDup (JSMap.keys acc ++ List.map fst entries) ->
  fold_left (fun m kv => JSMap.set m (fst kv) (snd kv)) entries acc = (acc ++ entries)%list.
Proof.
  revert acc. induction entries as [|[k v] entries IH]; intros acc Hnd; simpl.
  - now rewrite app_nil_r.
  - assert (Hset : JSMap.set acc k v = (acc ++ [(k, v)])%list).
    { assert (Hk : ~ In k (JSMap.keys acc)).
      { intros Hin. apply List.NoDup_remove_2 in Hnd. apply Hnd.
        apply in_app_iff. now left. }
      clear -Hk. unfold JSMap.keys in Hk.
      induction acc as [|[k' x] acc IHa]; simpl; [reflexivity|].
      simpl in Hk. destruct (String.eqb k' k) eqn:E.
      - apply String.eqb_eq in E. tauto.
      - f_equal. apply IHa. tauto. }
    rewrite Hset. rewrite IH.
    + now rewrite <- app_assoc.
    + unfold JSMap.keys in *. rewrite map_app. simpl. now rewrite <- app_assoc.
Qed.

Lemma of_entries_NoDup (entries : list (string * V)) :
  List.NoDup (List.map fst entries) -> JSMap.of_entries entries = entries.
Proof. intros H. unfold JSMap.of_entries. now rewrite of_entries_NoDup_acc. Qed.

End Facts.

End JSMapFacts.

Module DiffFacts.
Import DiffCalculator NumFacts JSMapFacts Spec.


Lemma fold_push {A B : Type} (f : A -> B) (l : list A) (init : list B) :
  fold_left (fun acc x => (acc ++ [f x])%list) l init = (init ++ List.map f l)%list.
Proof.
  revert init. induction l as [|x l IH]; intros init; simpl.
  - now rewrite app_nil_r.
  - rewrite IH. now rewrite <- app_assoc.
Qed.

Lemma fold_push_unless {A B : Type} (skip : A -> bool) (f : A -> B) (l : list A) (init : list B) :
  fold_left (fun acc x => if skip x then acc else (acc ++ [f x])%list) l init
  = (init ++ List.map f (List.filter (fun x => negb (skip x)) l))%list.
Proof.
  revert init. induction l as [|x l IH]; intros init; simpl.
  - now rewrite app_nil_r.
  - rewrite IH. destruct (skip x); simpl; [reflexivity|]. now rewrite <- app_assoc.
Qed.

Lemma collect_changes_eq (B A : JSMap.t ResourceCost.t) :
  collect_changes B A =
  (List.map (fun entry => classify_after B (fst entry) (snd entry)) A
   ++ List.map (fun entry => removed_change (fst entry) (snd entry))
        (List.filter (fun entry => negb (JSMap.has A (fst entry))) B))%list.
Proof.
  unfold collect_changes.
  rewrite (fold_push (fun entry => classify_after B (fst entry) (snd entry))).
  rewrite (fold_push_unless (fun entry => JSMap.has A (fst entry))
             (fun entry => removed_change (fst entry) (snd entry))).
  reflexivity.
Qed.

Lemma insert_change_perm (a : ResourceChange.t) (l : list ResourceChange.t) :
  Permutation (insert_change a l) (a :: l).
Proof.
  induction l as [|b l IH]; simpl; [reflexivity|].
  destruct (Num.gt (compare_changes a b) 0); [|reflexivity].
  rewrite IH. apply perm_swap.
Qed.

Lemma sort_changes_perm (l : list ResourceChange.t) : Permutation (sort_changes l) l.
Proof.
  induction l as [|a l IH]; simpl; [reflexivity|].
  rewrite insert_change_perm. now constructor.
Qed.

Lemma In_sort_changes (c : ResourceChange.t) (l : list ResourceChange.t) :
  In c (sort_changes l) <-> In c l.
Proof.
  split; apply Permutation_in; [|symmetry]; apply sort_changes_perm.
Qed.

(** Where the entries of [resourceChanges] come from. *)
Lemma In_resourceChanges (before after : StackCostEstimate.t) (c : ResourceChange.t) :
  In c (CostComparison.resourceChanges (compareEstimates before after)) <->
  (exists k ra, In (k, ra) (index_resources after)
                /\ c = classify_after (index_resources before) k ra)
  \/ (exists k rb, In (k, rb) (index_resources before)
                   /\ JSMap.has (index_resources after) k = false
                   /\ c = removed_change k rb).
Proof.
  unfold compareEstimates. simpl. rewrite In_sort_changes, collect_changes_eq, in_app_iff.
  rewrite !in_map_iff. split.
  - intros [([k ra] & <- & Hin)|([k rb] & <- & Hin)].
    + left. now exists k, ra.
    + right. apply filter_In in Hin. destruct Hin as [Hin Hhas].
      apply negb_true_iff in Hhas. now exists k, rb.
  - intros [(k & ra & Hin & ->)|(k & rb & Hin & Hhas & ->)].
    + left. now exists (k, ra).
    + right. exists (k, rb). split; [reflexivity|]. apply filter_In. split; [exact Hin|].
      simpl. now rewrite Hhas.
Qed.

Lemma resourceId_classify_after B k ra :
  ResourceChange.resourceId (classify_after B k ra) = k.
Proof.
  unfold classify_after. destruct (JSMap.get B k); [|reflexivity].
  now destruct (Num.gt _ _).
Qed.


Lemma index_resources_NoDup (e : StackCostEstimate.t) :
  List.NoDup (JSMap.keys (index_resources e)).
Proof. apply NoDup_keys_of_entries. Qed.

(** With pairwise distinct identifiers the map holds each resource
    under its identifier. *)
Lemma index_resources_lookup (e : StackCostEstimate.t) (r : ResourceCost.t) :
  List.NoDup (resource_ids e) ->
  In r (StackCostEstimate.resources e) ->
  JSMap.get (index_resources e) (ResourceCost.resourceId r) = Some r.
Proof.
  intros Hnd Hin. unfold index_resources. rewrite of_entries_NoDup.
  - apply In_get.
    + unfold JSMap.keys. now rewrite map_map.
    + apply in_map_iff. now exists r.
  - now rewrite map_map.
Qed.


End DiffFacts.

Module DiffClaims.
Import DiffCalculator NumFacts JSMapFacts Spec DiffFacts.


(** C9.  Comparing in the two directions gives opposite
    [costDifference]s, and every change of one direction has a
    counterpart for the same identifier in the other direction whose
    classification is mirrored ([added] with [removed], [modified] with
    [modified]) and whose [costDifference] is negated. *)
Theorem C9_comparison_is_antisymmetric (a b : StackCostEstimate.t) :
  CostComparison.costDifference (compareEstimates a b)
    == - CostComparison.costDifference (compareEstimates b a)
  /\ forall c : ResourceChange.t,
       In c (CostComparison.resourceChanges (compareEstimates a b)) ->
       exists c' : ResourceChange.t,
         In c' (CostComparison.resourceChanges (compareEstimates b a))
         /\ ResourceChange.resourceId c' = ResourceChange.resourceId c
         /\ ResourceChange.changeType c' = mirrored (ResourceChange.changeType c)
         /\ ResourceChange.costDifference c' == - ResourceChange.costDifference c.
Proof.
  split.
  - unfold compareEstimates. simpl. ring.
  - intros c Hc.
    pose proof (index_resources_NoDup a) as HndA.
    pose proof (index_resources_NoDup b) as HndB.
    apply In_resourceChanges in Hc.
    remember (index_resources a) as A eqn:EqA.
    remember (index_resources b) as B eqn:EqB.
    destruct Hc as [(k & rb & Hin & ->)|(k & ra & Hin & Hhas & ->)].
    + (* [k] is in [b]; its record in the direction (a, b) is a classification
         against [a] *)
      pose proof (In_get _ _ _ HndB Hin) as EB.
      destruct (JSMap.get A k) as [ra|] eqn:EA.
      * exists (classify_after B k ra). split; [|split; [|split]].
        -- apply In_resourceChanges. rewrite <- ?EqA, <- ?EqB. left. exists k, ra. split; [|reflexivity].
           now apply get_In.
        -- now rewrite !resourceId_classify_after.
        -- unfold classify_after. rewrite EA, EB.
           rewrite (gt_compat _ (Num.abs (ResourceCost.monthlyCost ra
                                          - ResourceCost.monthlyCost rb)) _ 0.01
                      (abs_minus_sym _ _) (Qeq_refl _)).
           now destruct (Num.gt _ _).
        -- unfold classify_after. rewrite EA, EB.
           rewrite (gt_compat _ (Num.abs (ResourceCost.monthlyCost ra
                                          - ResourceCost.monthlyCost rb)) _ 0.01
                      (abs_minus_sym _ _) (Qeq_refl _)).
           destruct (Num.gt _ _); simpl; ring.
      * exists (removed_change k rb). split; [|split; [|split]].
        -- apply In_resourceChanges. rewrite <- ?EqA, <- ?EqB. right. exists k, rb. split; [exact Hin|].
           split; [|reflexivity]. unfold JSMap.has.  now rewrite EA.
        -- now rewrite resourceId_classify_after.
        -- unfold classify_after. now rewrite EA.
        -- unfold classify_after. rewrite EA. simpl. reflexivity.
    + (* [k] is in [a] only *)
      exists (classify_after B k ra). split; [|split; [|split]].
      * apply In_resourceChanges. rewrite <- ?EqA, <- ?EqB. left. now exists k, ra.
      * now rewrite resourceId_classify_after.
      * unfold classify_after, JSMap.has in *. 
        destruct (JSMap.get B k); [discriminate | reflexivity].
      * unfold classify_after, JSMap.has in *. 
        destruct (JSMap.get B k); [discriminate|]. simpl. ring.
Qed.


(** C4 (amended).  [costDifference] is the difference of the totals;
    [percentageChange] is [costDifference / before * 100] when the total of
    [before] is positive, and otherwise 100 when [costDifference] is
    positive and 0 when it is not. *)
Theorem C4_totals_comparison (before after : StackCostEstimate.t) :
  let c := compareEstimates before after in
  CostComparison.costDifference c
    == StackCostEstimate.totalMonthlyCost after - StackCostEstimate.totalMonthlyCost before
  /\ (0 < StackCostEstimate.totalMonthlyCost before ->
      CostComparison.percentageChange c
        == CostComparison.costDifference c / StackCostEstimate.totalMonthlyCost before * 100)
  /\ (StackCostEstimate.totalMonthlyCost before <= 0 ->
      0 < CostComparison.costDifference c ->
      CostComparison.percentageChange c == 100)
  /\ (StackCostEstimate.totalMonthlyCost before <= 0 ->
      CostComparison.costDifference c <= 0 ->
      CostComparison.percentageChange c == 0).
Proof.
  unfold compareEstimates.
  cbn [CostComparison.costDifference CostComparison.percentageChange].
  split; [reflexivity|]. split; [|split].
  - intros H. apply gt_true in H. rewrite H. reflexivity.
  - intros Hb Hd. apply gt_false in Hb. apply gt_true in Hd. rewrite Hb, Hd. reflexivity.
  - intros Hb Hd. apply gt_false in Hb. apply gt_false in Hd. rewrite Hb, Hd. reflexivity.
Qed.

(** C4 as stated fails when the total of [before] is negative: the
    quotient formula gives -150, the code returns 100. *)
Lemma C4_counterexample :
  let before := estimate_of (-10) [] in
  let after := estimate_of 5 [] in
  let c := compareEstimates before after in
  CostComparison.percentageChange c == 100
  /\ CostComparison.costDifference c / StackCostEstimate.totalMonthlyCost before * 100 == -150
  /\ ~ 100 == -150.
Proof. cbv zeta. split; [reflexivity | split; [reflexivity | discriminate]]. Qed.

End DiffClaims.

Module CalculatorFacts.
Import JS TemplateParser PricingData CostCalculator StackSpec NumFacts JSMapFacts.

Ltac split_outcome :=
  repeat match goal with
  | H : bind ?m _ = Returns _ |- _ => destruct m eqn:?; cbn [bind] in H; [ | discriminate H ]
  | H : (if ?b then _ else _) = Returns _ |- _ => destruct b eqn:?
  | H : match ?p with (_, _) => _ end = Returns _ |- _ => destruct p eqn:?
  | H : Returns _ = Returns _ |- _ => injection H as H; subst
  | H : Some _ = Some _ |- _ => injection H as H; subst
  | H : (_, _) = (_, _) |- _ => injection H as ? ?; subst
  | H : Throws _ = Returns _ |- _ => discriminate H
  end.

Ltac unfold_head c H :=
  lazymatch c with
  | ?f _ => unfold f in H
  | _ => unfold c in H
  end.

(** Opens the equation [H : c ... = Returns (Some rc)] of a calculator
    into the record it builds. *)
Ltac open_result c H :=
  unfold_head c H; unfold cost, price, lit, other_pricing in H; split_outcome;
  unfold details_add_up, hourly_is_monthly_share, details_total, HOURS_PER_MONTH;
  cbn.

Section WithRuntime.
Context {rt : Runtime}.




Lemma registrations_identity : Forall calculator_identity registrations.
Proof.
  unfold registrations.
  repeat (constructor;
    [ unfold calculator_identity; cbn [fst snd]; intros id r t p rc H;
      solve [ match type of H with ?c _ _ _ _ = _ => open_result c H end;
              split; reflexivity ]
    | ]).
  constructor.
Qed.

Lemma SSMParameter_sound this id r t rc :
  calculateSSMParameterCost this id r t = Returns (Some rc) ->
  details_add_up rc /\ hourly_is_monthly_share rc /\ ResourceCost.resourceId rc = id.
Proof.
  unfold calculateSSMParameterCost, cost. intros H.
  destruct (is_string (getPropertyValue t r "Tier" (VStr "Standard")) "Advanced");
    [ change (Num.gt 0.05 0) with true in H | change (Num.gt 0 0) with false in H ];
    injection H as <-;
    unfold details_add_up, hourly_is_monthly_share, details_total, HOURS_PER_MONTH; cbn;
    (split; [|split]); try reflexivity; field.
Qed.

Lemma usage_estimators_sound : Forall estimator_sound usage_estimators.
Proof.
  unfold usage_estimators.
  repeat (constructor;
    [ unfold estimator_sound; cbn [fst snd]; intros this id r t rc H;
      first [ solve [ now apply SSMParameter_sound in H ]
            | solve [ match type of H with ?c _ _ _ _ = _ => open_result c H end;
                      (split; [|split]); try reflexivity; field ] ]
    | ]).
  constructor.
Qed.

(** The calculator the registry holds for a type is one of the
    registrations. *)
Lemma calculators_registered this ty calc :
  JSMap.get (calculators this) ty = Some calc -> In (ty, calc) registrations.
Proof. apply get_of_entries_In. Qed.

Lemma estimator_listed ty (est : instance -> string -> value -> value -> outcome (option ResourceCost.t)) :
  JSMap.get usage_estimators ty = Some est -> In (ty, est) usage_estimators.
Proof. apply get_In. Qed.

Lemma calculateUsageBasedResource_sound this id r t rc :
  calculateUsageBasedResource this id r t = Returns (Some rc) ->
  details_add_up rc /\ hourly_is_monthly_share rc /\ ResourceCost.resourceId rc = id.
Proof.
  unfold calculateUsageBasedResource. intros H.
  destruct (get r "Type") as [| | | |ty| |]; try discriminate.
  destruct (JSMap.get usage_estimators ty) as [est|] eqn:E; [|discriminate].
  apply estimator_listed in E.
  pose proof usage_estimators_sound as Hall.
  rewrite List.Forall_forall in Hall.
  exact (Hall _ E this id r t rc H).
Qed.

End WithRuntime.
End CalculatorFacts.

Module LoopFacts.
Import JS TemplateParser PricingData CostCalculator StackSpec JSMapFacts CalculatorFacts.

Lemma extend_start_l st : extend start st = st.
Proof. destruct st; reflexivity. Qed.

Lemma extend_start_r st : extend st start = st.
Proof. destruct st; unfold extend; simpl. now rewrite !app_nil_r. Qed.

Lemma extend_assoc a b c : extend (extend a b) c = extend a (extend b c).
Proof. unfold extend; simpl. now rewrite <- !app_assoc. Qed.

Lemma fold_left_sum {A : Type} (f : A -> Q) (l : list A) (a : Q) :
  fold_left (fun sum r => sum + f r) l a == a + Num.sum (List.map f l).
Proof.
  revert a. induction l as [|x l IH]; intros a; simpl.
  - ring.
  - rewrite IH. ring.
Qed.

(** [extractResources] builds a [Map]: its keys are pairwise distinct. *)
Lemma extractResources_NoDup template entries :
  extractResources template = Returns entries -> List.NoDup (JSMap.keys entries).
Proof.
  unfold extractResources.
  destruct (object_entries (get template "Resources")) as [l|m]; cbn [bind]; [|discriminate].
  intros H. injection H as <-.
  assert (G : forall acc, List.NoDup (JSMap.keys acc) ->
            List.NoDup (JSMap.keys
              (fold_left (fun resources entry =>
                            if is_resource (snd entry)
                            then JSMap.set resources (fst entry) (snd entry)
                            else resources) l acc))).
  { induction l as [|[k v] l IH]; intros acc Hacc; simpl; [exact Hacc|].
    apply IH. destruct (is_resource v); [now apply NoDup_keys_set | exact Hacc]. }
  apply G. constructor.
Qed.

Lemma NoDup_keys_same (entries : list (string * value)) id r r' :
  List.NoDup (JSMap.keys entries) -> In (id, r) entries -> In (id, r') entries -> r = r'.
Proof.
  intros Hnd H1 H2.
  apply (In_get _ _ _ Hnd) in H1. apply (In_get _ _ _ Hnd) in H2. congruence.
Qed.

Lemma NoDup_keys_middle (pre post : list (string * value)) id r :
  List.NoDup (JSMap.keys (pre ++ (id, r) :: post)%list) ->
  ~ In id (JSMap.keys pre) /\ ~ In id (JSMap.keys post).
Proof.
  unfold JSMap.keys. rewrite List.map_app. simpl. intros H.
  apply List.NoDup_remove_2 in H. rewrite in_app_iff in H. tauto.
Qed.

Section WithRuntime.
Context {rt : Runtime}.
Variables (this : instance) (template : value).

(** An iteration pushes onto the state it is given what it pushes onto
    the empty one. *)
Lemma visit_extend st id r :
  visit this template st id r =
  (let* d := visit this template start id r in Returns (extend st d))%outcome.
Proof.
  unfold visit.
  destruct (get r "Type") as [| | | |ty| |]; try reflexivity.
  destruct (isFreeResource ty).
  { cbn [bind]. now rewrite extend_start_r. }
  destruct (JSMap.get (calculators this) ty) as [calc|].
  { destruct (calc id r template (pricing this)) as [[c|]|m]; cbn [bind];
      destruct st; unfold extend, push_result, push_cost, push_unsupported, invoked, start;
      simpl; now rewrite ?app_nil_r. }
  destruct (has USAGE_BASED_RESOURCES ty).
  { destruct (calculateUsageBasedResource this id r template) as [[c|]|m]; cbn [bind];
      try reflexivity;
      destruct st; unfold extend, push_result, push_cost, start; simpl;
      now rewrite ?app_nil_r. }
  cbn [bind]. destruct st; unfold extend, push_unsupported, start; simpl.
  now rewrite ?app_nil_r.
Qed.

Lemma visit_all_extend entries : forall st,
  visit_all this template st entries =
  (let* d := visit_all this template start entries in Returns (extend st d))%outcome.
Proof.
  induction entries as [|[id r] rest IH]; intros st; cbn [visit_all].
  - cbn [bind]. now rewrite extend_start_r.
  - rewrite (visit_extend st).
    destruct (visit this template start id r) as [d|m]; cbn [bind]; [|reflexivity].
    rewrite (IH (extend st d)), (IH d).
    destruct (visit_all this template start rest) as [d'|m]; cbn [bind]; [|reflexivity].
    now rewrite extend_assoc.
Qed.

Lemma visit_all_app xs : forall st ys,
  visit_all this template st (xs ++ ys)%list =
  (let* st' := visit_all this template st xs in visit_all this template st' ys)%outcome.
Proof.
  induction xs as [|[id r] xs IH]; intros st ys; cbn [visit_all app]; [reflexivity|].
  destruct (visit this template st id r) as [st'|m]; cbn [bind]; [apply IH|reflexivity].
Qed.

(** The loop over a list, seen from one of its entries. *)
Lemma visit_all_middle pre id r post :
  visit_all this template start (pre ++ (id, r) :: post)%list =
  (let* a := visit_all this template start pre in
   let* d := visit this template start id r in
   let* b := visit_all this template start post in
   Returns (extend a (extend d b)))%outcome.
Proof.
  rewrite visit_all_app.
  destruct (visit_all this template start pre) as [a|m]; cbn [bind visit_all]; [|reflexivity].
  rewrite (visit_extend a).
  destruct (visit this template start id r) as [d|m]; cbn [bind]; [|reflexivity].
  rewrite visit_all_extend.
  destruct (visit_all this template start post) as [b|m]; cbn [bind]; [|reflexivity].
  now rewrite extend_assoc.
Qed.

(** Whatever the loop pushed was pushed by the iteration of one entry. *)
Lemma visit_all_trace entries : forall d,
  visit_all this template start entries = Returns d ->
  (forall rc, In rc (resources d) ->
     exists id r di, In (id, r) entries
       /\ visit this template start id r = Returns di /\ In rc (resources di))
  /\ (forall u, In u (unsupportedResources d) ->
     exists id r di, In (id, r) entries
       /\ visit this template start id r = Returns di /\ In u (unsupportedResources di))
  /\ (forall x, In x (invocations d) ->
     exists id r di, In (id, r) entries
       /\ visit this template start id r = Returns di /\ In x (invocations di)).
Proof.
  induction entries as [|[id r] rest IH]; intros d H; cbn [visit_all] in H.
  - injection H as <-. simpl. repeat split; intros ? [].
  - destruct (visit this template start id r) as [di|m] eqn:Ev; cbn [bind] in H; [|discriminate].
    rewrite visit_all_extend in H.
    destruct (visit_all this template start rest) as [d'|m] eqn:Er; cbn [bind] in H;
      [|discriminate].
    injection H as <-. destruct (IH d' eq_refl) as (IH1 & IH2 & IH3).
    unfold extend; cbn [resources unsupportedResources invocations].
    repeat split; intros x Hx; apply in_app_iff in Hx; destruct Hx as [Hx|Hx];
      try (exists id, r, di; split; [now left | split; [exact Ev | exact Hx]]).
    + destruct (IH1 x Hx) as (id' & r' & di' & Hin & Hv & Hrc).
      exists id', r', di'. split; [now right | now split].
    + destruct (IH2 x Hx) as (id' & r' & di' & Hin & Hv & Hrc).
      exists id', r', di'. split; [now right | now split].
    + destruct (IH3 x Hx) as (id' & r' & di' & Hin & Hv & Hrc).
      exists id', r', di'. split; [now right | now split].
Qed.

(** *** One iteration *)

Lemma visit_free st id r ty :
  get r "Type" = VStr ty -> isFreeResource ty = true ->
  visit this template st id r = Returns st.
Proof. intros Hty Hfree. unfold visit. rewrite Hty, Hfree. reflexivity. Qed.

Lemma visit_throw st id r ty calc message :
  get r "Type" = VStr ty -> isFreeResource ty = false ->
  JSMap.get (calculators this) ty = Some calc ->
  calc id r template (pricing this) = Throws message ->
  visit this template st id r =
  Returns (push_unsupported (invoked st id) (calculation_error id ty message)).
Proof.
  intros Hty Hfree Hcalc Hthrow. unfold visit.
  rewrite Hty, Hfree, Hcalc, Hthrow. reflexivity.
Qed.

Lemma visit_usage_dispatch st id r ty :
  get r "Type" = VStr ty -> reaches_usage_dispatch this ty ->
  visit this template st id r =
  (let* c := calculateUsageBasedResource this id r template in
   Returns (push_result st c))%outcome.
Proof.
  intros Hty (Hfree & Hcalc & Husage). unfold visit.
  rewrite Hty, Hfree, Hcalc, Husage. reflexivity.
Qed.

Ltac absurd_throw H :=
  lazymatch type of H with Throws _ = Returns _ => discriminate H end.

Ltac open_visit H ty Hty Hfree :=
  unfold visit in H;
  destruct (get _ "Type") as [| | | |ty| |] eqn:Hty; try absurd_throw H;
  destruct (isFreeResource ty) eqn:Hfree.

Ltac pushed :=
  simpl; repeat split; intros x Hx;
  try solve [destruct Hx];
  try (destruct Hx as [<-|[]]); try reflexivity.

(** An iteration pushes records that carry its logical id. *)
Lemma visit_identity id r d :
  visit this template start id r = Returns d ->
  (forall rc, In rc (resources d) -> ResourceCost.resourceId rc = id)
  /\ (forall u, In u (unsupportedResources d) -> UnsupportedResource.resourceId u = id)
  /\ (forall x, In x (invocations d) -> x = id).
Proof.
  intros H. open_visit H ty Hty Hfree.
  { injection H as <-. pushed. }
  destruct (JSMap.get (calculators this) ty) as [calc|] eqn:Hcalc.
  { destruct (calc id r template (pricing this)) as [[c|]|m] eqn:Hc;
      injection H as <-; pushed.
    apply calculators_registered in Hcalc.
    pose proof registrations_identity as Hall. rewrite List.Forall_forall in Hall.
    exact (proj1 (Hall _ Hcalc id r template (pricing this) _ Hc)). }
  clear Hcalc.
  destruct (has USAGE_BASED_RESOURCES ty).
  { destruct (calculateUsageBasedResource this id r template) as [[c|]|m] eqn:Hc;
      cbn [bind] in H; try absurd_throw H; injection H as <-; pushed.
    apply calculateUsageBasedResource_sound in Hc. exact (proj2 (proj2 Hc)). }
  injection H as <-; pushed.
Qed.

(** An iteration that records the resource as unsupported prices
    nothing. *)
Lemma visit_exclusive id r d rc u :
  visit this template start id r = Returns d ->
  In rc (resources d) -> In u (unsupportedResources d) -> False.
Proof.
  intros H. open_visit H ty Hty Hfree.
  { injection H as <-. simpl. tauto. }
  destruct (JSMap.get (calculators this) ty) as [calc|].
  { destruct (calc id r template (pricing this)) as [[c|]|m];
      injection H as <-; simpl; tauto. }
  destruct (has USAGE_BASED_RESOURCES ty).
  { destruct (calculateUsageBasedResource this id r template) as [[c|]|m];
      cbn [bind] in H; try absurd_throw H; injection H as <-; simpl; tauto. }
  injection H as <-; simpl; tauto.
Qed.



(** *** The whole function *)

Lemma calculateStackCost_returns now stackName source est :
  calculateStackCost this now stackName template source = Returns est ->
  exists entries st,
    extractResources template = Returns entries
    /\ visit_all this template start entries = Returns st
    /\ StackCostEstimate.resources est = resources st
    /\ StackCostEstimate.unsupportedResources est = unsupportedResources st
    /\ totals_are_sums est.
Proof.
  unfold calculateStackCost. intros H.
  destruct (extractResources template) as [entries|m]; cbn [bind] in H; [|discriminate].
  fold start in H.
  destruct (visit_all this template start entries) as [st|m] eqn:Hv; cbn [bind] in H;
    [|discriminate].
  injection H as <-. exists entries, st.
  split; [reflexivity|]. split; [exact Hv|]. do 2 (split; [reflexivity|]).
  unfold totals_are_sums.
  cbn [StackCostEstimate.totalMonthlyCost StackCostEstimate.totalHourlyCost
       StackCostEstimate.resources].
  split; rewrite fold_left_sum; ring.
Qed.

Lemma calculateStackCost_completes now stackName source entries st :
  extractResources template = Returns entries ->
  visit_all this template start entries = Returns st ->
  exists est,
    calculateStackCost this now stackName template source = Returns est
    /\ StackCostEstimate.resources est = resources st
    /\ StackCostEstimate.unsupportedResources est = unsupportedResources st.
Proof.
  intros He Hv. unfold calculateStackCost. rewrite He. cbn [bind]. fold start.
  rewrite Hv. cbn [bind]. eexists. split; [reflexivity|]. split; reflexivity.
Qed.

Lemma calculateStackCost_throws now stackName source entries message :
  extractResources template = Returns entries ->
  calculateStackCost this now stackName template source = Throws message ->
  visit_all this template start entries = Throws message.
Proof.
  intros He. unfold calculateStackCost. rewrite He. cbn [bind]. fold start.
  destruct (visit_all this template start entries); cbn [bind]; intros H;
    [discriminate H | injection H as <-; reflexivity].
Qed.

Lemma no_charge_contributes_nothing est id :
  (forall rc, In rc (StackCostEstimate.resources est) -> ResourceCost.resourceId rc <> id) ->
  contributes_nothing est id.
Proof.
  intros H. unfold contributes_nothing, monthly_contribution, hourly_contribution.
  assert (E : List.filter (charged_to id) (StackCostEstimate.resources est) = []).
  { induction (StackCostEstimate.resources est) as [|rc l IH]; simpl; [reflexivity|].
    unfold charged_to at 1. destruct (String.eqb_spec (ResourceCost.resourceId rc) id) as [e|_].
    - exfalso. apply (H rc); [now left | exact e].
    - apply IH. intros rc' Hin. apply H. now right. }
  rewrite E. simpl. repeat split; try reflexivity. exact H.
Qed.

End WithRuntime.
End LoopFacts.

Module StackFacts.
Import JS TemplateParser PricingData CostCalculator StackSpec JSMapFacts CalculatorFacts LoopFacts.

Section WithRuntime.
Context {rt : Runtime}.
Variables (this : instance) (template : value).

(** What the loop pushed carries the logical id of one of its entries. *)
Lemma visit_all_ids entries d :
  visit_all this template start entries = Returns d ->
  (forall rc, In rc (resources d) -> In (ResourceCost.resourceId rc) (JSMap.keys entries))
  /\ (forall u, In u (unsupportedResources d) ->
        In (UnsupportedResource.resourceId u) (JSMap.keys entries))
  /\ (forall x, In x (invocations d) -> In x (JSMap.keys entries)).
Proof.
  intros H. destruct (visit_all_trace this template entries d H) as (T1 & T2 & T3).
  unfold JSMap.keys.
  repeat split; intros x Hx.
  - destruct (T1 x Hx) as (id & r & di & Hin & Hv & Hx').
    destruct (visit_identity this template id r di Hv) as (I & _ & _).
    rewrite (I x Hx'). apply (in_map fst _ _ Hin).
  - destruct (T2 x Hx) as (id & r & di & Hin & Hv & Hx').
    destruct (visit_identity this template id r di Hv) as (_ & I & _).
    rewrite (I x Hx'). apply (in_map fst _ _ Hin).
  - destruct (T3 x Hx) as (id & r & di & Hin & Hv & Hx').
    destruct (visit_identity this template id r di Hv) as (_ & _ & I).
    rewrite (I x Hx'). apply (in_map fst _ _ Hin).
Qed.

(** A record of the estimate that carries the id of an entry was pushed
    by the iteration of that entry. *)
Lemma pushed_by_own_iteration entries d id r :
  List.NoDup (JSMap.keys entries) ->
  In (id, r) entries ->
  visit_all this template start entries = Returns d ->
  exists di,
    visit this template start id r = Returns di
    /\ (forall rc, In rc (resources d) -> ResourceCost.resourceId rc = id ->
          In rc (resources di))
    /\ (forall u, In u (unsupportedResources d) -> UnsupportedResource.resourceId u = id ->
          In u (unsupportedResources di)).
Proof.
  intros Hnd Hin H.
  apply in_split in Hin. destruct Hin as (pre & post & ->).
  destruct (NoDup_keys_middle pre post id r Hnd) as (Hpre & Hpost).
  rewrite visit_all_middle in H.
  destruct (visit_all this template start pre) as [a|m] eqn:Ea; cbn [bind] in H;
    [|discriminate H].
  destruct (visit this template start id r) as [di|m] eqn:Ev; cbn [bind] in H;
    [|discriminate H].
  destruct (visit_all this template start post) as [b|m] eqn:Eb; cbn [bind] in H;
    [|discriminate H].
  injection H as <-. exists di. split; [reflexivity|].
  destruct (visit_all_ids pre a Ea) as (A1 & A2 & _).
  destruct (visit_all_ids post b Eb) as (B1 & B2 & _).
  unfold extend; cbn [resources unsupportedResources].
  split; intros x Hx Hid; rewrite !in_app_iff in Hx; destruct Hx as [Hx|[Hx|Hx]];
    try exact Hx; exfalso.
  - apply Hpre. rewrite <- Hid. now apply A1.
  - apply Hpost. rewrite <- Hid. now apply B1.
  - apply Hpre. rewrite <- Hid. now apply A2.
  - apply Hpost. rewrite <- Hid. now apply B2.
Qed.

End WithRuntime.
End StackFacts.

Module StackClaims.
Import JS TemplateParser PricingData CostCalculator StackSpec Samples.
Import JSMapFacts CalculatorFacts LoopFacts StackFacts.

(** C1 (divergence).  [hourlyCost == monthlyCost / HOURS_PER_MONTH] does
    not hold for a NAT gateway nor for a transit-gateway attachment.
    For the stack of one of each, at the default prices, the NAT gateway
    has a monthly cost of 37.35 (730 hours at 0.045 and 100 GB at 0.045)
    and an hourly cost of 0.045; the attachment has a monthly cost of
    38.5 (730 hours at 0.05 and 100 GB at 0.02) and an hourly cost of
    0.05.  Either hourly cost is the hourly price alone, without the
    share of the data-processing charge, and the totals inherit the
    gap: 0.095 per hour against 75.85 per month. *)
Theorem C1_hourly_cost_omits_data_processing
    (rt : Runtime) (now stackName : string) (source : TemplateSource) :
  exists est gateway attachment,
    calculateStackCost sample_calculator now stackName gateway_stack source = Returns est
    /\ StackCostEstimate.resources est = [gateway; attachment]
    /\ (ResourceCost.resourceType gateway = "AWS::EC2::NatGateway"
        /\ ResourceCost.monthlyCost gateway == 37.35
        /\ ResourceCost.hourlyCost gateway == 0.045
        /\ ~ hourly_is_monthly_share gateway)
    /\ (ResourceCost.resourceType attachment = "AWS::EC2::TransitGatewayAttachment"
        /\ ResourceCost.monthlyCost attachment == 38.5
        /\ ResourceCost.hourlyCost attachment == 0.05
        /\ ~ hourly_is_monthly_share attachment)
    /\ StackCostEstimate.totalMonthlyCost est == 75.85
    /\ StackCostEstimate.totalHourlyCost est == 0.095.
Proof.
  eexists. eexists. eexists. split; [vm_compute; reflexivity|].
  split; [reflexivity|].
  split; [|split]; [| |split; vm_compute; reflexivity].
  - split; [reflexivity|]. split; [vm_compute; reflexivity|].
    split; [vm_compute; reflexivity|].
    unfold hourly_is_monthly_share. vm_compute. intros H. discriminate H.
  - split; [reflexivity|]. split; [vm_compute; reflexivity|].
    split; [vm_compute; reflexivity|].
    unfold hourly_is_monthly_share. vm_compute. intros H. discriminate H.
Qed.






(** C8.  When the calculator registered for the type of a resource
    throws, the iteration of [calculateStackCost] for that resource
    returns: it has invoked the calculator once and pushed the
    [UnsupportedResource] whose reason is [Calculation error: ] followed
    by the message, and nothing else.  If the loop over the resources
    before it and the loop over the resources after it return,
    [calculateStackCost] returns the estimate made of what these two
    loops priced, with that one record between what they recorded as
    unsupported; the resource contributes nothing to the totals and its
    calculator has been invoked exactly once.  An exception that leaves
    [calculateStackCost] is one that the loop over the other resources
    throws. *)
Theorem C8_calculator_exception_is_recovered {rt : Runtime}
    (this : instance) (now stackName : string) (template : value) (source : TemplateSource)
    (pre post : list (string * value)) (id : string) (r : value)
    (ty : string) (calc : ResourceCostCalculator) (message : string) :
  extractResources template = Returns (pre ++ (id, r) :: post)%list ->
  get r "Type" = VStr ty ->
  isFreeResource ty = false ->
  JSMap.get (calculators this) ty = Some calc ->
  calc id r template (pricing this) = Throws message ->
  (forall st,
     visit this template st id r =
     Returns (push_unsupported (invoked st id) (calculation_error id ty message)))
  /\ (forall a b,
        visit_all this template start pre = Returns a ->
        visit_all this template start post = Returns b ->
        exists st est,
          visit_all this template start (pre ++ (id, r) :: post)%list = Returns st
          /\ count_occ string_dec (invocations st) id = 1%nat
          /\ calculateStackCost this now stackName template source = Returns est
          /\ StackCostEstimate.resources est = (resources a ++ resources b)%list
          /\ StackCostEstimate.unsupportedResources est =
               (unsupportedResources a
                  ++ calculation_error id ty message :: unsupportedResources b)%list
          /\ contributes_nothing est id)
  /\ (forall thrown,
        calculateStackCost this now stackName template source = Throws thrown ->
        visit_all this template start pre = Throws thrown
        \/ ((exists a, visit_all this template start pre = Returns a)
            /\ visit_all this template start post = Throws thrown)).
Proof.
  intros He Hty Hfree Hcalc Hthrow.
  pose proof (visit_throw this template) as Hvisit.
  specialize (fun st => Hvisit st id r ty calc message Hty Hfree Hcalc Hthrow).
  clear Hcalc.
  pose proof (extractResources_NoDup template _ He) as Hnd.
  destruct (NoDup_keys_middle pre post id r Hnd) as (Hpre & Hpost).
  split; [exact Hvisit|]. split.
  - intros a b Ha Hb.
    pose proof (visit_all_middle this template pre id r post) as Hall.
    rewrite Ha, Hvisit, Hb in Hall. cbn [bind] in Hall.
    destruct (calculateStackCost_completes this template now stackName source _ _ He Hall)
      as (est & Hest & Hres & Hun).
    destruct (visit_all_ids this template pre a Ha) as (A1 & _ & A3).
    destruct (visit_all_ids this template post b Hb) as (B1 & _ & B3).
    eexists. exists est. split; [exact Hall|].
    split; [|split; [exact Hest|split; [exact Hres|split; [exact Hun|]]]].
    + unfold extend, push_unsupported, invoked, start;
        cbn [resources unsupportedResources invocations app].
      rewrite count_occ_app. cbn [count_occ].
      destruct (string_dec id id) as [_|Hne]; [|now elim Hne].
      rewrite (proj1 (count_occ_not_In string_dec (invocations a) id)),
              (proj1 (count_occ_not_In string_dec (invocations b) id)); [reflexivity| |].
      * intros Hin. apply Hpost. now apply B3.
      * intros Hin. apply Hpre. now apply A3.
    + apply no_charge_contributes_nothing. intros rc Hrc Hid.
      rewrite Hres in Hrc.
      unfold extend, push_unsupported, invoked, start in Hrc;
        cbn [resources unsupportedResources invocations app] in Hrc.
      rewrite in_app_iff in Hrc. destruct Hrc as [Hrc|Hrc].
      * apply Hpre. rewrite <- Hid. now apply A1.
      * apply Hpost. rewrite <- Hid. now apply B1.
  - intros thrown Hest.
    apply (calculateStackCost_throws this template now stackName source _ _ He) in Hest.
    rewrite visit_all_middle, Hvisit in Hest.
    destruct (visit_all this template start pre) as [a|m]; cbn [bind] in Hest.
    + right. split; [now exists a|].
      destruct (visit_all this template start post) as [b|m]; cbn [bind] in Hest;
        [discriminate Hest | exact Hest].
    + left. exact Hest.
Qed.

Lemma C8_witness :
  (forall st,
     visit (rt := reference_runtime) sample_calculator mixed_stack st (fst disk) (snd disk) =
     Returns (push_unsupported (invoked st "Disk")
                (calculation_error "Disk" "AWS::EC2::Volume"
                   "Cannot read properties of undefined (reading 'volumes')")))
  /\ (exists est,
        calculateStackCost (rt := reference_runtime) sample_calculator
          timestamp "stack" mixed_stack local = Returns est
        /\ In (calculation_error "Disk" "AWS::EC2::Volume"
                 "Cannot read properties of undefined (reading 'volumes')")
              (StackCostEstimate.unsupportedResources est)
        /\ contributes_nothing est "Disk").
Proof.
  assert (P1 : extractResources mixed_stack
               = Returns ([role; topic; web_acl] ++ disk :: [nat_gateway; thing])%list)
    by (vm_compute; reflexivity).
  assert (P3 : isFreeResource "AWS::EC2::Volume" = false) by (vm_compute; reflexivity).
  assert (P4 : JSMap.get (calculators (rt := reference_runtime) sample_calculator)
                 "AWS::EC2::Volume"
               = Some (calc_EC2_Volume (rt := reference_runtime))).
  { cbv [calculators initializeCalculators registrations JSMap.of_entries JSMap.set
         JSMap.get fold_left fst snd String.eqb Ascii.eqb Bool.eqb].
    reflexivity. }
  assert (P5 : calc_EC2_Volume (rt := reference_runtime) (fst disk) (snd disk) mixed_stack
                 (pricing sample_calculator)
               = Throws "Cannot read properties of undefined (reading 'volumes')")
    by (vm_compute; reflexivity).
  destruct (C8_calculator_exception_is_recovered (rt := reference_runtime)
              sample_calculator timestamp "stack" mixed_stack local
              [role; topic; web_acl] [nat_gateway; thing] (fst disk) (snd disk)
              "AWS::EC2::Volume" (calc_EC2_Volume (rt := reference_runtime))
              "Cannot read properties of undefined (reading 'volumes')"
              P1 eq_refl P3 P4 P5) as (H1 & H2 & _).
  split; [exact H1|].
  edestruct H2 as (st & est & _ & _ & Hest & _ & Hun & Hzero);
    [vm_compute; reflexivity | vm_compute; reflexivity | ].
  exists est. split; [exact Hest|]. split; [|exact Hzero].
  rewrite Hun. apply in_or_app. right. left. reflexivity.
Defined.

(** C10.  A resource whose type is [AWS::SNS::Topic],
    [AWS::Logs::LogGroup] or [AWS::SSM::Parameter] passes the
    free-resource check, so its iteration leaves the state of the loop as
    it found it, and the loop is the loop over the other resources: the
    estimate has no [ResourceCost] and no [UnsupportedResource] for it,
    and it contributes nothing to the totals.  [calculateUsageBasedResource]
    has an estimator for the type, but the guards under which
    [calculateStackCost] calls it never hold for the type. *)
Theorem C10_free_check_shadows_usage_estimators {rt : Runtime}
    (this : instance) (now stackName : string) (template : value) (source : TemplateSource)
    (pre post : list (string * value)) (id : string) (r : value) (ty : string) :
  extractResources template = Returns (pre ++ (id, r) :: post)%list ->
  get r "Type" = VStr ty ->
  In ty free_usage_types ->
  isFreeResource ty = true
  /\ (forall st, visit this template st id r = Returns st)
  /\ (forall st,
        visit_all this template st (pre ++ (id, r) :: post)%list =
        visit_all this template st (pre ++ post)%list)
  /\ (forall est,
        calculateStackCost this now stackName template source = Returns est ->
        (forall rc, In rc (StackCostEstimate.resources est) ->
           ResourceCost.resourceId rc <> id)
        /\ (forall u, In u (StackCostEstimate.unsupportedResources est) ->
              UnsupportedResource.resourceId u <> id)
        /\ contributes_nothing est id)
  /\ JSMap.has usage_estimators ty = true
  /\ ~ reaches_usage_dispatch this ty.
Proof.
  intros He Hty Hin.
  assert (Hfree : isFreeResource ty = true /\ JSMap.has usage_estimators ty = true).
  { unfold free_usage_types in Hin. simpl in Hin.
    destruct Hin as [<-|[<-|[<-|[]]]]; split; vm_compute; reflexivity. }
  destruct Hfree as (Hfree & Hest).
  pose proof (fun st => visit_free this template st id r ty Hty Hfree) as Hvisit.
  split; [exact Hfree|]. split; [exact Hvisit|]. split; [|split; [|split; [exact Hest|]]].
  - intros st. rewrite !visit_all_app.
    destruct (visit_all this template st pre) as [a|m]; cbn [bind visit_all]; [|reflexivity].
    rewrite Hvisit. reflexivity.
  - intros est H.
    destruct (calculateStackCost_returns this template now stackName source est H)
      as (entries & st & He' & Hv & Hres & Hun & _).
    rewrite He in He'. injection He' as <-.
    pose proof (extractResources_NoDup template _ He) as Hnd.
    assert (Hmem : In (id, r) (pre ++ (id, r) :: post)%list).
    { apply in_or_app. right. now left. }
    destruct (pushed_by_own_iteration this template _ st id r Hnd Hmem Hv)
      as (di & Hvis & P1 & P2).
    rewrite Hvisit in Hvis. injection Hvis as <-.
    assert (Hrc : forall rc, In rc (StackCostEstimate.resources est) ->
                   ResourceCost.resourceId rc <> id).
    { intros rc Hrc Hid. rewrite Hres in Hrc. exact (P1 rc Hrc Hid). }
    split; [exact Hrc|]. split.
    + intros u Hu Hid. rewrite Hun in Hu. exact (P2 u Hu Hid).
    + now apply no_charge_contributes_nothing.
  - intros (Hpaid & _). rewrite Hfree in Hpaid. discriminate Hpaid.
Qed.

Lemma C10_witness :
  isFreeResource "AWS::SNS::Topic" = true
  /\ (forall st,
        visit (rt := reference_runtime) sample_calculator mixed_stack st (fst topic) (snd topic)
        = Returns st)
  /\ ~ reaches_usage_dispatch (rt := reference_runtime) sample_calculator "AWS::SNS::Topic".
Proof.
  assert (P1 : extractResources mixed_stack
               = Returns ([role] ++ topic :: [web_acl; disk; nat_gateway; thing])%list)
    by (vm_compute; reflexivity).
  assert (P3 : In "AWS::SNS::Topic" free_usage_types) by (left; reflexivity).
  destruct (C10_free_check_shadows_usage_estimators (rt := reference_runtime)
              sample_calculator timestamp "stack" mixed_stack local
              [role] [web_acl; disk; nat_gateway; thing] (fst topic) (snd topic)
              "AWS::SNS::Topic" P1 eq_refl P3) as (H1 & H2 & _ & _ & _ & H6).
  split; [exact H1|]. split; [exact H2 | exact H6].
Defined.

End StackClaims.

Module RegionalPricingFacts.
Import RegionalPricing JSMapFacts.
Local Open Scope nat_scope.

(** Induction over documents, with the members of an object. *)
Lemma json_ind (P : json -> Prop) :
  P JNull -> (forall b, P (JBool b)) -> (forall q, P (JNum q)) -> (forall s, P (JStr s)) ->
  (forall members, List.Forall (fun member => P (snd member)) members -> P (JObj members)) ->
  forall j, P j.
Proof.
  intros HNull HBool HNum HStr HObj.
  fix IH 1. intros [| b | q | s | members].
  - exact HNull.
  - apply HBool.
  - apply HNum.
  - apply HStr.
  - apply HObj. induction members as [|member members IHm]; constructor.
    + apply IH.
    + exact IHm.
Qed.

(** *** Keys *)

Lemma existsb_eqb_In (key : string) (keys : list string) :
  existsb (String.eqb key) keys = true <-> In key keys.
Proof.
  rewrite existsb_exists. split.
  - intros (x & Hin & E). apply String.eqb_eq in E. now subst.
  - intros Hin. exists key. split; [exact Hin | apply String.eqb_refl].
Qed.

Lemma distinct_NoDup (keys : list string) : distinct keys = true -> List.NoDup keys.
Proof.
  induction keys as [|key keys IH]; simpl; intros H; constructor.
  - apply andb_prop in H. destruct H as (H & _). intros Hin.
    apply existsb_eqb_In in Hin. rewrite Hin in H. discriminate H.
  - apply IH. apply andb_prop in H. tauto.
Qed.

Lemma get_middle (done rest : object) (key : string) (s : slot) :
  ~ In key (JSMap.keys done) ->
  JSMap.get (done ++ (key, s) :: rest)%list key = Some s.
Proof.
  unfold JSMap.keys. induction done as [|[k x] done IH]; simpl; intros Hout.
  - now rewrite String.eqb_refl.
  - destruct (String.eqb_spec k key) as [->|_]; [tauto|]. apply IH. tauto.
Qed.

Lemma set_middle (done rest : object) (key : string) (s s' : slot) :
  ~ In key (JSMap.keys done) ->
  JSMap.set (done ++ (key, s) :: rest)%list key s' = (done ++ (key, s') :: rest)%list.
Proof.
  unfold JSMap.keys. induction done as [|[k x] done IH]; simpl; intros Hout.
  - now rewrite String.eqb_refl.
  - destruct (String.eqb_spec k key) as [->|_]; [tauto|]. f_equal. apply IH. tauto.
Qed.

(** *** Trees of objects *)

Lemma members_at_keys (P : json -> slot -> nat -> nat -> Prop) members : forall o lo hi,
  members_at P members o lo hi -> JSMap.keys o = List.map fst members.
Proof.
  unfold JSMap.keys.
  induction members as [|[key j] members IH]; intros [|[key' s] o] lo hi H; simpl in H;
    try contradiction; [reflexivity|].
  destruct H as (<- & mid & _ & H). simpl. f_equal. exact (IH _ _ _ H).
Qed.

(** A tree has as many locations as objects, at least its depth. *)
Lemma tree_at_bounds h j : forall s lo hi,
  tree_at h j s lo hi -> lo + depth j <= hi.
Proof.
  induction j as [|b|q|str|members IH] using json_ind; intros s lo hi H; simpl in H;
    try (destruct H as (_ & ->); simpl; lia).
  destruct H as (l & o & _ & -> & _ & H).
  assert (G : forall o lo,
             members_at (tree_at h) members o lo l ->
             lo + fold_right (fun member d => Nat.max (depth (snd member)) d) O members <= l).
  { clear H o lo. induction IH as [|[key j] members Hj _ IHm]; intros [|[key' s'] o] lo H;
      simpl in H; try contradiction; simpl.
    - lia.
    - destruct H as (_ & mid & Hs & H). apply Hj in Hs. apply IHm in H. simpl in Hs. lia. }
  apply G in H. simpl. lia.
Qed.

Lemma members_at_bounds h members : forall o lo hi,
  members_at (tree_at h) members o lo hi -> lo <= hi.
Proof.
  induction members as [|[key j] members IH]; intros [|[key' s] o] lo hi H; simpl in H;
    try contradiction; [lia|].
  destruct H as (_ & mid & Hs & H). apply tree_at_bounds in Hs. apply IH in H. lia.
Qed.

(** A tree depends on the heap at its own locations only. *)
Lemma tree_at_frame h h' j : forall s lo hi,
  (forall x, lo <= x < hi -> h' !! x = h !! x) ->
  tree_at h j s lo hi -> tree_at h' j s lo hi.
Proof.
  induction j as [|b|q|str|members IH] using json_ind; intros s lo hi Hsame H; simpl in *;
    try exact H.
  destruct H as (l & o & -> & -> & Hl & H).
  pose proof (members_at_bounds h members o lo l H) as Hlo.
  exists l, o. split; [reflexivity|]. split; [reflexivity|].
  split; [rewrite Hsame; [exact Hl | lia]|].
  assert (Hsame' : forall x, lo <= x < l -> h' !! x = h !! x).
  { intros x Hx. apply Hsame. lia. }
  clear Hsame Hl. revert o lo Hlo Hsame' H.
  induction IH as [|[key j] members Hj _ IHm]; intros [|[key' s'] o] lo Hlo Hsame H;
    simpl in *; try contradiction; [exact H|].
  destruct H as (E & mid & Hs & H). split; [exact E|]. exists mid.
  pose proof (tree_at_bounds h j s' lo mid Hs) as B1.
  pose proof (members_at_bounds h members o mid l H) as B2.
  split.
  - apply (Hj s' lo mid); [|exact Hs]. intros x Hx. apply Hsame. lia.
  - apply IHm; [exact B2| |exact H]. intros x Hx. apply Hsame. lia.
Qed.

Lemma members_at_frame h h' members o lo hi :
  (forall x, lo <= x < hi -> h' !! x = h !! x) ->
  members_at (tree_at h) members o lo hi -> members_at (tree_at h') members o lo hi.
Proof.
  revert o lo. induction members as [|[key j] members IH]; intros [|[key' s] o] lo Hsame H;
    simpl in *; try contradiction; [exact H|].
  destruct H as (E & mid & Hs & H). split; [exact E|]. exists mid.
  pose proof (tree_at_bounds h j s lo mid Hs) as B1.
  pose proof (members_at_bounds h members o mid hi H) as B2.
  split.
  - apply (tree_at_frame h h'); [|exact Hs]. intros x Hx. apply Hsame. lia.
  - apply IH; [|exact H]. intros x Hx. apply Hsame. lia.
Qed.

(** *** [JSON.parse] *)

Lemma parse_tree j : forall h s h',
  parse j h = (s, h') ->
  (exists new, h' = (h ++ new)%list) /\ tree_at h' j s (List.length h) (List.length h').
Proof.
  induction j as [|b|q|str|members IH] using json_ind; intros h s h' H; simpl in H;
    try (injection H as <- <-; split; [exists []; now rewrite app_nil_r | now split]).
  destruct (parse_members parse members h) as [o h1] eqn:Em.
  unfold alloc in H. injection H as <- <-.
  assert (G : (exists new, h1 = (h ++ new)%list)
              /\ members_at (tree_at h1) members o (List.length h) (List.length h1)).
  { clear -IH Em. revert h o h1 Em.
    induction IH as [|[key j] members Hj _ IHm]; intros h o h1 Em; simpl in Em.
    - injection Em as <- <-. split; [exists []; now rewrite app_nil_r | reflexivity].
    - destruct (parse j h) as [s ha] eqn:Ej.
      destruct (parse_members parse members ha) as [o' hb] eqn:Em'.
      injection Em as <- <-.
      destruct (Hj _ _ _ Ej) as ((na & ->) & Hs).
      destruct (IHm _ _ _ Em') as ((nb & ->) & Ho).
      split; [exists (na ++ nb)%list; now rewrite app_assoc|].
      simpl. split; [reflexivity|]. exists (List.length (h ++ na)%list).
      split; [|exact Ho].
      apply (tree_at_frame (h ++ na)%list); [|exact Hs].
      intros x Hx. apply lookup_app_l. lia. }
  destruct G as ((new & ->) & Ho).
  split; [exists (new ++ [o])%list; now rewrite app_assoc|].
  simpl. exists (List.length (h ++ new)%list), o.
  split; [reflexivity|]. split; [now rewrite last_length|].
  split; [now apply list_lookup_middle|].
  apply (members_at_frame (h ++ new)%list); [|exact Ho].
  intros x Hx. apply lookup_app_l. lia.
Qed.

(** *** [JSON.stringify] *)

Lemma stringify_tree h j : forall fuel s lo hi,
  tree_at h j s lo hi -> depth j <= fuel -> stringify fuel h s = Some j.
Proof.
  induction j as [|b|q|str|members IH] using json_ind; intros fuel s lo hi H Hfuel; simpl in H;
    try (destruct H as (-> & _); destruct fuel; reflexivity).
  destruct H as (l & o & -> & -> & Hl & H).
  simpl in Hfuel. destruct fuel as [|fuel]; [lia|]. simpl. rewrite Hl.
  assert (G : stringify_members (stringify fuel h) o = Some members).
  { apply le_S_n in Hfuel. clear Hl. revert o lo H Hfuel.
    induction IH as [|[key j] members Hj _ IHm]; intros [|[key' s'] o] lo H Hfuel;
      simpl in H; try contradiction; [reflexivity|].
    destruct H as (<- & mid & Hs & H). simpl in Hfuel. simpl.
    rewrite (Hj fuel s' lo mid Hs); [|simpl; lia].
    rewrite (IHm o mid H); [reflexivity|lia]. }
  now rewrite G.
Qed.

(** A walk that ends reads the same from a heap that agrees on the
    locations that exist, with at least as much fuel. *)
Lemma stringify_stable (h h' : heap) :
  (forall x, x < List.length h -> h' !! x = h !! x) ->
  forall fuel fuel' s j,
    stringify fuel h s = Some j -> fuel <= fuel' -> stringify fuel' h' s = Some j.
Proof.
  intros Hsame. induction fuel as [|fuel IH]; intros fuel' s j H Hle.
  - destruct s as [| | [|] | |l]; cbn [stringify] in H; try discriminate H;
      destruct fuel'; exact H.
  - destruct s as [| | [|] | |l]; cbn [stringify] in H;
      try (destruct fuel'; exact H).
    destruct fuel' as [|fuel']; [lia|]. apply le_S_n in Hle. cbn [stringify].
    destruct (h !! l) as [o|] eqn:Hl; [|discriminate H].
    rewrite (Hsame l (lookup_lt_Some _ _ _ Hl)), Hl.
    destruct (stringify_members (stringify fuel h) o) as [members|] eqn:Em; [|discriminate H].
    assert (G : stringify_members (stringify fuel' h') o = Some members).
    { clear Hl H. revert members Em. induction o as [|[key s] o IHo]; intros members Em;
        cbn [stringify_members] in *; [exact Em|].
      destruct (stringify fuel h s) as [js|] eqn:Es; [|discriminate Em].
      destruct (stringify_members (stringify fuel h) o) as [ms|] eqn:Eo; [|discriminate Em].
      rewrite (IH fuel' s js Es Hle), (IHo ms eq_refl). exact Em. }
    rewrite G. exact H.
Qed.

Lemma stringify_members_In (f : slot -> option json) o members key s :
  stringify_members f o = Some members -> In (key, s) o -> exists j, f s = Some j.
Proof.
  revert members. induction o as [|[key' s'] o IH]; intros members H Hin; simpl in *;
    [contradiction|].
  destruct (f s') as [js|] eqn:Es; [|discriminate H].
  destruct (stringify_members f o) as [ms|] eqn:Eo; [|discriminate H].
  destruct Hin as [E|Hin].
  - injection E as <- <-. now exists js.
  - exact (IH ms eq_refl Hin).
Qed.

(** *** Reachability *)

Lemma members_at_In h members : forall o lo hi key s,
  members_at (tree_at h) members o lo hi -> In (key, s) o ->
  exists j lo' hi', tree_at h j s lo' hi' /\ lo <= lo' /\ hi' <= hi.
Proof.
  induction members as [|[key j] members IH]; intros [|[key' s'] o] lo hi k s H Hin;
    simpl in H; try contradiction; try solve [destruct Hin].
  destruct H as (_ & mid & Hs & H).
  pose proof (tree_at_bounds h j s' lo mid Hs) as B1.
  pose proof (members_at_bounds h members o mid hi H) as B2.
  destruct Hin as [E|Hin].
  - injection E as <- <-. exists j, lo, mid. split; [exact Hs|lia].
  - destruct (IH o mid hi k s H Hin) as (j' & lo' & hi' & Hs' & B3 & B4).
    exists j', lo', hi'. split; [exact Hs'|lia].
Qed.

(** What a tree leads to lies within the tree. *)
Lemma reach_tree h s x :
  reach h s x -> forall j lo hi, tree_at h j s lo hi -> lo <= x < hi.
Proof.
  induction 1 as [l | l o key s l' Hl Hin _ IH]; intros j lo hi H.
  - pose proof (tree_at_bounds h j (SRef l) lo hi H) as B.
    destruct j; simpl in H; try (destruct H as (E & _); discriminate E).
    destruct H as (l0 & o & E & -> & _ & Hm). injection E as <-.
    apply members_at_bounds in Hm. lia.
  - destruct j; simpl in H; try (destruct H as (E & _); discriminate E).
    destruct H as (l0 & o0 & E & -> & Hl0 & Hm). injection E as <-.
    rewrite Hl in Hl0. injection Hl0 as <-.
    destruct (members_at_In h members o lo l key s Hm Hin) as (j' & lo' & hi' & Hs & B1 & B2).
    specialize (IH j' lo' hi' Hs). lia.
Qed.

(** What a value that can be written leads to exists, and is what it
    leads to in any heap that agrees on the locations that exist. *)
Lemma reach_stringify (h h' : heap) :
  (forall x, x < List.length h -> h' !! x = h !! x) ->
  forall s x, reach h' s x ->
  forall fuel j, stringify fuel h s = Some j -> x < List.length h.
Proof.
  intros Hsame s x. induction 1 as [l | l o key s l' Hl Hin _ IH]; intros fuel j H.
  - destruct fuel as [|fuel]; cbn [stringify] in H; [discriminate H|].
    destruct (h !! l) as [o|] eqn:Hl; [|discriminate H].
    exact (lookup_lt_Some _ _ _ Hl).
  - destruct fuel as [|fuel]; cbn [stringify] in H; [discriminate H|].
    destruct (h !! l) as [o0|] eqn:Hl0; [|discriminate H].
    rewrite (Hsame l (lookup_lt_Some _ _ _ Hl0)), Hl0 in Hl. injection Hl as <-.
    destruct (stringify_members (stringify fuel h) o0) as [members|] eqn:Em; [|discriminate H].
    destruct (stringify_members_In _ _ _ _ _ Em Hin) as (j' & Hs).
    exact (IH fuel j' Hs).
Qed.

End RegionalPricingFacts.

Module ApplyFacts.
Import RegionalPricing JSMapFacts RegionalPricingFacts.
Local Open Scope nat_scope.

Lemma member_depth (members : list (string * json)) (member : string * json) :
  In member members ->
  depth (snd member) <= fold_right (fun member d => Nat.max (depth (snd member)) d) O members.
Proof.
  induction members as [|m members IH]; simpl; [tauto|].
  intros [->|Hin]; [lia|]. apply IH in Hin. lia.
Qed.

Lemma keys_app (done todo : list (string * slot)) :
  JSMap.keys (done ++ todo)%list = (JSMap.keys done ++ JSMap.keys todo)%list.
Proof. unfold JSMap.keys. apply List.map_app. Qed.

Section Scaling.
Variable q : Q.

(** What a visit of [applyToObject] with [fuel] achieves on a tree. *)
Let scaled (fuel : nat) : Prop :=
  forall j l lo hi (h : list (list (string * slot))),
    tree_at h j (SRef l) lo hi -> well_formed j = true -> depth j <= fuel ->
    exists h',
      applyToObject fuel (Factor q) l h = Some h'
      /\ tree_at h' (scale q j) (SRef l) lo hi
      /\ List.length h' = List.length h
      /\ (forall x, x < lo \/ hi <= x -> h' !! x = h !! x).

(** The loop over the keys that remain, once the properties [done] have
    been dealt with. *)
Lemma apply_members fuel l :
  scaled fuel ->
  forall members todo done mid (h : list (list (string * slot))),
    h !! l = Some (done ++ todo)%list ->
    List.NoDup (JSMap.keys (done ++ todo)%list) ->
    members_at (tree_at h) members todo mid l ->
    List.Forall (fun member => well_formed (snd member) = true /\ depth (snd member) <= fuel)
      members ->
    exists h' todo',
      fold_left (apply_key (applyToObject fuel (Factor q)) (Factor q) l)
        (JSMap.keys todo) (Some h) = Some h'
      /\ h' !! l = Some (done ++ todo')%list
      /\ members_at (tree_at h')
           (List.map (fun member => (fst member, scale q (snd member))) members) todo' mid l
      /\ List.length h' = List.length h
      /\ (forall x, x < mid \/ l < x -> h' !! x = h !! x).
Proof.
  intros Hfuel.
  induction members as [|[key j] members IH]; intros [|[key' s] rest] done mid h Hl Hnd Hm Hall;
    simpl in Hm; try contradiction.
  { subst mid. exists h, []. simpl. repeat split; auto. }
  destruct Hm as (<- & mid' & Hs & Hrest).
  pose proof (tree_at_bounds h j s mid mid' Hs) as B1.
  pose proof (members_at_bounds h members rest mid' l Hrest) as B2.
  inversion Hall as [|? ? (Hwf & Hdepth) Hall']; subst.
  assert (Hout : ~ In key (JSMap.keys done)).
  { rewrite keys_app in Hnd. change (JSMap.keys ((key, s) :: rest)) with (key :: JSMap.keys rest) in Hnd.
    apply List.NoDup_remove_2 in Hnd. rewrite in_app_iff in Hnd. tauto. }
  assert (Hstep : forall (s' : slot) (tail : list (string * slot)),
             (done ++ (key, s') :: tail)%list = ((done ++ [(key, s')]) ++ tail)%list).
  { intros s' tail. now rewrite <- app_assoc. }
  assert (Hnd' : forall s' : slot,
             List.NoDup (JSMap.keys ((done ++ [(key, s')]) ++ rest)%list)).
  { intros s'. rewrite <- Hstep. rewrite keys_app in *. exact Hnd. }
  change (JSMap.keys ((key, s) :: rest)) with (key :: JSMap.keys rest).
  cbn [fold_left]. unfold apply_key at 2. cbv beta iota.
  change (JSMap.t slot) with (list (string * slot)).
  rewrite Hl, (get_middle done rest key s Hout).
  assert (Hleaf :
    scale q j = j -> mid = mid' ->
    (forall h' : list (list (string * slot)), tree_at h' j s mid mid') ->
    exists h' todo',
      fold_left (apply_key (applyToObject fuel (Factor q)) (Factor q) l)
        (JSMap.keys rest) (Some h) = Some h'
      /\ h' !! l = Some (done ++ todo')%list
      /\ members_at (tree_at h')
           (List.map (fun member => (fst member, scale q (snd member))) ((key, j) :: members))
           todo' mid l
      /\ List.length h' = List.length h
      /\ (forall x, x < mid \/ l < x -> h' !! x = h !! x)).
  { intros Escale Emid Hany. subst mid'.
    destruct (IH rest (done ++ [(key, s)])%list mid h) as (h' & todo' & Hfold & Hl' & Hm' & Hlen & Hframe);
      [now rewrite <- Hstep | apply Hnd' | exact Hrest | exact Hall' |].
    exists h', ((key, s) :: todo'). split; [exact Hfold|].
    split; [now rewrite Hstep|]. split; [|split; [exact Hlen | exact Hframe]].
    cbn [List.map fst snd members_at]. rewrite Escale. split; [reflexivity|].
    exists mid. split; [apply Hany | exact Hm']. }
  destruct j as [|b|n|str|ms]; simpl in Hs.
  - destruct Hs as (-> & Emid). apply Hleaf; [reflexivity | exact Emid |].
    intros h'. simpl. now split.
  - destruct Hs as (-> & Emid). apply Hleaf; [reflexivity | exact Emid |].
    intros h'. simpl. now split.
  - destruct Hs as (-> & <-).
    pose proof (lookup_lt_Some _ _ _ Hl) as Hlt.
    rewrite (set_middle done rest key _ (SNum (times (Finite n) (Factor q))) Hout).
    cbn [times].
    set (h1 := <[l := (done ++ (key, SNum (Finite (n * q)%Q)) :: rest)%list]> h).
    destruct (IH rest (done ++ [(key, SNum (Finite (n * q)%Q))])%list mid h1)
      as (h' & todo' & Hfold & Hl' & Hm' & Hlen & Hframe).
    { unfold h1. rewrite list_lookup_insert_eq; [now rewrite Hstep | exact Hlt]. }
    { apply Hnd'. }
    { apply (members_at_frame h); [|exact Hrest].
      intros x Hx. unfold h1. apply list_lookup_insert_ne. lia. }
    { exact Hall'. }
    exists h', ((key, SNum (Finite (n * q)%Q)) :: todo'). split; [exact Hfold|].
    split; [now rewrite Hstep|].
    split; [|split].
    + cbn [List.map fst snd members_at scale]. split; [reflexivity|].
      exists mid. split; [simpl; now split | exact Hm'].
    + rewrite Hlen. unfold h1. apply length_insert.
    + intros x Hx. rewrite Hframe; [|lia]. unfold h1. apply list_lookup_insert_ne. lia.
  - destruct Hs as (-> & Emid). apply Hleaf; [reflexivity | exact Emid |].
    intros h'. simpl. now split.
  - destruct Hs as (l' & o' & -> & -> & Hl0 & Hms).
    assert (Hsub : tree_at h (JObj ms) (SRef l') mid (S l')).
    { simpl. exists l', o'. repeat split; assumption. }
    destruct (Hfuel (JObj ms) l' mid (S l') h Hsub Hwf Hdepth)
      as (h1 & Happly & Hscaled & Hlen1 & Hframe1).
    rewrite Happly.
    destruct (IH rest (done ++ [(key, SRef l')])%list (S l') h1)
      as (h' & todo' & Hfold & Hl' & Hm' & Hlen & Hframe).
    { rewrite Hframe1; [now rewrite <- Hstep | lia]. }
    { apply Hnd'. }
    { apply (members_at_frame h); [|exact Hrest].
      intros x Hx. apply Hframe1. lia. }
    { exact Hall'. }
    exists h', ((key, SRef l') :: todo'). split; [exact Hfold|].
    split; [now rewrite Hstep|].
    split; [|split].
    + cbn [List.map fst snd members_at]. split; [reflexivity|].
      exists (S l'). split; [|exact Hm'].
      apply (tree_at_frame h1); [|exact Hscaled].
      intros x Hx. apply Hframe. lia.
    + now rewrite Hlen.
    + intros x Hx. rewrite Hframe; [|lia]. apply Hframe1. lia.
Qed.

Lemma apply_tree fuel : scaled fuel.
Proof.
  induction fuel as [|fuel IH]; intros j l lo hi h Ht Hwf Hdepth.
  - destruct j; simpl in Ht; try (destruct Ht as (E & _); discriminate E).
    simpl in Hdepth. lia.
  - destruct j as [|b|n|str|ms]; simpl in Ht; try (destruct Ht as (E & _); discriminate E).
    destruct Ht as (l0 & o & E & -> & Hl & Hm). injection E as <-.
    simpl in Hwf. apply andb_prop in Hwf. destruct Hwf as (Hkeys & Hwf).
    simpl in Hdepth. apply le_S_n in Hdepth.
    cbn [applyToObject]. change (JSMap.t slot) with (list (string * slot)). rewrite Hl.
    destruct (apply_members fuel l IH ms o [] lo h) as (h' & o' & Hfold & Hl' & Hm' & Hlen & Hframe).
    + exact Hl.
    + simpl. rewrite (members_at_keys _ _ _ _ _ Hm). now apply distinct_NoDup.
    + exact Hm.
    + rewrite List.Forall_forall. intros member Hin. split.
      * rewrite forallb_forall in Hwf. now apply Hwf.
      * pose proof (member_depth ms member Hin). lia.
    + exists h'. split; [exact Hfold|]. split; [|split; [exact Hlen|]].
      * simpl. exists l, o'. repeat split; assumption.
      * intros x Hx. apply Hframe. lia.
Qed.

End Scaling.

(** *** The multiplier of a region *)

Lemma multiplier_listed (region : string) (listed : Q) :
  JSMap.get REGIONAL_MULTIPLIERS region = Some listed ->
  multiplier_for region = Factor listed.
Proof.
  unfold multiplier_for. intros H. rewrite H.
  unfold REGIONAL_MULTIPLIERS in H. cbn [JSMap.get] in H.
  repeat (match type of H with
          | (if ?c then _ else _) = _ => destruct c; [injection H as <-; reflexivity|]
          end).
  discriminate H.
Qed.

Lemma multiplier_unlisted (region : string) :
  JSMap.get REGIONAL_MULTIPLIERS region = None ->
  inherits region = false ->
  multiplier_for region = Factor 1.1%Q.
Proof. unfold multiplier_for. intros -> ->. reflexivity. Qed.

Lemma multiplier_is_factor (region : string) :
  inherits region = false -> exists q, multiplier_for region = Factor q.
Proof.
  intros H. destruct (JSMap.get REGIONAL_MULTIPLIERS region) as [listed|] eqn:E.
  - exists listed. now apply multiplier_listed.
  - exists 1.1%Q. now apply multiplier_unlisted.
Qed.

(** *** [applyMultiplier] *)

Lemma applyMultiplier_clones (q : Q) (pricing : nat) (h : list (list (string * slot)))
    (t : json) :
  JSON_stringify h (SRef pricing) = Some t ->
  well_formed t = true ->
  exists result h',
    applyMultiplier pricing (Factor q) h = Some (result, h')
    /\ JSON_stringify h' (SRef result) = Some (scale q t)
    /\ (forall l, l < List.length h -> h' !! l = h !! l)
    /\ JSON_stringify h' (SRef pricing) = Some t
    /\ (forall l, reach h' (SRef result) l -> List.length h <= l)
    /\ (forall l, reach h' (SRef pricing) l -> l < List.length h).
Proof.
  intros Ht Hwf. unfold applyMultiplier. rewrite Ht. unfold JSON_parse.
  destruct (parse t h) as [s h1] eqn:Ep.
  destruct (parse_tree t h s h1 Ep) as ((new & ->) & Htree).
  assert (Eobj : exists ms, t = JObj ms).
  { unfold JSON_stringify in Ht. cbn [stringify] in Ht.
    destruct (h !! pricing); [|discriminate Ht].
    destruct (stringify_members _ _) as [ms|]; [|discriminate Ht].
    injection Ht as <-. now exists ms. }
  destruct Eobj as (ms & ->).
  assert (Eref : exists result, s = SRef result).
  { simpl in Htree. destruct Htree as (l & o & -> & _). now exists l. }
  destruct Eref as (result & ->).
  pose proof (tree_at_bounds _ _ _ _ _ Htree) as Hbound.
  destruct (apply_tree q (S (List.length (h ++ new)%list)) (JObj ms) result
              (List.length h) (List.length (h ++ new)%list) (h ++ new)%list Htree Hwf)
    as (h2 & Happly & Hscaled & Hlen & Hframe); [lia|].
  rewrite Happly. exists result, h2. split; [reflexivity|].
  assert (Hold : forall l, l < List.length h -> h2 !! l = h !! l).
  { intros l Hl. rewrite Hframe; [|lia]. now apply lookup_app_l. }
  split; [|split; [exact Hold|split; [|split]]].
  - unfold JSON_stringify. apply (stringify_tree h2 _ _ _ _ _ Hscaled).
    pose proof (tree_at_bounds _ _ _ _ _ Hscaled). lia.
  - unfold JSON_stringify in *.
    apply (stringify_stable h h2 Hold _ _ _ _ Ht).
    rewrite Hlen, length_app. lia.
  - intros l Hreach. pose proof (reach_tree h2 _ _ Hreach _ _ _ Hscaled). lia.
  - intros l Hreach. exact (reach_stringify h h2 Hold _ _ Hreach _ _ Ht).
Qed.

End ApplyFacts.

Module RegionalPricingClaims.
Import RegionalPricing JSMapFacts RegionalPricingFacts ApplyFacts.
Local Open Scope nat_scope.

(** The module as loaded: the constant refers to an object that reads as
    the literal, and the keys of the literal are pairwise distinct. *)
Lemma loaded_reads_as_literal :
  JSON_stringify (snd loaded) (SRef (fst loaded)) = Some US_EAST_1_PRICING
  /\ well_formed US_EAST_1_PRICING = true.
Proof. split; vm_compute; reflexivity. Qed.

(** Let the constant [US_EAST_1_PRICING] refer to an object that reads
    as the table [t], and let [region] not be the name of a member
    inherited from [Object.prototype].  The multiplier of the region is
    a number: the one [REGIONAL_MULTIPLIERS] lists for it, and 1.1 if it
    lists none.  For [us-east-1], [getRegionalPricing] returns the
    object of the constant itself and leaves the heap as it is.  For any
    other region it returns a new object that reads as [t] with every
    numeric leaf multiplied by the multiplier; every object that existed
    before the call is as it was, so the constant still reads as [t];
    and the objects the result leads to are all new, while those the
    constant leads to all existed before: the two share nothing. *)
Theorem regional_pricing_is_an_independent_scaled_copy
    (region : string) (base : nat) (h : list (list (string * slot))) (t : json) :
  JSON_stringify h (SRef base) = Some t ->
  well_formed t = true ->
  inherits region = false ->
  exists q : Q,
    multiplier_for region = Factor q
    /\ (forall listed, JSMap.get REGIONAL_MULTIPLIERS region = Some listed -> q = listed)
    /\ (JSMap.get REGIONAL_MULTIPLIERS region = None -> q = 1.1%Q)
    /\ (region = "us-east-1" -> getRegionalPricing base region h = Some (base, h))
    /\ (region <> "us-east-1" ->
        exists result h',
          getRegionalPricing base region h = Some (result, h')
          /\ JSON_stringify h' (SRef result) = Some (scale q t)
          /\ (forall l, l < List.length h -> h' !! l = h !! l)
          /\ JSON_stringify h' (SRef base) = Some t
          /\ (forall l, reach h' (SRef result) l -> List.length h <= l)
          /\ (forall l, reach h' (SRef base) l -> l < List.length h)).
Proof.
  intros Ht Hwf Hown.
  destruct (multiplier_is_factor region Hown) as (q & Hq).
  exists q. split; [exact Hq|]. split; [|split; [|split]].
  - intros listed Hlisted. rewrite (multiplier_listed region listed Hlisted) in Hq.
    now injection Hq as <-.
  - intros Hnone. rewrite (multiplier_unlisted region Hnone Hown) in Hq.
    now injection Hq as <-.
  - intros ->. reflexivity.
  - intros Hother. unfold getRegionalPricing.
    destruct (String.eqb_spec region "us-east-1") as [E|_]; [contradiction|].
    rewrite Hq. exact (applyMultiplier_clones q base h t Ht Hwf).
Qed.

Lemma regional_pricing_witness :
  exists result h',
    getRegionalPricing (fst loaded) "eu-west-1" (snd loaded) = Some (result, h')
    /\ JSON_stringify h' (SRef result) = Some (scale 1.05 US_EAST_1_PRICING)
    /\ JSON_stringify h' (SRef (fst loaded)) = Some US_EAST_1_PRICING
    /\ (forall l, reach h' (SRef result) l -> List.length (snd loaded) <= l).
Proof.
  assert (P1 : JSON_stringify (snd loaded) (SRef (fst loaded)) = Some US_EAST_1_PRICING)
    by (vm_compute; reflexivity).
  assert (P2 : well_formed US_EAST_1_PRICING = true) by (vm_compute; reflexivity).
  destruct (regional_pricing_is_an_independent_scaled_copy
              "eu-west-1" (fst loaded) (snd loaded) US_EAST_1_PRICING P1 P2 eq_refl)
    as (q & _ & Hlisted & _ & _ & Hother).
  rewrite (Hlisted 1.05%Q eq_refl) in Hother.
  destruct Hother as (result & h' & Hcall & Hcopy & _ & Hbase & Hnew & _).
  { intros E. discriminate E. }
  exists result, h'. repeat split; assumption.
Defined.

(** C7 (divergence).  An unknown region does not always get the factor
    1.1.  [REGIONAL_MULTIPLIERS] lists no [constructor], yet
    [REGIONAL_MULTIPLIERS['constructor']] is the member the table
    inherits from [Object.prototype], which is truthy, so [|| 1.1] does
    not apply and the multiplier is not a number: in the table
    [getRegionalPricing('constructor')] returns, every numeric leaf is
    NaN (the price of a [t3.micro], 0.0104 in the base table, for one),
    and the table does not read as the base table scaled by 1.1. *)
Theorem C7_inherited_member_as_multiplier :
  exists result h',
    getRegionalPricing (fst loaded) "constructor" (snd loaded) = Some (result, h')
    /\ JSMap.get REGIONAL_MULTIPLIERS "constructor" = None
    /\ multiplier_for "constructor" = Inherited "constructor"
    /\ read (snd loaded) (SRef (fst loaded)) ["ec2"; "t3.micro"] = Some (SNum (Finite 0.0104))
    /\ read h' (SRef result) ["ec2"; "t3.micro"] = Some (SNum NotANumber)
    /\ JSON_stringify h' (SRef result) <> Some (scale 1.1 US_EAST_1_PRICING).
Proof.
  eexists. eexists. split; [vm_compute; reflexivity|].
  split; [reflexivity|]. split; [reflexivity|]. split; [vm_compute; reflexivity|].
  split; [vm_compute; reflexivity|].
  vm_compute. intros H. discriminate H.
Qed.

End RegionalPricingClaims.

(** ** Summaries and filters of a comparison *)

Module DiffSummaryFacts.
Import DiffCalculator DiffSummary Spec NumFacts JSMapFacts DiffFacts.

Lemma outweighs_refl (a : ResourceChange.t) : outweighs a a.
Proof. unfold outweighs. apply Qle_refl. Qed.













(** *** The loop of [getSummaryStats] *)

Lemma of_type_cons (t : ChangeType) (c : ResourceChange.t) (l : list ResourceChange.t) :
  of_type t (c :: l)
  = if same_type (ResourceChange.changeType c) t then c :: of_type t l else of_type t l.
Proof.
  unfold of_type, includes_type. cbn [List.filter existsb]. now rewrite orb_false_r.
Qed.

Lemma count_changes (l : list ResourceChange.t) : forall stats,
  let final := fold_left count_change l stats in
  totalAdded final = (totalAdded stats + List.length (of_type added l))%nat
  /\ totalRemoved final = (totalRemoved stats + List.length (of_type removed l))%nat
  /\ totalModified final = (totalModified stats + List.length (of_type modified l))%nat
  /\ totalUnchanged final = (totalUnchanged stats + List.length (of_type unchanged l))%nat
  /\ addedCost final
     == addedCost stats + Num.sum (List.map ResourceChange.costDifference (of_type added l))
  /\ removedCost final
     == removedCost stats
        + Num.sum (List.map (fun c => Num.abs (ResourceChange.costDifference c))
                     (of_type removed l))
  /\ modifiedCostChange final
     == modifiedCostChange stats
        + Num.sum (List.map ResourceChange.costDifference (of_type modified l)).
Proof.
  induction l as [|c l IH]; intros stats; cbn [fold_left].
  - cbn. repeat split; try lia; ring.
  - destruct (IH (count_change stats c)) as (H1 & H2 & H3 & H4 & H5 & H6 & H7).
    cbv zeta. rewrite H1, H2, H3, H4, H5, H6, H7. clear.
    rewrite !of_type_cons. unfold count_change.
    destruct (ResourceChange.changeType c);
      cbn [same_type totalAdded totalRemoved totalModified totalUnchanged addedCost
           removedCost modifiedCostChange List.length List.map Num.sum];
      repeat split; try lia; ring.
Qed.

Lemma of_type_partition (l : list ResourceChange.t) :
  (List.length (of_type added l) + List.length (of_type removed l)
   + List.length (of_type modified l) + List.length (of_type unchanged l))%nat
  = List.length l.
Proof.
  induction l as [|c l IH]; [reflexivity|].
  rewrite !of_type_cons.
  destruct (ResourceChange.changeType c); cbn [same_type List.length]; lia.
Qed.


End DiffSummaryFacts.

Module DiffSummaryClaims.
Import DiffCalculator DiffSummary Spec NumFacts JSMapFacts DiffFacts DiffSummaryFacts.



(** [getSummaryStats] and [filterChanges] agree: each counter is the
    number of changes [filterChanges] keeps for that one type, each cost
    is the sum over those changes, and the four counters add up to the
    number of changes. *)
Theorem summary_counts_filtered_changes (comparison : CostComparison.t) :
  totalAdded (getSummaryStats comparison) = List.length (filterChanges comparison [added])
  /\ totalRemoved (getSummaryStats comparison)
     = List.length (filterChanges comparison [removed])
  /\ totalModified (getSummaryStats comparison)
     = List.length (filterChanges comparison [modified])
  /\ totalUnchanged (getSummaryStats comparison)
     = List.length (filterChanges comparison [unchanged])
  /\ (totalAdded (getSummaryStats comparison) + totalRemoved (getSummaryStats comparison)
      + totalModified (getSummaryStats comparison)
      + totalUnchanged (getSummaryStats comparison))%nat
     = List.length (CostComparison.resourceChanges comparison)
  /\ addedCost (getSummaryStats comparison)
     == Num.sum (List.map ResourceChange.costDifference (filterChanges comparison [added]))
  /\ removedCost (getSummaryStats comparison)
     == Num.sum (List.map (fun c => Num.abs (ResourceChange.costDifference c))
                   (filterChanges comparison [removed]))
  /\ modifiedCostChange (getSummaryStats comparison)
     == Num.sum (List.map ResourceChange.costDifference (filterChanges comparison [modified])).
Proof.
  unfold getSummaryStats.
  destruct (count_changes (CostComparison.resourceChanges comparison)
              {| totalAdded := O; totalRemoved := O; totalModified := O; totalUnchanged := O;
                 addedCost := 0; removedCost := 0; modifiedCostChange := 0 |})
    as (H1 & H2 & H3 & H4 & H5 & H6 & H7).
  cbn [totalAdded totalRemoved totalModified totalUnchanged addedCost removedCost
       modifiedCostChange] in *.
  pose proof (of_type_partition (CostComparison.resourceChanges comparison)) as Hp.
  unfold filterChanges. fold (of_type added (CostComparison.resourceChanges comparison)).
  fold (of_type removed (CostComparison.resourceChanges comparison)).
  fold (of_type modified (CostComparison.resourceChanges comparison)).
  fold (of_type unchanged (CostComparison.resourceChanges comparison)).
  rewrite H1, H2, H3, H4, H5, H6, H7.
  repeat split; try lia; ring.
Qed.


End DiffSummaryClaims.

(** ** The changes and the difference of the totals *)

Module DiffAccountingFacts.
Import DiffCalculator DiffSummary Spec NumFacts JSMapFacts DiffFacts DiffSummaryFacts.







Section Sides.
Variables (B A : JSMap.t ResourceCost.t).
Hypothesis (HB : List.NoDup (JSMap.keys B)) (HA : List.NoDup (JSMap.keys A)).





End Sides.








End DiffAccountingFacts.

Module DiffAccountingClaims.
Import DiffCalculator DiffSummary Spec NumFacts JSMapFacts DiffFacts DiffSummaryFacts.
Import DiffAccountingFacts.



End DiffAccountingClaims.

Module DiffNetFacts.
Import DiffCalculator DiffSummary Spec NumFacts JSMapFacts DiffFacts DiffSummaryFacts.
Import DiffAccountingFacts.





End DiffNetFacts.

Module DiffNetClaims.
Import DiffCalculator DiffSummary Spec NumFacts JSMapFacts DiffFacts DiffSummaryFacts.
Import DiffAccountingFacts DiffNetFacts.



End DiffNetClaims.

(** ** The records of an estimate *)

Module DispatchFacts.
Import JS TemplateParser PricingData CostCalculator StackSpec DispatchSpec.
Import JSMapFacts CalculatorFacts LoopFacts StackFacts RegionalPricingFacts.

Ltac absurd_throw H :=
  lazymatch type of H with Throws _ = Returns _ => discriminate H end.

Lemma sublist_In {A : Type} (l1 l2 : list A) (x : A) : sublist l1 l2 -> In x l1 -> In x l2.
Proof.
  induction 1 as [|y l1 l2 _ IH|y l1 l2 _ IH]; simpl; [tauto| |].
  - intros [->|H]; [now left | right; now apply IH].
  - intros H. right. now apply IH.
Qed.

Lemma sublist_NoDup_keys (l1 l2 : list string) :
  sublist l1 l2 -> List.NoDup l2 -> List.NoDup l1.
Proof.
  induction 1 as [|y l1 l2 Hsub IH|y l1 l2 Hsub IH]; intros Hnd.
  - constructor.
  - inversion Hnd as [|? ? Hout Hnd']; subst. constructor; [|now apply IH].
    intros Hin. apply Hout. exact (sublist_In _ _ _ Hsub Hin).
  - inversion Hnd; subst. now apply IH.
Qed.

Section WithRuntime.
Context {rt : Runtime}.

Lemma usage_estimators_type : Forall estimator_type usage_estimators.
Proof.
  unfold usage_estimators.
  repeat (constructor;
    [ unfold estimator_type; cbn [fst snd]; intros this id r t rc Hty H;
      match type of H with ?c _ _ _ _ = _ => unfold_head c H end;
      rewrite ?Hty in H;
      unfold cost, price, lit, other_pricing in H; split_outcome; reflexivity
    | ]).
  constructor.
Qed.

Lemma calculateUsageBasedResource_type this id r t ty rc :
  get r "Type" = VStr ty ->
  calculateUsageBasedResource this id r t = Returns (Some rc) ->
  ResourceCost.resourceType rc = ty.
Proof.
  unfold calculateUsageBasedResource. intros Hty H. rewrite Hty in H.
  destruct (JSMap.get usage_estimators ty) as [est|] eqn:E; [|discriminate H].
  apply estimator_listed in E.
  pose proof usage_estimators_type as Hall. rewrite List.Forall_forall in Hall.
  exact (Hall _ E this id r t rc Hty H).
Qed.

Variables (this : instance) (template : value).

(** One iteration leaves at most one record, with the id and the type of
    its resource. *)
Lemma visit_leaves id r d :
  visit this template start id r = Returns d -> leaves d id r.
Proof.
  intros H. unfold leaves. unfold visit in H.
  destruct (get r "Type") as [| | | |ty| |] eqn:Hty; try absurd_throw H.
  destruct (isFreeResource ty).
  { injection H as <-. left. now split. }
  destruct (JSMap.get (calculators this) ty) as [calc|] eqn:Hcalc.
  { apply calculators_registered in Hcalc.
    destruct (calc id r template (pricing this)) as [[c|]|m] eqn:Hc; injection H as <-.
    - right. left. exists c.
      pose proof registrations_identity as Hid. rewrite List.Forall_forall in Hid.
      destruct (Hid _ Hcalc id r template (pricing this) _ Hc) as (E1 & E2).
      cbn [fst] in E2. rewrite E2. repeat split; assumption.
    - left. now split.
    - right. right. eexists. repeat split. }
  clear Hcalc.
  destruct (has USAGE_BASED_RESOURCES ty).
  { destruct (calculateUsageBasedResource this id r template) as [[c|]|m] eqn:Hc;
      cbn [bind] in H; try absurd_throw H; injection H as <-.
    - right. left. exists c.
      rewrite (calculateUsageBasedResource_type this id r template ty c);
        [| |exact Hc].
      + pose proof (calculateUsageBasedResource_sound this id r template c Hc) as (_ & _ & E).
        repeat split; assumption.
      + unfold calculateUsageBasedResource in Hc. destruct (get r "Type"); try discriminate Hc.
        now injection Hty as ->.
    - left. now split. }
  injection H as <-. right. right. eexists. repeat split.
Qed.

End WithRuntime.
End DispatchFacts.

Module RecordFacts.
Import JS TemplateParser PricingData CostCalculator StackSpec DispatchSpec Spec.
Import JSMapFacts CalculatorFacts LoopFacts StackFacts DispatchFacts.

Section WithRuntime.
Context {rt : Runtime}.
Variables (this : instance) (template : value).

(** The loop leaves its records in the order of the entries. *)
Lemma visit_all_in_order entries : forall d,
  visit_all this template start entries = Returns d ->
  sublist (List.map ResourceCost.resourceId (resources d)) (JSMap.keys entries)
  /\ sublist (List.map UnsupportedResource.resourceId (unsupportedResources d))
       (JSMap.keys entries).
Proof.
  induction entries as [|[id r] rest IH]; intros d H; cbn [visit_all] in H.
  - injection H as <-. split; constructor.
  - destruct (visit this template start id r) as [di|m] eqn:Ev; cbn [bind] in H;
      [|discriminate H].
    rewrite visit_all_extend in H.
    destruct (visit_all this template start rest) as [d'|m] eqn:Er; cbn [bind] in H;
      [|discriminate H].
    injection H as <-. destruct (IH d' eq_refl) as (IH1 & IH2).
    unfold extend; cbn [resources unsupportedResources JSMap.keys List.map fst].
    rewrite !List.map_app.
    destruct (visit_leaves this template id r di Ev)
      as [(-> & ->)|[(rc & -> & -> & <- & _)|(u & -> & -> & <- & _)]];
      cbn [List.map app]; split; try (now apply sublist_cons); now apply sublist_skip.
Qed.

Lemma calculateStackCost_ids now stackName source entries est :
  extractResources template = Returns entries ->
  calculateStackCost this now stackName template source = Returns est ->
  sublist (resource_ids est) (JSMap.keys entries)
  /\ sublist (unsupported_ids est) (JSMap.keys entries)
  /\ List.NoDup (resource_ids est)
  /\ List.NoDup (unsupported_ids est).
Proof.
  intros He H.
  destruct (calculateStackCost_returns this template now stackName source est H)
    as (entries' & st & He' & Hv & Hres & Hun & _).
  rewrite He in He'. injection He' as <-.
  pose proof (extractResources_NoDup template entries He) as Hnd.
  destruct (visit_all_in_order entries st Hv) as (S1 & S2).
  unfold resource_ids, unsupported_ids. rewrite Hres, Hun.
  split; [exact S1|]. split; [exact S2|].
  split; [exact (sublist_NoDup_keys _ _ S1 Hnd) | exact (sublist_NoDup_keys _ _ S2 Hnd)].
Qed.

End WithRuntime.
End RecordFacts.

Module RecordClaims.
Import JS TemplateParser PricingData CostCalculator StackSpec DispatchSpec Spec Samples.
Import MoreSamples.
Import JSMapFacts CalculatorFacts LoopFacts StackFacts DispatchFacts RecordFacts.

(** The records of an estimate follow the template: the ids of
    [resources], and those of [unsupportedResources], are ids of
    resources of the template, in the order of the template and without
    repetition; no id is in both lists; and every record carries the
    type of the resource it is about. *)
Theorem records_follow_the_template {rt : Runtime}
    (this : instance) (now stackName : string) (template : value) (source : TemplateSource)
    (entries : list (string * value)) (est : StackCostEstimate.t) :
  extractResources template = Returns entries ->
  calculateStackCost this now stackName template source = Returns est ->
  sublist (resource_ids est) (JSMap.keys entries)
  /\ sublist (unsupported_ids est) (JSMap.keys entries)
  /\ List.NoDup (resource_ids est)
  /\ List.NoDup (unsupported_ids est)
  /\ (forall id, In id (resource_ids est) -> ~ In id (unsupported_ids est))
  /\ (forall rc, In rc (StackCostEstimate.resources est) ->
        exists r, In (ResourceCost.resourceId rc, r) entries
                  /\ get r "Type" = VStr (ResourceCost.resourceType rc))
  /\ (forall u, In u (StackCostEstimate.unsupportedResources est) ->
        exists r, In (UnsupportedResource.resourceId u, r) entries
                  /\ get r "Type" = VStr (UnsupportedResource.resourceType u)).
Proof.
  intros He H.
  destruct (calculateStackCost_ids this template now stackName source entries est He H)
    as (S1 & S2 & N1 & N2).
  destruct (calculateStackCost_returns this template now stackName source est H)
    as (entries' & st & He' & Hv & Hres & Hun & _).
  rewrite He in He'. injection He' as <-.
  pose proof (extractResources_NoDup template entries He) as Hnd.
  destruct (visit_all_trace this template entries st Hv) as (T1 & T2 & _).
  split; [exact S1|]. split; [exact S2|]. split; [exact N1|]. split; [exact N2|].
  split; [|split].
  - intros id Hr Hu. unfold resource_ids, unsupported_ids in *.
    apply in_map_iff in Hr. destruct Hr as (rc & Hid & Hrc).
    apply in_map_iff in Hu. destruct Hu as (u & Hid' & Hu).
    rewrite Hres in Hrc. rewrite Hun in Hu.
    destruct (T2 u Hu) as (id1 & r1 & d1 & Hin1 & Hv1 & Hu1).
    destruct (visit_identity this template id1 r1 d1 Hv1) as (_ & I & _).
    rewrite (I u Hu1) in Hid'. subst id1.
    destruct (pushed_by_own_iteration this template entries st id r1 Hnd Hin1 Hv)
      as (d1' & Hv1' & P & _).
    rewrite Hv1 in Hv1'. injection Hv1' as <-.
    exact (visit_exclusive this template id r1 d1 rc u Hv1 (P rc Hrc Hid) Hu1).
  - intros rc Hrc. rewrite Hres in Hrc.
    destruct (T1 rc Hrc) as (id & r & di & Hin & Hvis & Hrc').
    exists r.
    destruct (visit_leaves this template id r di Hvis)
      as [(E & _)|[(rc' & E & _ & Hid & Hty)|(u & E & _)]];
      rewrite E in Hrc'; try solve [destruct Hrc'].
    destruct Hrc' as [<-|[]]. rewrite Hid. now split.
  - intros u Hu. rewrite Hun in Hu.
    destruct (T2 u Hu) as (id & r & di & Hin & Hvis & Hu').
    exists r.
    destruct (visit_leaves this template id r di Hvis)
      as [(_ & E)|[(rc' & _ & E & _)|(u' & _ & E & Hid & Hty)]];
      rewrite E in Hu'; try solve [destruct Hu'].
    destruct Hu' as [<-|[]]. rewrite Hid. now split.
Qed.

Lemma records_follow_witness :
  exists est,
    calculateStackCost (rt := reference_runtime) sample_calculator timestamp "stack"
      mixed_stack local = Returns est
    /\ resource_ids est = ["Acl"; "Nat"]
    /\ unsupported_ids est = ["Disk"; "Thing"]
    /\ sublist (resource_ids est) ["Role"; "Topic"; "Acl"; "Disk"; "Nat"; "Thing"]
    /\ List.NoDup (resource_ids est).
Proof.
  eexists. split; [vm_compute; reflexivity|].
  split; [reflexivity|]. split; [reflexivity|].
  destruct (records_follow_the_template (rt := reference_runtime) sample_calculator
              timestamp "stack" mixed_stack local
              [role; topic; web_acl; disk; nat_gateway; thing] _
              ltac:(vm_compute; reflexivity) ltac:(vm_compute; reflexivity))
    as (S1 & _ & N1 & _).
  split; [exact S1 | exact N1].
Defined.

(** A resource whose [Type] is not a string makes [calculateStackCost]
    throw: no estimate is returned for the stack. *)
Theorem resource_without_type_aborts {rt : Runtime}
    (this : instance) (now stackName : string) (template : value) (source : TemplateSource)
    (entries : list (string * value)) (id : string) (r : value) :
  extractResources template = Returns entries ->
  In (id, r) entries ->
  is_string_value (get r "Type") = false ->
  exists message,
    calculateStackCost this now stackName template source = Throws message.
Proof.
  intros He Hin Hty.
  assert (Hloop : forall st, exists message,
             visit_all this template st entries = Throws message).
  { clear He. induction entries as [|[id' r'] rest IH]; [destruct Hin|].
    intros st. cbn [visit_all]. destruct Hin as [E|Hin].
    - injection E as -> ->. unfold visit at 1.
      destruct (get r "Type"); try discriminate Hty; cbn [bind]; eexists; reflexivity.
    - destruct (visit this template st id' r') as [st'|m]; cbn [bind].
      + exact (IH Hin st').
      + now exists m. }
  destruct (Hloop start) as (message & Hthrow).
  exists message. unfold calculateStackCost. rewrite He. cbn [bind]. fold start.
  rewrite Hthrow. reflexivity.
Qed.

Lemma resource_without_type_witness :
  exists message,
    calculateStackCost (rt := reference_runtime) sample_calculator timestamp "stack"
      untyped_stack local = Throws message.
Proof.
  apply (resource_without_type_aborts (rt := reference_runtime) sample_calculator timestamp
           "stack" untyped_stack local [role; untyped; nat_gateway] "Odd" (snd untyped)).
  - vm_compute; reflexivity.
  - right. left. reflexivity.
  - reflexivity.
Defined.

(** An exception of a usage estimator is not recovered: when the
    resources before it have been dealt with, it leaves
    [calculateStackCost] as it is, and there is no estimate for the
    stack.  A queue whose [QueueName] is an intrinsic function is
    enough: [endsWith] is called on an object. *)
Theorem estimator_exception_propagates {rt : Runtime}
    (this : instance) (now stackName : string) (template : value) (source : TemplateSource)
    (pre post : list (string * value)) (id : string) (r : value) (ty : string)
    (a : progress) (message : string) :
  extractResources template = Returns (pre ++ (id, r) :: post)%list ->
  visit_all this template start pre = Returns a ->
  get r "Type" = VStr ty ->
  reaches_usage_dispatch this ty ->
  calculateUsageBasedResource this id r template = Throws message ->
  calculateStackCost this now stackName template source = Throws message.
Proof.
  intros He Ha Hty Hreach Hthrow.
  unfold calculateStackCost. rewrite He. cbn [bind]. fold start.
  rewrite visit_all_middle, Ha. cbn [bind].
  rewrite (visit_usage_dispatch this template start id r ty Hty Hreach), Hthrow.
  reflexivity.
Qed.

Lemma estimator_exception_witness :
  calculateStackCost (rt := reference_runtime) sample_calculator timestamp "stack"
    queue_stack local
  = Throws "(intermediate value).endsWith is not a function".
Proof.
  assert (P4 : reaches_usage_dispatch (rt := reference_runtime) sample_calculator
                 "AWS::SQS::Queue").
  { split; [vm_compute; reflexivity|]. split; [|vm_compute; reflexivity].
    cbv [calculators initializeCalculators registrations JSMap.of_entries JSMap.set
         JSMap.get fold_left fst snd String.eqb Ascii.eqb Bool.eqb].
    reflexivity. }
  refine (estimator_exception_propagates (rt := reference_runtime) sample_calculator timestamp
            "stack" queue_stack local [role] [nat_gateway] (fst queue) (snd queue)
            "AWS::SQS::Queue" _ _ _ _ eq_refl P4 _);
    vm_compute; reflexivity.
Defined.

End RecordClaims.

(** ** The dispatch of [calculateStackCost] *)

Module DispatchOrderFacts.
Import JS TemplateParser PricingData CostCalculator StackSpec DispatchSpec Spec.
Import JSMapFacts CalculatorFacts LoopFacts StackFacts DispatchFacts RecordFacts.

Lemma unregistered {rt : Runtime} (this : instance) ty :
  ~ In ty (List.map fst registrations) -> JSMap.get (calculators this) ty = None.
Proof.
  intros H. apply get_None_keys. unfold calculators, initializeCalculators.
  now rewrite keys_of_entries.
Qed.

Lemma registered {rt : Runtime} (this : instance) ty :
  In ty (List.map fst registrations) -> JSMap.get (calculators this) ty <> None.
Proof.
  intros H E. apply get_None_keys in E. apply E.
  unfold calculators, initializeCalculators. now rewrite keys_of_entries.
Qed.

Lemma usage_based ty :
  has USAGE_BASED_RESOURCES ty = true ->
  In ty [ "AWS::Lambda::Function"; "AWS::DynamoDB::Table"; "AWS::S3::Bucket";
          "AWS::SNS::Topic"; "AWS::SQS::Queue"; "AWS::ApiGateway::RestApi";
          "AWS::ApiGatewayV2::Api"; "AWS::StepFunctions::StateMachine";
          "AWS::Kinesis::Stream"; "AWS::Firehose::DeliveryStream" ].
Proof.
  unfold has, USAGE_BASED_RESOURCES. intros H. apply bool_decide_eq_true in H.
  apply elem_of_list_to_set in H. apply list_elem_of_In in H. exact H.
Qed.

Section WithRuntime.
Context {rt : Runtime}.
Variables (this : instance) (template : value).

(** What the iteration of an entry pushed is part of the result. *)
Lemma visit_all_keeps entries d id r di :
  In (id, r) entries ->
  visit_all this template start entries = Returns d ->
  visit this template start id r = Returns di ->
  (forall rc, In rc (resources di) -> In rc (resources d))
  /\ (forall u, In u (unsupportedResources di) -> In u (unsupportedResources d)).
Proof.
  intros Hin H Hv.
  apply in_split in Hin. destruct Hin as (pre & post & ->).
  rewrite visit_all_middle in H.
  destruct (visit_all this template start pre) as [a|m]; cbn [bind] in H; [|discriminate H].
  rewrite Hv in H. cbn [bind] in H.
  destruct (visit_all this template start post) as [b|m]; cbn [bind] in H; [|discriminate H].
  injection H as <-. unfold extend. cbn [resources unsupportedResources].
  split; intros x Hx; rewrite !in_app_iff; tauto.
Qed.

(** The records the estimate has for an entry are those its iteration
    left. *)
Lemma records_of_entry now stackName source entries est id r di :
  extractResources template = Returns entries ->
  In (id, r) entries ->
  calculateStackCost this now stackName template source = Returns est ->
  visit this template start id r = Returns di ->
  (forall rc, In rc (StackCostEstimate.resources est) ->
     (ResourceCost.resourceId rc = id <-> In rc (resources di)))
  /\ (forall u, In u (StackCostEstimate.unsupportedResources est) ->
     (UnsupportedResource.resourceId u = id <-> In u (unsupportedResources di)))
  /\ (forall rc, In rc (resources di) -> In rc (StackCostEstimate.resources est))
  /\ (forall u, In u (unsupportedResources di) ->
        In u (StackCostEstimate.unsupportedResources est)).
Proof.
  intros He Hin H Hv.
  destruct (calculateStackCost_returns this template now stackName source est H)
    as (entries' & st & He' & Hall & Hres & Hun & _).
  rewrite He in He'. injection He' as <-.
  pose proof (extractResources_NoDup template entries He) as Hnd.
  destruct (pushed_by_own_iteration this template entries st id r Hnd Hin Hall)
    as (di' & Hv' & P1 & P2).
  rewrite Hv in Hv'. injection Hv' as <-.
  destruct (visit_identity this template id r di Hv) as (I1 & I2 & _).
  destruct (visit_all_keeps entries st id r di Hin Hall Hv) as (K1 & K2).
  rewrite Hres, Hun.
  split; [|split; [|split]].
  - intros rc Hrc. split; [now apply P1 | now apply I1].
  - intros u Hu. split; [now apply P2 | now apply I2].
  - exact K1.
  - exact K2.
Qed.


(** The types for which the loop calls [calculateUsageBasedResource]. *)
Lemma usage_dispatch_types ty :
  reaches_usage_dispatch this ty
  <-> In ty estimated_types \/ ty = "AWS::Firehose::DeliveryStream".
Proof.
  unfold reaches_usage_dispatch. split.
  - intros (Hfree & Hcalc & Husage). apply usage_based in Husage.
    unfold estimated_types.
    repeat (destruct Husage as [<-|Husage]; [try (simpl; tauto)|]);
      try solve [destruct Husage].
    + vm_compute in Hfree. discriminate Hfree.
    + exfalso. revert Hcalc. apply registered. vm_compute. tauto.
  - intros [Hin| ->].
    + unfold estimated_types in Hin.
      repeat (destruct Hin as [<-|Hin];
              [split; [vm_compute; reflexivity|];
               split; [apply unregistered; vm_compute; intuition discriminate
                      |vm_compute; reflexivity]|]).
      destruct Hin.
    + split; [vm_compute; reflexivity|].
      split; [apply unregistered; vm_compute; intuition discriminate
             |vm_compute; reflexivity].
Qed.

(** No calculator of the registry returns [null]. *)
Lemma registrations_return_cost : Forall calculator_returns_cost registrations.
Proof.
  unfold registrations.
  repeat (constructor;
    [ unfold calculator_returns_cost; cbn [fst snd]; intros id r t p H;
      solve [ match type of H with ?c _ _ _ _ = _ => unfold_head c H end;
              unfold cost, price, lit, other_pricing in H; split_outcome;
              discriminate H ]
    | ]).
  constructor.
Qed.

(** The estimators of [estimated_types] do not return [null] either. *)
Lemma estimated_types_return_cost id r ty :
  get r "Type" = VStr ty -> In ty estimated_types ->
  calculateUsageBasedResource this id r template <> Returns None.
Proof.
  intros Hty Hin H. unfold calculateUsageBasedResource in H. rewrite Hty in H.
  unfold estimated_types in Hin.
  repeat (destruct Hin as [<-|Hin];
          [ cbn [JSMap.get usage_estimators String.eqb Ascii.eqb Bool.eqb fst snd] in H;
            match type of H with ?c _ _ _ _ = _ => unfold_head c H end;
            unfold cost, price, lit, other_pricing in H; split_outcome;
            discriminate H |]).
  destruct Hin.
Qed.

(** An iteration leaves nothing for free types and for the usage-based
    type without an estimator only. *)
Lemma visit_leaves_nothing id r ty d :
  get r "Type" = VStr ty ->
  visit this template start id r = Returns d ->
  resources d = [] -> unsupportedResources d = [] ->
  isFreeResource ty = true \/ ty = "AWS::Firehose::DeliveryStream".
Proof.
  intros Hty H Hr Hu. unfold visit in H. rewrite Hty in H.
  destruct (isFreeResource ty) eqn:Hfree; [now left|]. right.
  destruct (JSMap.get (calculators this) ty) as [calc|] eqn:Hcalc.
  { apply calculators_registered in Hcalc.
    pose proof registrations_return_cost as Hall. rewrite List.Forall_forall in Hall.
    pose proof (Hall _ Hcalc id r template (pricing this)) as Hnone. cbn [snd] in Hnone.
    destruct (calc id r template (pricing this)) as [[c|]|m]; injection H as <-.
    - discriminate Hr.
    - now destruct Hnone.
    - discriminate Hu. }
  destruct (has USAGE_BASED_RESOURCES ty) eqn:Husage.
  - destruct (proj1 (usage_dispatch_types ty) (conj Hfree (conj Hcalc Husage))) as [Hin|E];
      [|exact E].
    clear Hcalc. exfalso.
    pose proof (estimated_types_return_cost id r ty Hty Hin) as Hnone.
    destruct (calculateUsageBasedResource this id r template) as [[c|]|m];
      cbn [bind] in H; try absurd_throw H; injection H as <-.
    + discriminate Hr.
    + now apply Hnone.
  - clear Hcalc. injection H as <-. discriminate Hu.
Qed.

End WithRuntime.
End DispatchOrderFacts.

Module DispatchClaims.
Import JS TemplateParser PricingData CostCalculator StackSpec DispatchSpec Spec Samples.
Import MoreSamples.
Import JSMapFacts CalculatorFacts LoopFacts StackFacts DispatchFacts RecordFacts.
Import DispatchOrderFacts.

(** [calculateStackCost] calls [calculateUsageBasedResource] for exactly
    eight types: the seven of [estimated_types], and
    [AWS::Firehose::DeliveryStream], for which the [switch] has no case.
    The other five cases of the [switch] are never reached from it. *)
Theorem usage_dispatch_reaches_eight_types {rt : Runtime} (this : instance) (ty : string) :
  reaches_usage_dispatch this ty
  <-> In ty estimated_types \/ ty = "AWS::Firehose::DeliveryStream".
Proof. apply usage_dispatch_types. Qed.

(** Every resource of the template is accounted for, with two
    exceptions.  A resource of a free type, or of type
    [AWS::Firehose::DeliveryStream], appears neither in [resources] nor
    in [unsupportedResources]; a resource of any other type appears in
    exactly one of the two. *)
Theorem every_resource_is_accounted_for {rt : Runtime}
    (this : instance) (now stackName : string) (template : value) (source : TemplateSource)
    (entries : list (string * value)) (est : StackCostEstimate.t)
    (id : string) (r : value) (ty : string) :
  extractResources template = Returns entries ->
  In (id, r) entries ->
  get r "Type" = VStr ty ->
  calculateStackCost this now stackName template source = Returns est ->
  (isFreeResource ty = true \/ ty = "AWS::Firehose::DeliveryStream" ->
     ~ In id (resource_ids est) /\ ~ In id (unsupported_ids est))
  /\ (isFreeResource ty = false -> ty <> "AWS::Firehose::DeliveryStream" ->
       (In id (resource_ids est) /\ ~ In id (unsupported_ids est))
       \/ (~ In id (resource_ids est) /\ In id (unsupported_ids est))).
Proof.
  intros He Hin Hty H.
  destruct (calculateStackCost_returns this template now stackName source est H)
    as (entries' & st & He' & Hall & _).
  rewrite He in He'. injection He' as <-.
  assert (Hv : exists di, visit this template start id r = Returns di).
  { destruct (in_split _ _ Hin) as (pre & post & E). rewrite E in Hall.
    rewrite visit_all_middle in Hall.
    destruct (visit_all this template start pre) as [a|m]; cbn [bind] in Hall;
      [|discriminate Hall].
    destruct (visit this template start id r) as [di|m]; [now exists di|discriminate Hall]. }
  destruct Hv as (di & Hv).
  destruct (records_of_entry this template now stackName source entries est id r di
              He Hin H Hv) as (R1 & R2 & K1 & K2).
  assert (Hno_cost : resources di = [] -> ~ In id (resource_ids est)).
  { intros E Hid. unfold resource_ids in Hid. apply in_map_iff in Hid.
    destruct Hid as (rc & Hid & Hrc). apply (R1 rc Hrc) in Hid. rewrite E in Hid.
    destruct Hid. }
  assert (Hno_record : unsupportedResources di = [] -> ~ In id (unsupported_ids est)).
  { intros E Hid. unfold unsupported_ids in Hid. apply in_map_iff in Hid.
    destruct Hid as (u & Hid & Hu). apply (R2 u Hu) in Hid. rewrite E in Hid.
    destruct Hid. }
  assert (Hfirehose : ty = "AWS::Firehose::DeliveryStream" ->
                      resources di = [] /\ unsupportedResources di = []).
  { intros ->.
    rewrite (visit_usage_dispatch this template start id r _ Hty
               (proj2 (usage_dispatch_types this _) (or_intror eq_refl))) in Hv.
    unfold calculateUsageBasedResource in Hv. rewrite Hty in Hv.
    change (JSMap.get usage_estimators "AWS::Firehose::DeliveryStream")
      with (@None (instance -> string -> value -> value -> outcome (option ResourceCost.t)))
      in Hv.
    cbn [bind push_result] in Hv. injection Hv as <-. now split. }
  assert (Hfree : isFreeResource ty = true ->
                  resources di = [] /\ unsupportedResources di = []).
  { intros Hfree. rewrite (visit_free this template start id r ty Hty Hfree) in Hv.
    injection Hv as <-. now split. }
  split.
  - intros Hcase.
    assert (E : resources di = [] /\ unsupportedResources di = [])
      by (destruct Hcase; [now apply Hfree | now apply Hfirehose]).
    destruct E as (E1 & E2). split; [now apply Hno_cost | now apply Hno_record].
  - intros Hpaid Hother.
    destruct (visit_leaves this template id r di Hv)
      as [(E1 & E2)|[(rc & E1 & E2 & Hid & _)|(u & E1 & E2 & Hid & _)]].
    + destruct (visit_leaves_nothing this template id r ty di Hty Hv E1 E2) as [E|E].
      * rewrite E in Hpaid. discriminate Hpaid.
      * now destruct Hother.
    + left. split; [|now apply Hno_record].
      unfold resource_ids. apply in_map_iff. exists rc. split; [exact Hid|].
      apply K1. rewrite E1. now left.
    + right. split; [now apply Hno_cost|].
      unfold unsupported_ids. apply in_map_iff. exists u. split; [exact Hid|].
      apply K2. rewrite E2. now left.
Qed.

Lemma every_resource_witness :
  exists est,
    calculateStackCost (rt := reference_runtime) sample_calculator timestamp "stack"
      dispatch_stack local = Returns est
    /\ ~ In "Stream" (resource_ids est) /\ ~ In "Stream" (unsupported_ids est).
Proof.
  eexists. split; [vm_compute; reflexivity|].
  apply (every_resource_is_accounted_for (rt := reference_runtime) sample_calculator timestamp
           "stack" dispatch_stack local [stream; repository; web_acl] _
           "Stream" (snd stream) "AWS::Firehose::DeliveryStream").
  - vm_compute; reflexivity.
  - left; reflexivity.
  - reflexivity.
  - vm_compute; reflexivity.
  - right; reflexivity.
Defined.

(** A resource of a type that [calculateUsageBasedResource] has a case
    for, that is not free and that [USAGE_BASED_RESOURCES] does not list
    (as [AWS::ECR::Repository] and [AWS::Route53::RecordSet]) is not
    estimated: it is reported in [unsupportedResources], for want of a
    calculator. *)
Theorem estimator_without_usage_entry_is_unused {rt : Runtime}
    (this : instance) (now stackName : string) (template : value) (source : TemplateSource)
    (entries : list (string * value)) (est : StackCostEstimate.t)
    (id : string) (r : value) (ty : string) :
  extractResources template = Returns entries ->
  In (id, r) entries ->
  get r "Type" = VStr ty ->
  JSMap.has usage_estimators ty = true ->
  isFreeResource ty = false ->
  has USAGE_BASED_RESOURCES ty = false ->
  calculateStackCost this now stackName template source = Returns est ->
  In (no_calculator id ty) (StackCostEstimate.unsupportedResources est)
  /\ ~ In id (resource_ids est).
Proof.
  intros He Hin Hty Hest Hfree Husage H.
  assert (Hcalc : JSMap.get (calculators this) ty = None).
  { apply has_keys in Hest. cbn in Hest.
    repeat (destruct Hest as [<-|Hest];
            [first [ solve [vm_compute in Hfree; discriminate Hfree]
                   | solve [vm_compute in Husage; discriminate Husage]
                   | apply unregistered; vm_compute; intuition discriminate ]|]).
    destruct Hest. }
  assert (Hv : visit this template start id r
               = Returns (push_unsupported start (no_calculator id ty))).
  { unfold visit. rewrite Hty, Hfree, Hcalc, Husage. reflexivity. }
  clear Hcalc.
  destruct (records_of_entry this template now stackName source entries est id r _
              He Hin H Hv) as (R1 & _ & _ & K2).
  split.
  - apply K2. now left.
  - intros Hid. unfold resource_ids in Hid. apply in_map_iff in Hid.
    destruct Hid as (rc & Hid & Hrc). apply (R1 rc Hrc) in Hid. destruct Hid.
Qed.

Lemma estimator_without_usage_entry_witness :
  exists est,
    calculateStackCost (rt := reference_runtime) sample_calculator timestamp "stack"
      dispatch_stack local = Returns est
    /\ In (no_calculator "Repo" "AWS::ECR::Repository")
         (StackCostEstimate.unsupportedResources est)
    /\ ~ In "Repo" (resource_ids est).
Proof.
  eexists. split; [vm_compute; reflexivity|].
  apply (estimator_without_usage_entry_is_unused (rt := reference_runtime) sample_calculator
           timestamp "stack" dispatch_stack local [stream; repository; web_acl] _
           "Repo" (snd repository) "AWS::ECR::Repository").
  - vm_compute; reflexivity.
  - right; left; reflexivity.
  - reflexivity.
  - vm_compute; reflexivity.
  - vm_compute; reflexivity.
  - vm_compute; reflexivity.
  - vm_compute; reflexivity.
Defined.

End DispatchClaims.

Module RegistryClaims.
Import JS TemplateParser PricingData CostCalculator StackSpec DispatchSpec Spec.
Import JSMapFacts CalculatorFacts LoopFacts RegionalPricingFacts DispatchOrderFacts.

(** Every calculator of the registry is used.  The registered types are
    pairwise distinct, so that no [calculators.set] replaces an earlier
    one and the registry holds each calculator under its type; and no
    registered type is free, so that the free check never hides a
    calculator. *)
Theorem every_registered_calculator_is_used {rt : Runtime} (this : instance) :
  List.NoDup (List.map fst registrations)
  /\ Forall (fun entry =>
               JSMap.get (calculators this) (fst entry) = Some (snd entry)
               /\ isFreeResource (fst entry) = false)
       registrations.
Proof.
  assert (Hnd : List.NoDup (List.map fst registrations)).
  { apply distinct_NoDup. vm_compute. reflexivity. }
  split; [exact Hnd|].
  assert (Hfree : forallb (fun ty => negb (isFreeResource ty)) (List.map fst registrations)
                  = true) by (vm_compute; reflexivity).
  rewrite forallb_forall in Hfree.
  apply List.Forall_forall. intros [ty calc] Hin. cbn [fst snd]. split.
  - unfold calculators, initializeCalculators. rewrite (of_entries_NoDup _ Hnd).
    apply In_get; [exact Hnd | exact Hin].
  - apply negb_true_iff. apply Hfree. exact (in_map fst _ _ Hin).
Qed.

End RegistryClaims.

(** ** Comparison of two templates *)

Module StackDiffFacts.
Import JS TemplateParser PricingData CostCalculator DiffCalculator DiffSummary StackDiff.
Import StackSpec DispatchSpec Spec.
Import NumFacts JSMapFacts DiffFacts DiffSummaryFacts DiffAccountingFacts.
Import CalculatorFacts LoopFacts StackFacts DispatchFacts RecordFacts.

Section WithRuntime.
Context {rt : Runtime}.
Variable this : instance.




End WithRuntime.


End StackDiffFacts.

Module StackDiffClaims.
Import JS TemplateParser PricingData CostCalculator DiffCalculator DiffSummary StackDiff.
Import StackSpec DispatchSpec Spec Samples MoreSamples.
Import NumFacts JSMapFacts DiffFacts DiffSummaryFacts DiffAccountingFacts.
Import CalculatorFacts LoopFacts StackFacts DispatchFacts RecordFacts StackDiffFacts.







End StackDiffClaims.

(** ** An estimate and its parts *)

Module LocalityFacts.
Import JS TemplateParser PricingData CostCalculator StackSpec DispatchSpec Spec LocalitySpec.
Import ResolverFacts JSMapFacts CalculatorFacts LoopFacts StackFacts DispatchFacts RecordFacts.

Section WithRuntime.
Context {rt : Runtime}.
Variables t t' : value.
Hypothesis same_parameters : get t "Parameters" = get t' "Parameters".





End WithRuntime.


Section WithRuntime.
Context {rt : Runtime}.



Variables (this : instance) (t t' : value).
Hypothesis same_parameters : get t "Parameters" = get t' "Parameters".




End WithRuntime.
End LocalityFacts.

Module LocalityClaims.
Import JS TemplateParser PricingData CostCalculator StackSpec DispatchSpec Spec LocalitySpec.
Import Samples MoreSamples.
Import NumFacts JSMapFacts CalculatorFacts LoopFacts StackFacts DispatchFacts RecordFacts.
Import DiffSummaryFacts LocalityFacts.



End LocalityClaims.

Module OrderFacts.
Import JS TemplateParser PricingData CostCalculator StackSpec DispatchSpec Spec LocalitySpec.
Import OrderSpec.
Import NumFacts JSMapFacts CalculatorFacts LoopFacts StackFacts DispatchFacts RecordFacts.
Import DispatchOrderFacts DiffSummaryFacts LocalityFacts.

Section WithRuntime.
Context {rt : Runtime}.
Variables (this : instance) (template : value).

(** The loop returns when each iteration does, with what the iterations
    push, in their order. *)
Lemma visit_all_returns entries :
  Forall (visit_returns this template) entries ->
  exists d,
    visit_all this template start entries = Returns d
    /\ resources d = flat_map (pushed_costs this template) entries
    /\ unsupportedResources d = flat_map (pushed_records this template) entries.
Proof.
  induction entries as [|[id r] rest IH]; intros Hall.
  - exists start. repeat split.
  - inversion Hall as [|? ? (di & Hv) Hrest]; subst. cbn [fst snd] in Hv.
    destruct (IH Hrest) as (d & Hd & Hr & Hu).
    exists (extend di d). cbn [visit_all]. rewrite Hv. cbn [bind].
    rewrite visit_all_extend, Hd. cbn [bind]. split; [reflexivity|].
    unfold extend. cbn [resources unsupportedResources flat_map].
    unfold pushed_costs, pushed_records. cbn [fst snd]. rewrite Hv, Hr, Hu.
    split; reflexivity.
Qed.


(** Without estimator the iteration returns. *)
Lemma visit_without_estimator entry :
  needs_no_estimator entry -> visit_returns this template entry.
Proof.
  destruct entry as [id r]. intros (ty & Hty & Hno). unfold visit_returns.
  cbn [fst snd] in *. unfold visit. rewrite Hty.
  destruct (isFreeResource ty) eqn:Hfree; [now eexists|].
  destruct (JSMap.get (calculators this) ty) as [calc|] eqn:Hcalc.
  { clear Hcalc. destruct (calc id r template (pricing this)); now eexists. }
  destruct (has USAGE_BASED_RESOURCES ty) eqn:Husage.
  - destruct (proj1 (usage_dispatch_types this ty) (conj Hfree (conj Hcalc Husage)))
      as [Hin| ->]; [contradiction|].
    clear Hcalc. unfold calculateUsageBasedResource. rewrite Hty.
    change (JSMap.get usage_estimators "AWS::Firehose::DeliveryStream")
      with (@None (instance -> string -> value -> value -> outcome (option ResourceCost.t))).
    cbn [bind]. now eexists.
  - clear Hcalc. now eexists.
Qed.

End WithRuntime.
End OrderFacts.

Module OrderClaims.
Import JS TemplateParser PricingData CostCalculator StackSpec DispatchSpec Spec LocalitySpec.
Import OrderSpec Samples MoreSamples.
Import NumFacts JSMapFacts CalculatorFacts LoopFacts StackFacts DispatchFacts RecordFacts.
Import DispatchOrderFacts DiffSummaryFacts LocalityFacts OrderFacts.

(** [calculateStackCost] returns an estimate for every template whose
    resources all have a string as [Type], none of them one of the seven
    types for which a usage estimator is called: nothing else can make
    it throw, once [extractResources] has returned. *)
Theorem estimate_exists_without_estimators {rt : Runtime} (this : instance)
    (now stackName : string) (template : value) (source : TemplateSource)
    (entries : list (string * value)) :
  extractResources template = Returns entries ->
  Forall needs_no_estimator entries ->
  exists est, calculateStackCost this now stackName template source = Returns est.
Proof.
  intros He Hall.
  assert (Hret : Forall (visit_returns this template) entries).
  { rewrite List.Forall_forall in *. intros e Hin.
    apply visit_without_estimator. now apply Hall. }
  destruct (visit_all_returns this template entries Hret) as (d & Hd & _).
  destruct (calculateStackCost_completes this template now stackName source entries d He Hd)
    as (est & H & _).
  now exists est.
Qed.

Lemma estimate_exists_witness :
  exists est,
    calculateStackCost (rt := reference_runtime) sample_calculator timestamp "stack"
      mixed_stack local = Returns est.
Proof.
  apply (estimate_exists_without_estimators (rt := reference_runtime) sample_calculator
           timestamp "stack" mixed_stack local
           [role; topic; web_acl; disk; nat_gateway; thing]).
  - vm_compute; reflexivity.
  - repeat constructor; eexists; (split; [reflexivity|]);
      unfold estimated_types; simpl; intuition discriminate.
Defined.



End OrderClaims.

(** ** Queries on a template *)

Module TemplateQueryFacts.
Import JS TemplateParser TemplateQueries.
Import ResolverFacts JSMapFacts LoopFacts.

Lemma fold_set_filter {V : Type} (p : string * V -> bool) (l : list (string * V)) :
  forall acc,
    fold_left (fun m e => if p e then JSMap.set m (fst e) (snd e) else m) l acc
    = fold_left (fun m e => JSMap.set m (fst e) (snd e)) (List.filter p l) acc.
Proof.
  induction l as [|e l IH]; intros acc; [reflexivity|].
  cbn [fold_left List.filter]. destruct (p e); cbn [fold_left]; apply IH.
Qed.

Lemma NoDup_keys_filter {V : Type} (p : string * V -> bool) (l : list (string * V)) :
  List.NoDup (List.map fst l) -> List.NoDup (List.map fst (List.filter p l)).
Proof.
  induction l as [|e l IH]; intros H; [exact H|].
  cbn [List.filter List.map] in *. inversion H as [|? ? Hout Hnd]; subst.
  destruct (p e); [|now apply IH].
  cbn [List.map]. constructor; [|now apply IH].
  intros Hin. apply Hout. apply in_map_iff in Hin. destruct Hin as (x & Hx & Hin).
  apply filter_In in Hin. apply in_map_iff. exists x. now split; [|apply Hin].
Qed.

(** A loop that sets the entries that pass a test, over distinct keys,
    filters. *)
Lemma set_passing_entries {V : Type} (p : string * V -> bool) (l : list (string * V)) :
  List.NoDup (List.map fst l) ->
  fold_left (fun m e => if p e then JSMap.set m (fst e) (snd e) else m) l []
  = List.filter p l.
Proof.
  intros H. rewrite fold_set_filter.
  exact (of_entries_NoDup (List.filter p l) (NoDup_keys_filter p l H)).
Qed.

Section WithRuntime.
Context {rt : Runtime}.


End WithRuntime.
End TemplateQueryFacts.

Module TemplateQueryClaims.
Import JS TemplateParser TemplateQueries.
Import ResolverFacts JSMapFacts LoopFacts TemplateQueryFacts.



(** [extractResources] keeps, in their order, the entries of [Resources]
    that are objects with a key [Type], and drops the others (arrays,
    strings, numbers, [null], objects without [Type]). *)
Theorem extractResources_keeps_typed_objects (template : value)
    (fields : list (string * value)) :
  get template "Resources" = VObj fields ->
  List.NoDup (List.map fst fields) ->
  extractResources template
  = Returns (List.filter (fun entry => is_resource (snd entry)) fields).
Proof.
  intros Hres Hnd. unfold extractResources. rewrite Hres. cbn [object_entries bind].
  f_equal. exact (set_passing_entries (fun entry => is_resource (snd entry)) fields Hnd).
Qed.

Lemma extractResources_witness :
  extractResources
    (VObj [("Resources",
            VObj [("A", VObj [("Type", VStr "AWS::S3::Bucket")]);
                  ("B", VArr [VStr "Type"]);
                  ("C", VObj [("Properties", VObj [])]);
                  ("D", VObj [("Type", VNull)])])])
  = Returns [("A", VObj [("Type", VStr "AWS::S3::Bucket")]); ("D", VObj [("Type", VNull)])].
Proof.
  apply (extractResources_keeps_typed_objects
           (VObj [("Resources",
                   VObj [("A", VObj [("Type", VStr "AWS::S3::Bucket")]);
                         ("B", VArr [VStr "Type"]);
                         ("C", VObj [("Properties", VObj [])]);
                         ("D", VObj [("Type", VNull)])])])
           [("A", VObj [("Type", VStr "AWS::S3::Bucket")]);
            ("B", VArr [VStr "Type"]);
            ("C", VObj [("Properties", VObj [])]);
            ("D", VObj [("Type", VNull)])]).
  - reflexivity.
  - repeat constructor; simpl; intuition discriminate.
Defined.

(** [getResourcesByType] returns, in their order, the resources of
    [extractResources] whose [Type] is the given string; it throws when
    [extractResources] does. *)
Theorem getResourcesByType_filters (template : value) (resourceType : string) :
  getResourcesByType template resourceType
  = (let* allResources := extractResources template in
     Returns (List.filter (of_resource_type resourceType) allResources))%outcome.
Proof.
  unfold getResourcesByType.
  destruct (extractResources template) as [entries|m] eqn:He; cbn [bind]; [|reflexivity].
  f_equal. apply (set_passing_entries (of_resource_type resourceType)).
  exact (extractResources_NoDup template entries He).
Qed.

End TemplateQueryClaims.
